(** * Grants.gov opportunity ETL: a shallow embedding of the pipeline scripts

    The repository is a set of independent Python scripts and serverless
    handlers.  Each [Module] below embeds one of them: pure helpers become
    functions, the table store is an explicit finite map that is passed
    through, HTTP replies are inputs, and Python exceptions are explicit
    results.  The theorems at the end of the file are stated over these
    definitions. *)

From Stdlib Require Import ZArith QArith String Ascii List Lia Lqa Bool.
From stdpp Require Import gmap strings list fin_maps pretty.

Local Open Scope string_scope.
Local Open Scope list_scope.
Local Open Scope Z_scope.

(* ===================================================================== *)
(** * Python primitives used by the scripts *)
(* ===================================================================== *)

Module Py.

(** Text is modelled as [string], a sequence of bytes.  On ASCII text this
    is Python's [str]; the helpers below say so where it matters. *)

Definition is_digit (c : ascii) : bool :=
  let n := nat_of_ascii c in ((48 <=? n) && (n <=? 57))%nat.

Definition digit_value (c : ascii) : Z := Z.of_nat (nat_of_ascii c) - 48.

(** [str.isspace] on the ASCII range: TAB..CR, FS..US and the blank. *)
Definition is_space (c : ascii) : bool :=
  let n := nat_of_ascii c in
  (((9 <=? n) && (n <=? 13)) || ((28 <=? n) && (n <=? 32)))%nat.

(** [str.lower()] on ASCII letters. *)
Definition lower_ascii (c : ascii) : ascii :=
  let n := nat_of_ascii c in
  if ((65 <=? n) && (n <=? 90))%nat then ascii_of_nat (n + 32) else c.

Fixpoint lower (s : string) : string :=
  match s with
  | EmptyString => EmptyString
  | String c r => String (lower_ascii c) (lower r)
  end.

(** [needle in haystack]. *)
Fixpoint contains (needle haystack : string) : bool :=
  String.prefix needle haystack ||
  match haystack with
  | EmptyString => false
  | String _ r => contains needle r
  end.

(** Text within the ASCII range. *)
Fixpoint is_ascii (s : string) : bool :=
  match s with
  | EmptyString => true
  | String c r => (nat_of_ascii c <? 128)%nat && is_ascii r
  end.

(** The null character. *)
Definition NUL : ascii := Ascii.zero.

(** [c in s] for a character [c]. *)
Fixpoint has_char (c : ascii) (s : string) : bool :=
  match s with
  | EmptyString => false
  | String d r => Ascii.eqb c d || has_char c r
  end.

(** [s.replace(c, '')] for a one-character [c]. *)
Fixpoint remove_char (c : ascii) (s : string) : string :=
  match s with
  | EmptyString => EmptyString
  | String d r => if Ascii.eqb c d then remove_char c r else String d (remove_char c r)
  end.

(** [re.sub('[^...]', '', s)]: keep the characters of the class. *)
Fixpoint keep_chars (keep : ascii -> bool) (s : string) : string :=
  match s with
  | EmptyString => EmptyString
  | String d r => if keep d then String d (keep_chars keep r) else keep_chars keep r
  end.

Fixpoint lstrip (drop : ascii -> bool) (s : string) : string :=
  match s with
  | EmptyString => EmptyString
  | String d r => if drop d then lstrip drop r else s
  end.

Definition rstrip (drop : ascii -> bool) (s : string) : string :=
  String.rev (lstrip drop (String.rev s)).

(** [s.strip(chars)]. *)
Definition strip (drop : ascii -> bool) (s : string) : string :=
  rstrip drop (lstrip drop s).

Definition len (s : string) : Z := Z.of_nat (String.length s).

(** Index normalisation of a slice bound: negative bounds count from the
    end, and every bound is clamped to the sequence. *)
Definition slice_index (n i : Z) : Z :=
  if i <? 0 then Z.max 0 (i + n) else Z.min i n.

(** [l[lo:hi]] on a list. *)
Definition slice {A} (l : list A) (lo hi : Z) : list A :=
  let n := Z.of_nat (length l) in
  let a := slice_index n lo in
  let b := slice_index n hi in
  firstn (Z.to_nat (b - a)) (skipn (Z.to_nat a) l).

(** [s[lo:hi]] on text. *)
Definition str_slice (s : string) (lo hi : Z) : string :=
  let n := len s in
  let a := slice_index n lo in
  let b := slice_index n hi in
  String.substring (Z.to_nat a) (Z.to_nat (b - a)) s.

(** ** [int(text)]

    Surrounding white space is dropped, one sign is allowed, then decimal
    digits follow, single underscores being allowed between digits.  A
    literal of more than [int_max_str_digits] digits is refused.  [None]
    stands for [ValueError]. *)

Definition int_max_str_digits : nat := 4300.

(** The digits of a literal, [prev] telling whether the previous character
    was a digit (an underscore needs a digit on both sides). *)
Fixpoint int_digits (prev : bool) (acc : Z) (count : nat) (s : string)
  : option (Z * nat) :=
  match s with
  | EmptyString => if prev then Some (acc, count) else None
  | String c r =>
      if is_digit c then int_digits true (10 * acc + digit_value c) (S count) r
      else if Ascii.eqb c "_" then
        if prev then int_digits false acc count r else None
      else None
  end.

Definition int_unsigned (s : string) : option Z :=
  match int_digits false 0 0%nat s with
  | Some (v, count) => if (count <=? int_max_str_digits)%nat then Some v else None
  | None => None
  end.

(** The white space [int] skips in ASCII text: TAB..CR and the blank. *)
Definition is_c_space (c : ascii) : bool :=
  let n := nat_of_ascii c in (((9 <=? n) && (n <=? 13)) || (n =? 32))%nat.

Definition int (s : string) : option Z :=
  match strip is_c_space s with
  | String "+" r => int_unsigned r
  | String "-" r => option_map Z.opp (int_unsigned r)
  | t => int_unsigned t
  end.

(** ** [str(n)] of an integer

    [str()], an f-string and [json.dumps] write an [int] in decimal, and
    refuse one of more than [int_max_str_digits] digits.  [None] stands
    for that [ValueError]. *)

Definition int_str_bound : Z := 10 ^ Z.of_nat int_max_str_digits.

Definition str_of_int (n : Z) : option string :=
  if Z.abs n <? int_str_bound then Some (pretty n) else None.

(** [s * n]. *)
Fixpoint str_mul (s : string) (n : nat) : string :=
  match n with
  | O => EmptyString
  | S k => s +:+ str_mul s k
  end.

(** ** Exceptions *)

Inductive exn := ValueError | TypeError | OverflowError | AttributeError.

Inductive result (A : Type) :=
| Ok (a : A)
| Raise (e : exn).
Arguments Ok {A} a.
Arguments Raise {A} e.

Definition exn_eqb (a b : exn) : bool :=
  match a, b with
  | ValueError, ValueError | TypeError, TypeError
  | OverflowError, OverflowError | AttributeError, AttributeError => true
  | _, _ => false
  end.

(** [try: body except (e1, e2, ...): handler]. *)
Definition try_except {A} (body : result A) (caught : list exn) (handler : A) : result A :=
  match body with
  | Ok a => Ok a
  | Raise e => if existsb (exn_eqb e) caught then Ok handler else Raise e
  end.

(** ** Values

    A [float] is modelled by the exact rational it denotes, in lowest
    terms; rounding to binary64 is outside the model.  [VOther] stands for
    a list or a dict. *)

Inductive value :=
| VNone
| VBool (b : bool)
| VInt (z : Z)
| VFloat (q : Q)
| VStr (s : string)
| VOther.

(** Scalars of a decoded JSON payload, for the handlers that render them
    with [str()]. *)
Inductive json :=
| JNull
| JBool (b : bool)
| JInt (z : Z)
| JStr (s : string).

(** [str(x)]. *)
Definition str (x : json) : string :=
  match x with
  | JNull => "None"
  | JBool true => "True"
  | JBool false => "False"
  | JInt z => pretty z
  | JStr s => s
  end.

(** [bool(x)]. *)
Definition truthy (x : json) : bool :=
  match x with
  | JNull => false
  | JBool b => b
  | JInt z => negb (z =? 0)
  | JStr s => negb (String.eqb s "")
  end.

(** [d.get(key)]: a missing key reads as [None]. *)
Definition jget (d : gmap string json) (key : string) : json :=
  default JNull (d !! key).

(** ** [float(text)] on cleaned text

    Both [safe_float] helpers strip every character but digits, the point
    and the minus sign before they call [float].  Over that alphabet a
    literal is an optional minus, then digits with at most one point and
    at least one digit; anything else is a [ValueError] ([None]). *)

Fixpoint digits_run (acc : Z) (count : nat) (s : string) : Z * nat * string :=
  match s with
  | EmptyString => (acc, count, s)
  | String c r =>
      if is_digit c then digits_run (10 * acc + digit_value c) (S count) r
      else (acc, count, s)
  end.

Definition unsigned_decimal (s : string) : option Q :=
  let '(ip, ni, rest) := digits_run 0 0%nat s in
  match rest with
  | EmptyString => if (ni =? 0)%nat then None else Some (ip # 1)
  | String "." r =>
      let '(fp, nf, rest') := digits_run ip 0%nat r in
      match rest' with
      | EmptyString =>
          if (ni + nf =? 0)%nat then None
          else Some (Qred (fp # Z.to_pos (10 ^ Z.of_nat nf)))
      | _ => None
      end
  | _ => None
  end.

Definition float_of_decimal (s : string) : option Q :=
  match s with
  | String "-" r => option_map Qopp (unsigned_decimal r)
  | _ => unsigned_decimal s
  end.

(** The largest magnitude an [int] may have and still convert to a float. *)
Definition float_int_bound : Z := 2 ^ 1024 - 2 ^ 970.

(** [float(v)] for a [v] that is not text. *)
Definition float_of_number (v : value) : result Q :=
  match v with
  | VBool b => Ok (if b then 1 else 0)%Q
  | VInt z => if Z.abs z <? float_int_bound then Ok (z # 1) else Raise OverflowError
  | VFloat q => Ok q
  | VNone | VStr _ | VOther => Raise TypeError
  end.

(** [bool(v)]; [VOther] stands for a list or dict that is not empty. *)
Definition vtruthy (v : value) : bool :=
  match v with
  | VNone => false
  | VBool b => b
  | VInt z => negb (z =? 0)
  | VFloat q => negb (Qnum q =? 0)
  | VStr s => negb (String.eqb s "")
  | VOther => true
  end.

(** [a > b] on floats. *)
Definition Qgtb (a b : Q) : bool := negb (Qle_bool a b).

(** ** Calendar dates and [datetime.strptime]

    [strptime] turns the format into a regular expression (white space in
    the format becomes [\s+], each directive a group of alternatives tried
    in order), matches it against the start of the text as a backtracking
    matcher does, refuses text that the match leaves unread, and then
    builds the date.  The model covers the directives the scripts use and
    ASCII text; [None] stands for [ValueError]. *)

Record datetime := {
  year : Z; month : Z; day : Z; hour : Z; minute : Z; second : Z; microsecond : Z
}.

Definition is_leap (y : Z) : bool :=
  ((y mod 4 =? 0) && negb (y mod 100 =? 0)) || (y mod 400 =? 0).

Definition days_in_month (y m : Z) : Z :=
  if m =? 2 then (if is_leap y then 29 else 28)
  else if (m =? 4) || (m =? 6) || (m =? 9) || (m =? 11) then 30
  else 31.

(** The range check of [datetime.date(y, m, d)]. *)
Definition valid_date (y m d : Z) : bool :=
  (1 <=? y) && (y <=? 9999) && (1 <=? m) && (m <=? 12)
  && (1 <=? d) && (d <=? days_in_month y m).

Definition valid_datetime (t : datetime) : bool :=
  valid_date (year t) (month t) (day t)
  && (0 <=? hour t) && (hour t <=? 23)
  && (0 <=? minute t) && (minute t <=? 59)
  && (0 <=? second t) && (second t <=? 59)
  && (0 <=? microsecond t) && (microsecond t <=? 999999).

(** *** Day numbers

    [datetime - timedelta(days=n)] goes through the proleptic Gregorian
    day number of the date: 1 is the first of January of year 1. *)

Definition days_before_year (y : Z) : Z :=
  let y := y - 1 in y * 365 + y / 4 - y / 100 + y / 400.

Definition days_before_month_table (m : Z) : Z :=
  nth (Z.to_nat m) [-1; 0; 31; 59; 90; 120; 151; 181; 212; 243; 273; 304; 334] 0.

Definition days_in_month_table (m : Z) : Z :=
  nth (Z.to_nat m) [-1; 31; 28; 31; 30; 31; 30; 31; 31; 30; 31; 30; 31] 0.

Definition days_before_month (y m : Z) : Z :=
  days_before_month_table m + (if (m >? 2) && is_leap y then 1 else 0).

Definition ymd2ord (y m d : Z) : Z :=
  days_before_year y + days_before_month y m + d.

Definition max_ordinal : Z := 3652059.

Definition ord2ymd (n : Z) : Z * Z * Z :=
  let n := n - 1 in
  let n400 := n / 146097 in let n := n mod 146097 in
  let n100 := n / 36524 in let n := n mod 36524 in
  let n4 := n / 1461 in let n := n mod 1461 in
  let n1 := n / 365 in let n := n mod 365 in
  let y := n400 * 400 + 1 + n100 * 100 + n4 * 4 + n1 in
  if (n1 =? 4) || (n100 =? 4) then (y - 1, 12, 31)
  else
    let leapyear := (n1 =? 3) && (negb (n4 =? 24) || (n100 =? 3)) in
    let m := Z.shiftr (n + 50) 5 in
    let preceding := days_before_month_table m + (if (m >? 2) && leapyear then 1 else 0) in
    if preceding >? n
    then let m := m - 1 in
         let preceding :=
           preceding - (days_in_month_table m + (if (m =? 2) && leapyear then 1 else 0)) in
         (y, m, n - preceding + 1)
    else (y, m, n - preceding + 1).

(** [t - timedelta(days=n)]; [None] is the library's [OverflowError]. *)
Definition minus_days (t : datetime) (n : Z) : option datetime :=
  let ordinal := ymd2ord (year t) (month t) (day t) - n in
  if (0 <? ordinal) && (ordinal <=? max_ordinal) then
    let '(y, m, d) := ord2ymd ordinal in
    Some {| year := y; month := m; day := d; hour := hour t; minute := minute t;
            second := second t; microsecond := microsecond t |}
  else None.

Definition digit_char (d : Z) : ascii := ascii_of_nat (48 + Z.to_nat d).

(** ["%0<width>d" % n] for [0 <= n < 10 ^ width], the case of every field
    of a date in range. *)
Fixpoint zfill (width : nat) (n : Z) : string :=
  match width with
  | O => EmptyString
  | S k => zfill k (n / 10) +:+ String (digit_char (n mod 10)) EmptyString
  end.

(** [datetime.isoformat()]. *)
Definition isoformat (t : datetime) : string :=
  zfill 4 (year t) +:+ "-" +:+ zfill 2 (month t) +:+ "-" +:+ zfill 2 (day t)
  +:+ "T" +:+ zfill 2 (hour t) +:+ ":" +:+ zfill 2 (minute t) +:+ ":" +:+ zfill 2 (second t)
  +:+ (if microsecond t =? 0 then "" else "." +:+ zfill 6 (microsecond t)).

(** [datetime.max.isoformat()]. *)
Definition datetime_max : datetime :=
  {| year := 9999; month := 12; day := 31; hour := 23; minute := 59; second := 59;
     microsecond := 999999 |}.

Inductive directive := D_Y | D_m | D_d | D_H | D_I | D_M | D_p.

Inductive fmt_item :=
| Dir (d : directive)
| Lit (c : ascii)
| Spaces.

(** One position of an alternative. *)
Inductive cls :=
| Digit
| Range (lo hi : ascii)
| Letter (c : ascii).

Definition cls_match (k : cls) (c : ascii) : bool :=
  match k with
  | Digit => is_digit c
  | Range lo hi =>
      ((nat_of_ascii lo <=? nat_of_ascii c) && (nat_of_ascii c <=? nat_of_ascii hi))%nat
  | Letter l => Ascii.eqb (lower_ascii c) (lower_ascii l)
  end.

(** The alternatives of each directive, in the order the library tries
    them. *)
Definition alternatives (d : directive) : list (list cls) :=
  match d with
  | D_Y => [[Digit; Digit; Digit; Digit]]
  | D_m | D_I => [[Letter "1"; Range "0" "2"]; [Letter "0"; Range "1" "9"]; [Range "1" "9"]]
  | D_d => [[Letter "3"; Range "0" "1"]; [Range "1" "2"; Digit]; [Letter "0"; Range "1" "9"];
            [Range "1" "9"]; [Letter " "; Range "1" "9"]]
  | D_H => [[Letter "2"; Range "0" "3"]; [Range "0" "1"; Digit]; [Digit]]
  | D_M => [[Range "0" "5"; Digit]; [Digit]]
  | D_p => [[Letter "a"; Letter "m"]; [Letter "p"; Letter "m"]]
  end.

(** The format text as items: ["%m/%d/%Y %H:%M"] and the like. *)
Fixpoint compile_format (fmt : string) : list fmt_item :=
  match fmt with
  | EmptyString => []
  | String "%" (String c r) =>
      match c with
      | "Y"%char => Dir D_Y :: compile_format r
      | "m"%char => Dir D_m :: compile_format r
      | "d"%char => Dir D_d :: compile_format r
      | "H"%char => Dir D_H :: compile_format r
      | "I"%char => Dir D_I :: compile_format r
      | "M"%char => Dir D_M :: compile_format r
      | "p"%char => Dir D_p :: compile_format r
      | _ => Lit c :: compile_format r
      end
  | String c r =>
      if is_space c then
        match compile_format r with
        | Spaces :: items => Spaces :: items
        | items => Spaces :: items
        end
      else Lit c :: compile_format r
  end.

(** One alternative against the start of the text: what it read and what
    is left. *)
Fixpoint match_alt (alt : list cls) (s : string) : option (string * string) :=
  match alt with
  | [] => Some (EmptyString, s)
  | k :: alt' =>
      match s with
      | EmptyString => None
      | String c r =>
          if cls_match k c
          then match match_alt alt' r with
               | Some (m, rest) => Some (String c m, rest)
               | None => None
               end
          else None
      end
  end.

(** The first element of [xs] on which [f] succeeds. *)
Fixpoint first_some {A B} (f : A -> option B) (xs : list A) : option B :=
  match xs with
  | [] => None
  | x :: r => match f x with Some b => Some b | None => first_some f r end
  end.

(** [\s+] followed by [k]: the longest run of white space first, then
    shorter ones, never an empty one. *)
Fixpoint match_spaces {B} (k : string -> option B) (s : string) : option B :=
  match s with
  | String c r =>
      if is_space c
      then match match_spaces k r with
           | Some b => Some b
           | None => k r
           end
      else None
  | EmptyString => None
  end.

(** The backtracking match: the groups read, latest first, and the text
    the match leaves unread. *)
Fixpoint match_items (items : list fmt_item) (caps : list (directive * string))
    (s : string) : option (list (directive * string) * string) :=
  match items with
  | [] => Some (caps, s)
  | Lit l :: items' =>
      match s with
      | String c r =>
          if Ascii.eqb (lower_ascii c) (lower_ascii l) then match_items items' caps r else None
      | EmptyString => None
      end
  | Spaces :: items' => match_spaces (match_items items' caps) s
  | Dir d :: items' =>
      first_some
        (fun alt =>
           match match_alt alt s with
           | Some (m, rest) => match_items items' ((d, m) :: caps) rest
           | None => None
           end)
        (alternatives d)
  end.

Definition directive_eqb (a b : directive) : bool :=
  match a, b with
  | D_Y, D_Y | D_m, D_m | D_d, D_d | D_H, D_H | D_I, D_I | D_M, D_M | D_p, D_p => true
  | _, _ => false
  end.

Fixpoint group (d : directive) (caps : list (directive * string)) : option string :=
  match caps with
  | [] => None
  | (d', m) :: r => if directive_eqb d d' then Some m else group d r
  end.

(** A numeric group, with the library's default when the format has no
    such directive. *)
Definition group_int (d : directive) (dflt : Z) (caps : list (directive * string)) : option Z :=
  match group d caps with
  | None => Some dflt
  | Some m => int m
  end.

(** The hour: [%H] as it stands, [%I] corrected by [%p]. *)
Definition group_hour (caps : list (directive * string)) : option Z :=
  match group D_H caps, group D_I caps with
  | Some m, _ => int m
  | None, Some m =>
      match int m with
      | Some h =>
          let ampm := lower (default "" (group D_p caps)) in
          if String.eqb ampm "pm"
          then Some (if h =? 12 then 12 else h + 12)
          else Some (if h =? 12 then 0 else h)
      | None => None
      end
  | None, None => Some 0
  end.

Definition strptime (date_string fmt : string) : option datetime :=
  match match_items (compile_format fmt) [] date_string with
  | Some (caps, EmptyString) =>
      match group_int D_Y 1900 caps, group_int D_m 1 caps, group_int D_d 1 caps,
            group_hour caps, group_int D_M 0 caps with
      | Some y, Some m, Some d, Some h, Some mi =>
          if valid_date y m d
          then Some {| year := y; month := m; day := d; hour := h; minute := mi;
                       second := 0; microsecond := 0 |}
          else None
      | _, _, _, _, _ => None
      end
  | _ => None
  end.

End Py.

(* ===================================================================== *)
(** * GrantsViewer: the read endpoint
      (functions/GrantsGovFunctions/GrantsViewer/__init__.py) *)
(* ===================================================================== *)

Module Viewer.

(** A stored grant as the viewer sees it: its properties by name, each by
    the text that [str()] gives for it. *)
Abbreviation row := (gmap string string).

Definition get (r : row) (field dflt : string) : string :=
  default dflt (r !! field).

Record simplified_grant := {
  ID : string; Title : string; Agency : string; Description : string;
  PostDate : string; CloseDate : string; CFDANumbers : string;
  AwardRange : string; Category : string; OpportunityURL : string
}.

Record pagination := { total : Z; page : Z; limit : Z; pages : Z }.

Inductive response :=
| JsonOk (p : pagination) (grants : list simplified_grant)
| HtmlOk (total_records : Z) (p : pagination) (grants : list simplified_grant)
| Error500.

(** Lines 19-27: the [limit] parameter. *)
Definition parse_limit (params : gmap string string) : Z :=
  match Py.int (get params "limit" "100") with
  | Some limit =>
      if limit <=? 0 then 100
      else if limit >? 10000 then 10000
      else limit
  | None => 100
  end.

(** Lines 30-33: the [page] parameter. *)
Definition parse_page (params : gmap string string) : Z :=
  match Py.int (get params "page" "1") with
  | Some p => Z.max 1 p
  | None => 1
  end.

Definition search_fields : list string :=
  ["Title"; "Description"; "AgencyName"; "Number"; "CFDANumbers"].

(** Lines 86-99: the three client-side filters. *)
Definition matches (search_term agency_filter category_filter : string) (grant : row) : bool :=
  (if String.eqb search_term "" then true
   else existsb (fun field => Py.contains search_term (Py.lower (get grant field ""))) search_fields)
  && (if String.eqb agency_filter "" then true
      else Py.contains agency_filter (Py.lower (get grant "AgencyName" "")))
  && (if String.eqb category_filter "" then true
      else Py.contains category_filter (Py.lower (get grant "Category" ""))).

Definition space_or_dash (c : ascii) : bool :=
  Ascii.eqb c " " || Ascii.eqb c "-".

(** Lines 102-113. *)
Definition simplify (grant : row) : simplified_grant :=
  {| ID := get grant "RowKey" "";
     Title := get grant "Title" "";
     Agency := get grant "AgencyName" "";
     Description := get grant "Description" "";
     PostDate := get grant "OpenDate" "";
     CloseDate := get grant "CloseDate" "";
     CFDANumbers := get grant "CFDANumbers" "";
     AwardRange :=
       Py.strip space_or_dash
         (get grant "AwardFloor" "" +:+ " - " +:+ get grant "AwardCeiling" "");
     Category := get grant "Category" "";
     OpportunityURL := get grant "OpportunityURL" "" |}.

Definition filtered_grants (params : gmap string string) (query_results : list row)
  : list simplified_grant :=
  let search_term := Py.lower (get params "search" "") in
  let agency_filter := Py.lower (get params "agency" "") in
  let category_filter := Py.lower (get params "category" "") in
  map simplify (filter (fun g => matches search_term agency_filter category_filter g = true)
                       query_results).

(** Line 120. *)
Definition total_pages (total_count limit : Z) : Z :=
  if total_count >? 0 then (total_count + limit - 1) / limit else 1.

(** A log line whose f-string writes the integers [ns] is built when each
    of them can be written; otherwise the f-string raises [ValueError],
    which the handler of line 245 turns into the reply 500. *)
Definition logs (ns : list Z) : bool :=
  forallb (fun n => match Py.str_of_int n with Some _ => true | None => false end) ns.

(** [main].  [connection_string] is the environment variable; [count_query]
    and [list_query] are the replies of the two table scans, [None] when
    the storage client raises.  The log lines 77 and 123 write [offset],
    [limit] and [page]; the lengths they and the lines 68 and 116 write
    are lengths of lists, below [sys.maxsize], and can always be
    written. *)
Definition main (params : gmap string string)
    (connection_string : option string)
    (count_query list_query : option (list row)) : response :=
  let format_type := Py.lower (get params "format" "json") in
  let limit := parse_limit params in
  let page := parse_page params in
  let offset := (page - 1) * limit in
  match connection_string with
  | None | Some EmptyString => Error500
  | Some _ =>
      let total_records :=
        match count_query with
        | Some rows => Z.of_nat (length rows)
        | None => 10000
        end in
      if negb (logs [offset; limit]) then Error500
      else
        match list_query with
        | None => Error500
        | Some query_results =>
            let filtered := filtered_grants params query_results in
            let total_count := Z.of_nat (length filtered) in
            let pages := total_pages total_count limit in
            let paginated_grants := Py.slice filtered offset (offset + limit) in
            let p := {| total := total_count; page := page; limit := limit; pages := pages |} in
            if negb (logs [page; limit; offset]) then Error500
            else if String.eqb format_type "html"
            then HtmlOk total_records p paginated_grants
            else JsonOk p paginated_grants
        end
  end.

(** The pagination block and the page of a successful reply. *)
Definition body (r : response) : option (pagination * list simplified_grant) :=
  match r with
  | JsonOk p g | HtmlOk _ p g => Some (p, g)
  | Error500 => None
  end.

(** A grant passes a filter when no term is given or one of the fields
    holds the term. *)
Definition passes (term : string) (fields : list string) (grant : row) : Prop :=
  term = "" \/ exists field, In field fields
                             /\ Py.contains term (Py.lower (get grant field "")) = true.

(** The spec's page count, "the ceiling of total/limit". *)
Definition ceiling_div (a b : Z) : Z := - ((- a) / b).

End Viewer.


(* ===================================================================== *)
(** * connection_resilient_collector.py: numeric coercion *)
(* ===================================================================== *)

Module Collector.

Definition numeric_char (c : ascii) : bool :=
  Py.is_digit c || Ascii.eqb c "." || Ascii.eqb c "-".

(** Lines 142-147: the clean-up of a text value.  [None] is the early
    [return default]. *)
Definition clean_amount (s : string) : option string :=
  let value := Py.remove_char "," (Py.remove_char "$" s) in
  let value := Py.keep_chars numeric_char value in
  if String.eqb value "" || String.eqb value "." || String.eqb value "-"
     || String.eqb value "-."
  then None else Some value.

(** [safe_float(value, default)], lines 136-150. *)
Definition safe_float (value : Py.value) (default : Q) : Py.result Q :=
  match value with
  | Py.VNone => Py.Ok default
  | Py.VStr s =>
      match clean_amount s with
      | None => Py.Ok default
      | Some cleaned =>
          Py.try_except
            (match Py.float_of_decimal cleaned with
             | Some q => Py.Ok q
             | None => Py.Raise Py.ValueError
             end)
            [Py.ValueError; Py.TypeError] default
      end
  | _ => Py.try_except (Py.float_of_number value) [Py.ValueError; Py.TypeError] default
  end.

(** Text that does not denote an amount: nothing is left of it after the
    clean-up, or what is left is not a decimal literal. *)
Definition invalid_text (s : string) : Prop :=
  match clean_amount s with
  | None => True
  | Some cleaned => Py.float_of_decimal cleaned = None
  end.

End Collector.

(* ===================================================================== *)
(** * grants_gov/etl/transform.py: the normaliser of the relational ETL *)
(* ===================================================================== *)

Module Transformer.

(** A raw opportunity: the scalar fields of one search hit. *)
Abbreviation payload := (gmap string Py.json).

(** The transformed record.  Fields read from the payload keep the value
    found there ([JNull] for a missing key); [raw_data] stands for the text
    [json.dumps(opp)] and is kept as the payload itself. *)
Record opportunity := {
  id : Py.json;
  opportunity_url : string;
  title : Py.json;
  deadline : Py.json;
  time_zone : string;
  award_value : Py.json;
  cash_award : Py.json;
  direct_link_to_apply_url : string;
  opportunity_gap : Py.json;
  type : string;
  global_opportunity : bool;
  global_locations : string;
  countries_eligible : string;
  location_details : string;
  short_description : string;
  eligibility : Py.json;
  long_description : Py.json;
  target_community : Py.json;
  opportunity_logo_url : Py.json;
  date_posted : Py.json;
  industry : Py.json;
  service_provider : Py.json;
  eso_website : Py.json;
  contact_email : Py.json;
  agency : Py.json;
  agency_code : Py.json;
  opportunity_number : Py.json;
  opportunity_status : Py.json;
  open_date : Py.json;
  close_date : Py.json;
  raw_data : payload
}.

Inductive log_event :=
| Warning_skipping (opp : payload)
| Info_transformed (count : Z).

(** Line 25: the test that skips a record. *)
Definition missing_critical (opp : payload) : bool :=
  negb (Py.truthy (Py.jget opp "id")) || negb (Py.truthy (Py.jget opp "title")).

(** Line 57: [opp.get('description', '')[:500]].  Only text can be
    sliced. *)
Definition description_prefix (opp : payload) : Py.result string :=
  match opp !! "description" with
  | None => Py.Ok (Py.str_slice "" 0 500)
  | Some (Py.JStr s) => Py.Ok (Py.str_slice s 0 500)
  | Some _ => Py.Raise Py.TypeError
  end.

(** Lines 30-80. *)
Definition build (opp : payload) (short : string) : opportunity :=
  {| id := Py.jget opp "id";
     opportunity_url :=
       "https://www.grants.gov/search-results-detail/" +:+ Py.str (Py.jget opp "id");
     title := Py.jget opp "title";
     deadline := Py.jget opp "closeDate";
     time_zone := "Eastern Time (ET)";
     award_value := Py.JNull;
     cash_award := Py.JNull;
     direct_link_to_apply_url :=
       "https://www.grants.gov/apply-for-grants/opportunities/" +:+ Py.str (Py.jget opp "id");
     opportunity_gap := Py.JNull;
     type := "Grant";
     global_opportunity := false;
     global_locations := "North America";
     countries_eligible := "United States";
     location_details := "United States";
     short_description := short;
     eligibility := Py.JNull;
     long_description := Py.jget opp "description";
     target_community := Py.JNull;
     opportunity_logo_url := Py.JNull;
     date_posted := Py.jget opp "openDate";
     industry := Py.JNull;
     service_provider := Py.jget opp "agency";
     eso_website := Py.JNull;
     contact_email := Py.JNull;
     agency := Py.jget opp "agency";
     agency_code := Py.jget opp "agencyCode";
     opportunity_number := Py.jget opp "number";
     opportunity_status := Py.jget opp "oppStatus";
     open_date := Py.jget opp "openDate";
     close_date := Py.jget opp "closeDate";
     raw_data := opp |}.

(** The [for] loop of [transform_opportunities]: the records transformed so
    far and the log lines written so far are threaded through; an
    exception leaves the loop with the log as it stands. *)
Fixpoint transform_loop (opportunities : list payload)
    (transformed : list opportunity) (log : list log_event)
  : list log_event * Py.result (list opportunity) :=
  match opportunities with
  | [] => (log, Py.Ok transformed)
  | opp :: rest =>
      if missing_critical opp
      then transform_loop rest transformed (log ++ [Warning_skipping opp])
      else match description_prefix opp with
           | Py.Raise e => (log, Py.Raise e)
           | Py.Ok short => transform_loop rest (transformed ++ [build opp short]) log
           end
  end.

(** [GrantDataTransformer.transform_opportunities]: the log it writes and
    what it returns. *)
Definition transform_opportunities (opportunities : list payload)
  : list log_event * Py.result (list opportunity) :=
  match transform_loop opportunities [] [] with
  | (log, Py.Ok transformed) =>
      (log ++ [Info_transformed (Z.of_nat (length transformed))], Py.Ok transformed)
  | (log, Py.Raise e) => (log, Py.Raise e)
  end.

(** What every record the transformer builds satisfies. *)
Definition well_formed (r : opportunity) : Prop :=
  id r = Py.jget (raw_data r) "id"
  /\ title r = Py.jget (raw_data r) "title"
  /\ Py.truthy (id r) = true /\ Py.truthy (title r) = true
  /\ opportunity_url r
     = "https://www.grants.gov/search-results-detail/" +:+ Py.str (id r)
  /\ direct_link_to_apply_url r
     = "https://www.grants.gov/apply-for-grants/opportunities/" +:+ Py.str (id r)
  /\ (String.length (short_description r) <= 500)%nat
  /\ match long_description r with
     | Py.JStr text => String.prefix (short_description r) text = true
     | _ => short_description r = ""
     end.

(** A description that cannot be sliced: present and not text. *)
Definition bad_description (opp : payload) : bool :=
  match opp !! "description" with
  | None | Some (Py.JStr _) => false
  | Some _ => true
  end.

(** A payload that passes the test of line 25. *)
Definition complete (opp : payload) : bool := negb (missing_critical opp).

(** The counts a run reports: the numbers in its [Info_transformed]
    lines. *)
Definition reported_counts (log : list log_event) : list Z :=
  flat_map (fun ev => match ev with Info_transformed n => [n] | _ => [] end) log.

(** The warnings a run writes. *)
Definition warnings (log : list log_event) : list payload :=
  flat_map (fun ev => match ev with Warning_skipping o => [o] | _ => [] end) log.

End Transformer.

(* ===================================================================== *)
(** * The table store

    The scripts keep grants in one table of the cloud table service,
    reached through its client.  An entity is addressed by its partition
    key and row key and carries named properties.  A merge write replaces
    the properties the written entity names and keeps the others. *)
(* ===================================================================== *)

Module Table.

Abbreviation entity := (gmap string Py.value).
Abbreviation table := (gmap (string * string) (gmap string Py.value)).

(** [upsert_entity(entity, mode=UpdateMode.MERGE)]; [MERGE] is also the
    mode when none is given. *)
Definition upsert_entity (t : table) (pk rk : string) (props : entity) : table :=
  <[(pk, rk) := props ∪ default ∅ (t !! (pk, rk))]> t.

(** [update_entity(mode=UpdateMode.MERGE, entity=...)]: the entity has to
    exist; [None] is the client's error. *)
Definition update_entity (t : table) (pk rk : string) (props : entity) : option table :=
  match t !! (pk, rk) with
  | Some old => Some (<[(pk, rk) := props ∪ old]> t)
  | None => None
  end.

Definition get_entity (t : table) (pk rk : string) : option entity := t !! (pk, rk).

Definition delete_entity (t : table) (pk rk : string) : table := delete (pk, rk) t.

(** [query_entities("PartitionKey eq '<pk>'")]: the rows of one
    partition, each with its keys. *)
Definition query_entities (t : table) (pk : string) : list (string * string * entity) :=
  filter (fun row => row.1.1 = pk) (map_to_list t).

End Table.

(* ===================================================================== *)
(** * secondary_sources/grant_gov/etl_script.py: dates of the bulk extract *)
(* ===================================================================== *)

Module BulkEtl.

(** [parse_grants_date], lines 277-294: a cell of a date column to a date
    [(year, month, day)], or [None]. *)
Definition parse_grants_date (date_str : Py.value) : option (Z * Z * Z) :=
  match date_str with
  | Py.VStr s =>
      if String.eqb s "" then None
      else if Py.len s =? 8 then
        match Py.int (Py.str_slice s 0 2), Py.int (Py.str_slice s 2 4),
              Py.int (Py.str_slice s 4 8) with
        | Some month, Some day, Some year =>
            if (1 <=? month) && (month <=? 12) && (1 <=? day) && (day <=? 31)
            then if Py.valid_date year month day then Some (year, month, day) else None
            else None
        | _, _, _ => None
        end
      else None
  | _ => None
  end.

End BulkEtl.

(* ===================================================================== *)
(** * src/scripts/resilient_grant_scraper.py *)
(* ===================================================================== *)

Module Scraper.

Definition date_formats : list string :=
  ["%m/%d/%Y"; "%m-%d-%Y"; "%Y-%m-%d";
   "%m/%d/%Y %I:%M %p"; "%m-%d-%Y %I:%M %p"; "%Y-%m-%d %I:%M %p";
   "%m/%d/%Y %H:%M"; "%m-%d-%Y %H:%M"; "%Y-%m-%d %H:%M"].

(** [format_date], lines 105-125, on text.  The result [None] is Python's
    [None]. *)
Definition format_date (date_str : string) : option string :=
  if String.eqb date_str "" then None
  else match Py.first_some (Py.strptime date_str) date_formats with
       | Some date_obj => Some (Py.isoformat date_obj)
       | None => Some date_str
       end.

(** ** Numeric coercion, lines 64-103 *)

Definition float_char (c : ascii) : bool :=
  Py.is_digit c || Ascii.eqb c "." || Ascii.eqb c "-".

Definition int_char (c : ascii) : bool :=
  Py.is_digit c || Ascii.eqb c "-".

(** [safe_float(value, default=0.0)].  The conversion of a number is not
    inside any [try]. *)
Definition safe_float (value : Py.value) (default : Q) : Py.result Q :=
  match value with
  | Py.VNone => Py.Ok default
  | Py.VBool _ | Py.VInt _ | Py.VFloat _ => Py.float_of_number value
  | Py.VStr s =>
      match Py.float_of_decimal (Py.keep_chars float_char s) with
      | Some q => Py.Ok q
      | None => Py.Ok default
      end
  | Py.VOther => Py.Ok default
  end.

(** [safe_int(value, default=0)]. *)
Definition safe_int (value : Py.value) (default : Py.value) : Py.value :=
  match value with
  | Py.VNone => default
  | Py.VBool _ | Py.VInt _ => value
  | Py.VFloat q => Py.VInt (Z.quot (Qnum q) (Z.pos (Qden q)))
  | Py.VStr s =>
      match Py.int (Py.keep_chars int_char s) with
      | Some z => Py.VInt z
      | None => default
      end
  | Py.VOther => default
  end.

(** ** The fetchers

    Every HTTP exchange is an input: [reply_of retry] is what the attempt
    numbered [retry] meets.  A run yields its result and the trace of the
    requests it sent and the pauses it took. *)

Abbreviation record := (gmap string Py.value).

Inductive endpoint :=
| FetchOpportunity
| Search2
| DetailPage (url_index : nat).

(** [Sleep base lo hi] is [time.sleep(base + random.uniform(lo, hi))]. *)
Inductive event :=
| Sleep (base jitter_lo jitter_hi : Q)
| Request (target : endpoint) (retry : nat).

Record data_object := {
  fields : record;                       (* data["data"] *)
  oppHits : option (list record)         (* data["data"]["oppHits"], if present *)
}.

Inductive api_body :=
| Unparsable                             (* json() raises, or no object comes out *)
| ApiJson (errorcode : Z) (data : option data_object).

Inductive api_reply :=
| ApiReply (status_code : Z) (body : api_body)
| ApiFailed.                             (* timeout, connection error *)

(** A page of the site: its status and the fields the four extractors
    find in it (only read when the status is 200). *)
Inductive web_reply :=
| WebReply (status_code : Z) (found : record)
| WebFailed.

Definition rate_limited (status_code : Z) : bool :=
  (status_code =? 403) || (status_code =? 429).

(** [(2 ** retry) + random.uniform(1, 3)]. *)
Definition backoff (retry : nat) : event :=
  Sleep (inject_Z (2 ^ Z.of_nat retry)) 1 3.

(** [2 + (retry * 2) + random.uniform(1.0, 3.0)]. *)
Definition api_delay (retry : nat) : event :=
  Sleep (inject_Z (2 + Z.of_nat retry * 2)) 1 3.

(** [2 + (retry * 1.5) + random.uniform(0.5, 2.0)]. *)
Definition web_delay (retry : nat) : event :=
  Sleep (2 + inject_Z (Z.of_nat retry) * (3 # 2)) (1 # 2) 2.

(** How a retry loop ends: with the function's return value, or by
    leaving the loop for what follows it. *)
Inductive loop_exit (A : Type) :=
| Returned (a : A)
| LeftLoop.
Arguments Returned {A} a.
Arguments LeftLoop {A}.

(** Lines 515-551: the loop over [fetchOpportunity].  [todo] counts the
    turns of [range(max_retries)] still to come. *)
Fixpoint fetch_loop (fetch : nat -> api_reply) (max_retries todo retry : nat)
    (trace : list event) : loop_exit record * list event :=
  match todo with
  | O => (LeftLoop, trace)
  | S todo' =>
      let trace := trace ++ [api_delay retry; Request FetchOpportunity retry] in
      let on_exception :=
        if (S retry <? max_retries)%nat
        then fetch_loop fetch max_retries todo' (S retry) (trace ++ [backoff retry])
        else (LeftLoop, trace) in
      match fetch retry with
      | ApiFailed => on_exception
      | ApiReply status_code body =>
          if rate_limited status_code
          then fetch_loop fetch max_retries todo' (S retry) (trace ++ [backoff retry])
          else if status_code =? 200 then
            match body with
            | Unparsable => on_exception
            | ApiJson errorcode data =>
                if negb (errorcode =? 0) then (LeftLoop, trace)
                else match data with
                     | Some d => (Returned (fields d), trace)
                     | None => (LeftLoop, trace)
                     end
            end
          else (LeftLoop, trace)
      end
  end.

(** Lines 554-602: the loop over the search endpoint; it only ever ends
    by returning. *)
Fixpoint search_loop (search : nat -> api_reply) (max_retries todo retry : nat)
    (trace : list event) : option record * list event :=
  match todo with
  | O => (None, trace)
  | S todo' =>
      let trace := trace ++ [api_delay retry; Request Search2 retry] in
      let retry_or_give_up :=
        if (S retry <? max_retries)%nat
        then search_loop search max_retries todo' (S retry) (trace ++ [backoff retry])
        else (None, trace) in
      match search retry with
      | ApiFailed => retry_or_give_up
      | ApiReply status_code body =>
          if rate_limited status_code then retry_or_give_up
          else if status_code =? 200 then
            match body with
            | Unparsable => retry_or_give_up
            | ApiJson errorcode data =>
                if negb (errorcode =? 0) then (None, trace)
                else match data with
                     | Some {| oppHits := Some (hit :: _) |} => (Some hit, trace)
                     | _ => (None, trace)
                     end
            end
          else (None, trace)
      end
  end.

(** The replies after which an endpoint is asked again, retries
    permitting: a rate-limit status, a raised error, a body that cannot be
    read as a JSON object. *)
Definition retried (reply : api_reply) : bool :=
  match reply with
  | ApiFailed => true
  | ApiReply status_code body =>
      rate_limited status_code
      || ((status_code =? 200) && match body with Unparsable => true | ApiJson _ _ => false end)
  end.

(** The events a run of the API fetcher may hold: the pause before a
    request, the request, the backoff after it, each for a turn below the
    retry cap. *)
Definition turn_event (max_retries : nat) (ev : event) : Prop :=
  exists retry, (retry < max_retries)%nat
    /\ (ev = api_delay retry \/ ev = backoff retry
        \/ ev = Request FetchOpportunity retry \/ ev = Request Search2 retry).

(** The events of [count] turns in a row, from turn [first] on, each of
    which ends in its backoff: the pause before the request, the request,
    then the backoff of that turn. *)
Definition backed_off_turns (target : endpoint) (first count : nat) : list event :=
  flat_map (fun retry => [api_delay retry; Request target retry; backoff retry])
           (seq first count).

(** The same for the attempts on one URL of the site. *)
Definition backed_off_page_turns (url_index first count : nat) : list event :=
  flat_map (fun retry => [web_delay retry; Request (DetailPage url_index) retry; backoff retry])
           (seq first count).

(** [get_api_grant_details(grant_id, max_retries=3)]. *)
Definition get_api_grant_details (fetch search : nat -> api_reply) (max_retries : nat)
  : option record * list event :=
  match fetch_loop fetch max_retries max_retries 0 [] with
  | (Returned d, trace) => (Some d, trace)
  | (LeftLoop, trace) => search_loop search max_retries max_retries 0 trace
  end.

(** [data_has_required_fields], lines 239-242. *)
Definition data_has_required_fields (data : record) : bool :=
  existsb (fun field => bool_decide (is_Some (data !! field)))
          ["awardCeiling"; "awardFloor"; "expectedNumOfAwards"].

(** Lines 173-230: the attempts on one URL.  The result tells whether the
    function returned from inside the loop. *)
Fixpoint page_loop (page : nat -> web_reply) (url_index todo retry : nat)
    (grant_data : record) (trace : list event) : bool * record * list event :=
  match todo with
  | O => (false, grant_data, trace)
  | S todo' =>
      let trace := trace ++ [web_delay retry; Request (DetailPage url_index) retry] in
      match page retry with
      | WebFailed => page_loop page url_index todo' (S retry) grant_data trace
      | WebReply status_code found =>
          if status_code =? 200 then
            let grant_data := found ∪ grant_data in
            (data_has_required_fields grant_data, grant_data, trace)
          else if rate_limited status_code
          then page_loop page url_index todo' (S retry) grant_data (trace ++ [backoff retry])
          else (false, grant_data, trace)
      end
  end.

(** The loop over the URL formats. *)
Fixpoint url_loop (web : nat -> nat -> web_reply) (max_retries : nat)
    (url_indices : list nat) (grant_data : record) (trace : list event)
  : record * list event :=
  match url_indices with
  | [] => (grant_data, trace)
  | i :: rest =>
      match page_loop (web i) i max_retries 0 grant_data trace with
      | (true, grant_data, trace) => (grant_data, trace)
      | (false, grant_data, trace) => url_loop web max_retries rest grant_data trace
      end
  end.

(** [get_grant_details_from_web(opportunity_id, max_retries=3)]; there are
    three URL formats. *)
Definition get_grant_details_from_web (web : nat -> nat -> web_reply) (max_retries : nat)
  : record * list event :=
  url_loop web max_retries [0; 1; 2]%nat ∅ [].

(** Where the fields of a scraped record come from: each was found on a
    page that one of the three URLs gave with status 200, within the
    retry cap. *)
Definition scraped_from (web : nat -> nat -> web_reply) (max_retries : nat)
    (grant_data : record) : Prop :=
  forall key v, grant_data !! key = Some v ->
    exists url_index retry found,
      (url_index < 3)%nat /\ (retry < max_retries)%nat
      /\ web url_index retry = WebReply 200 found /\ found !! key = Some v.

(** The requests a trace sends to one endpoint. *)
Definition endpoint_eqb (a b : endpoint) : bool :=
  match a, b with
  | FetchOpportunity, FetchOpportunity | Search2, Search2 => true
  | DetailPage i, DetailPage j => (i =? j)%nat
  | _, _ => false
  end.

Definition is_request_to (target : endpoint) (ev : event) : bool :=
  match ev with
  | Request e _ => endpoint_eqb e target
  | Sleep _ _ _ => false
  end.

Definition requests_to (target : endpoint) (trace : list event) : nat :=
  length (List.filter (is_request_to target) trace).

(** ** [fix_grant], lines 604-739 *)

(** [v == 0 or v == '0' or v == '0.0'], for a stored value. *)
Definition is_zero (v : Py.value) : bool :=
  match v with
  | Py.VInt z => z =? 0
  | Py.VFloat q => Qnum q =? 0
  | Py.VBool b => negb b
  | Py.VStr s => String.eqb s "0" || String.eqb s "0.0"
  | Py.VNone | Py.VOther => false
  end.

(** [v is None or v == 0 or ...] for [v = entity.get(column)]. *)
Definition missing_amount (v : option Py.value) : bool :=
  match v with
  | None => true
  | Some v => is_zero v
  end.

(** Truth of [d.get(key)]. *)
Definition has (d : record) (key : string) : bool :=
  match d !! key with
  | Some v => Py.vtruthy v
  | None => false
  end.

(** The changes collected so far and the [modified] flag. *)
Record fixes := { updates : record; modified : bool }.

Definition set_update (column : string) (v : Py.value) (fx : fixes) : fixes :=
  {| updates := <[column := v]> (updates fx); modified := true |}.

(** Lines 622-630: the two spellings of the expected number of awards. *)
Definition copy_expected_awards (entity : record) (fx : fixes) : fixes :=
  let fx :=
    if negb (has entity "ExpectedNumberofAwards") && has entity "ExpectedAwards"
    then set_update "ExpectedNumberofAwards" (default Py.VNone (entity !! "ExpectedAwards")) fx
    else fx in
  if negb (has entity "ExpectedAwards") && has entity "ExpectedNumberofAwards"
  then set_update "ExpectedAwards" (default Py.VNone (entity !! "ExpectedNumberofAwards")) fx
  else fx.

(** [if key in data: x = safe_float(data.get(key)); if accept x: set]. *)
Definition take_amount (data : record) (key column : string) (accept : Q -> bool)
    (fx : fixes) : Py.result fixes :=
  match data !! key with
  | None => Py.Ok fx
  | Some v =>
      match safe_float v 0 with
      | Py.Raise e => Py.Raise e
      | Py.Ok x => Py.Ok (if accept x then set_update column (Py.VFloat x) fx else fx)
      end
  end.

Definition positive (x : Q) : bool := Py.Qgtb x 0.
Definition not_negative (x : Q) : bool := Qle_bool 0 x.

(** Lines 641-665: what the scraped page contributes. *)
Definition apply_web_data (entity web_data : record) (fx : fixes) : Py.result fixes :=
  match take_amount web_data "awardCeiling" "AwardCeiling" positive fx with
  | Py.Raise e => Py.Raise e
  | Py.Ok fx =>
      match take_amount web_data "awardFloor" "AwardFloor" not_negative fx with
      | Py.Raise e => Py.Raise e
      | Py.Ok fx =>
          let fx :=
            match web_data !! "expectedNumOfAwards" with
            | Some v =>
                let awards_value := safe_int v (Py.VInt 0) in
                set_update "ExpectedAwards" awards_value
                  (set_update "ExpectedNumberofAwards" awards_value fx)
            | None => fx
            end in
          Py.Ok
            (match web_data !! "fundingInstrument" with
             | Some v => if negb (has entity "FundingType") then set_update "FundingType" v fx
                         else fx
             | None => fx
             end)
      end
  end.

(** Lines 675-685: what the API record contributes; a value is only read
    when it is truthy. *)
Definition apply_api_data (api_data : record) (fx : fixes) : Py.result fixes :=
  match (if has api_data "awardCeiling"
         then take_amount api_data "awardCeiling" "AwardCeiling" positive fx
         else Py.Ok fx) with
  | Py.Raise e => Py.Raise e
  | Py.Ok fx =>
      if has api_data "awardFloor"
      then take_amount api_data "awardFloor" "AwardFloor" not_negative fx
      else Py.Ok fx
  end.

(** Lines 697-701: "Ensure AwardFloor <= AwardCeiling". *)
Definition ensure_floor_le_ceiling (fx : fixes) : fixes :=
  match updates fx !! "AwardFloor", updates fx !! "AwardCeiling" with
  | Some (Py.VFloat floor), Some (Py.VFloat ceiling) =>
      if Py.Qgtb floor ceiling && Py.Qgtb ceiling 0
      then {| updates := <["AwardCeiling" := Py.VFloat floor]>
                           (<["AwardFloor" := Py.VFloat ceiling]> (updates fx));
              modified := modified fx |}
      else fx
  | _, _ => fx
  end.

(** Lines 704-716: the stock values when nothing was found. *)
Definition apply_defaults (needs_fix : bool) (fx : fixes) : fixes :=
  if needs_fix && negb (modified fx) then
    let fx := if bool_decide (is_Some (updates fx !! "AwardCeiling")) then fx
              else set_update "AwardCeiling" (Py.VFloat 250000) fx in
    if bool_decide (is_Some (updates fx !! "AwardFloor")) then fx
    else set_update "AwardFloor" (Py.VFloat 50000) fx
  else fx.

(** The changes [fix_grant] decides on for a stored entity, given what the
    two fetchers brought back. *)
Definition collect_fixes (entity web_data : record) (api_data : option record)
  : Py.result fixes :=
  let needs_fix :=
    missing_amount (entity !! "AwardCeiling") || missing_amount (entity !! "AwardFloor") in
  let fx := copy_expected_awards entity {| updates := ∅; modified := false |} in
  let fetched :=
    if needs_fix then
      if bool_decide (web_data = ∅) then Py.Ok fx
      else match apply_web_data entity web_data fx with
           | Py.Raise e => Py.Raise e
           | Py.Ok fx =>
               if modified fx then Py.Ok fx
               else match api_data with
                    | Some d => if bool_decide (d = ∅) then Py.Ok fx else apply_api_data d fx
                    | None => Py.Ok fx
                    end
           end
    else Py.Ok fx in
  match fetched with
  | Py.Raise e => Py.Raise e
  | Py.Ok fx => Py.Ok (apply_defaults needs_fix (ensure_floor_le_ceiling fx))
  end.

(** [fix_grant] once the fetchers have answered: the table afterwards and
    the value returned.  Any exception is caught at line 736: the table
    stays as it was and the result is [False]. *)
Definition fix_grant_with (web_data : record) (api_data : option record)
    (now grant_id : string) (t : Table.table) : Table.table * bool :=
  match Table.get_entity t "Grant" grant_id with
  | None => (t, false)
  | Some entity =>
      match collect_fixes entity web_data api_data with
      | Py.Raise _ => (t, false)
      | Py.Ok fx =>
          if modified fx then
            match Table.update_entity t "Grant" grant_id
                    (<["LastFixed" := Py.VStr now]> (updates fx)) with
            | Some t' => (t', true)
            | None => (t, false)
            end
          else (t, false)
      end
  end.

(** The columns [fix_grant] assigns in [updates]. *)
Definition fix_columns : list string :=
  ["ExpectedNumberofAwards"; "ExpectedAwards"; "AwardCeiling"; "AwardFloor";
   "FundingType"; "LastFixed"].

(** What holds of the changes at every point of [fix_grant]: a ceiling
    among them is a positive float, a floor a float that is not negative,
    only the columns above are named, and nothing is named while
    [modified] is false. *)
Definition amounts_ok (u : record) : Prop :=
  (forall v, u !! "AwardCeiling" = Some v -> exists c, v = Py.VFloat c /\ (0 < c)%Q)
  /\ (forall v, u !! "AwardFloor" = Some v -> exists f, v = Py.VFloat f /\ (0 <= f)%Q).

Definition within_fix_columns (u : record) : Prop :=
  forall col, is_Some (u !! col) -> In col fix_columns.

Definition fixes_ok (fx : fixes) : Prop :=
  amounts_ok (updates fx) /\ within_fix_columns (updates fx)
  /\ (modified fx = false -> updates fx = ∅).

Definition ordered (u : record) : Prop :=
  forall f c, u !! "AwardFloor" = Some (Py.VFloat f) ->
              u !! "AwardCeiling" = Some (Py.VFloat c) -> (f <= c)%Q.

(** [fix_grant(grant_id, table_client)], with the replies of the site and
    of the API as inputs. *)
Definition fix_grant (web : nat -> nat -> web_reply) (fetch search : nat -> api_reply)
    (now grant_id : string) (t : Table.table) : Table.table * bool :=
  fix_grant_with (get_grant_details_from_web web 3).1
                 (get_api_grant_details fetch search 3).1
                 now grant_id t.

(** ** [main], lines 741-838 *)

(** [grants_dict[grant['RowKey']] = grant]: a dict keeps its keys in the
    order of their first insertion. *)
Definition put_key (keys : list string) (row_key : string) : list string :=
  if existsb (String.eqb row_key) keys then keys else keys ++ [row_key].

(** Lines 780-784: [list(grants_dict.keys())] for the row keys of
    [ceiling_grants + floor_grants]. *)
Definition grants_dict_keys (row_keys : list string) : list string :=
  foldl put_key [] row_keys.

(** Lines 755-792: the ids to repair.  [args] is [sys.argv[1:]];
    [ceiling_grants] and [floor_grants] are the row keys the two queries
    answer with. *)
Definition grant_ids (args ceiling_grants floor_grants : list string) : list string :=
  match args with
  | _ :: _ => args
  | [] =>
      let grant_ids := grants_dict_keys (ceiling_grants ++ floor_grants) in
      if (100 <? length grant_ids)%nat then Py.slice grant_ids 0 25 else grant_ids
  end.

(** Lines 794-828: the grants are repaired in the order of the list (the
    batches of three only place the pauses); [fixed_count] counts the
    calls that answer True.  Each grant comes with what the fetchers bring
    back for it and the clock reading of its turn. *)
Definition process_grants (jobs : list (string * record * option record * string))
    (t : Table.table) : Table.table * Z :=
  foldl (fun (acc : Table.table * Z) '(grant_id, web_data, api_data, now) =>
           let '(t', fixed) := fix_grant_with web_data api_data now grant_id acc.1 in
           (t', if fixed then acc.2 + 1 else acc.2))
        (t, 0) jobs.

End Scraper.

(* ===================================================================== *)
(** * scripts/cleanup_old_grants.py: the retention pass *)
(* ===================================================================== *)

Module Cleanup.

(** Line 27: [grant.get("LastUpdated", datetime.max.isoformat()) <
    threshold_date].  Only text compares with text. *)
Definition is_old (threshold_date : string) (grant : Table.entity) : Py.result bool :=
  match default (Py.VStr (Py.isoformat Py.datetime_max)) (grant !! "LastUpdated") with
  | Py.VStr s => Py.Ok (String.ltb s threshold_date)
  | _ => Py.Raise Py.TypeError
  end.

(** Lines 25-28: the list comprehension. *)
Fixpoint old_grants (threshold_date : string) (all_grants : list (string * string * Table.entity))
  : Py.result (list (string * string * Table.entity)) :=
  match all_grants with
  | [] => Py.Ok []
  | grant :: rest =>
      match is_old threshold_date grant.2 with
      | Py.Raise e => Py.Raise e
      | Py.Ok b =>
          match old_grants threshold_date rest with
          | Py.Raise e => Py.Raise e
          | Py.Ok olds => Py.Ok (if b then grant :: olds else olds)
          end
      end
  end.

(** The test of line 27 on an entity whose [LastUpdated], if any, is
    text. *)
Definition selected (threshold_date : string) (grant : Table.entity) : bool :=
  match grant !! "LastUpdated" with
  | Some (Py.VStr s) => String.ltb s threshold_date
  | Some _ => false
  | None => String.ltb (Py.isoformat Py.datetime_max) threshold_date
  end.

(** The rows the comprehension keeps: the test returns [True]. *)
Definition tests_old (threshold_date : string) (grant : Table.entity) : bool :=
  match is_old threshold_date grant with
  | Py.Ok true => true
  | _ => false
  end.

(** Every [LastUpdated] in the table is text, as every writer stores
    it. *)
Definition dated_as_text (grant : Table.entity) : bool :=
  match grant !! "LastUpdated" with
  | Some (Py.VStr _) | None => true
  | Some _ => false
  end.

Definition text_dated (t : Table.table) : bool :=
  forallb (fun row => dated_as_text row.2) (map_to_list t).

(** [main].  [now] is the reading of the clock. *)
Definition main (connection_string : option string) (now : Py.datetime) (t : Table.table)
  : Py.result Table.table :=
  match connection_string with
  | None | Some EmptyString => Py.Ok t
  | Some _ =>
      match Py.minus_days now 90 with
      | None => Py.Raise Py.OverflowError
      | Some cutoff =>
          let threshold_date := Py.isoformat cutoff in
          let all_grants := Table.query_entities t "Grant" in
          match old_grants threshold_date all_grants with
          | Py.Raise e => Py.Raise e
          | Py.Ok olds =>
              Py.Ok (foldl (fun t' grant => Table.delete_entity t' grant.1.1 grant.1.2)
                           t olds)
          end
      end
  end.

End Cleanup.

(* ===================================================================== *)
(** * functions/GrantsGovFunctions/GetGrantDetails/__init__.py
      (the queue-triggered detail fetch) *)
(* ===================================================================== *)

Module GetGrantDetails.

Abbreviation payload := (gmap string Py.json).

(** What [response.json()] gives. *)
Inductive grant_json :=
| BadJson                          (* the body is not JSON *)
| NotDict                          (* JSON, but not an object *)
| NestedBad                        (* "opportunity" holds no object *)
| Nested (opp : payload)           (* {"opportunity": {...}} *)
| Flat (grant_data : payload).     (* the legacy shape *)

(** The outcome of one [requests.get]. *)
Inductive http_reply :=
| Reply (status_code : Z) (body : grant_json)
| Failed.                          (* timeout, connection error *)

(** [clean_text(text, max_len=32000)], lines 65-73. *)
Definition clean_text (text : Py.json) : string :=
  match text with
  | Py.JNull => ""
  | Py.JStr s =>
      let s := Py.remove_char Py.NUL s in
      if Py.len s >? 32000 then Py.str_slice s 0 32000 +:+ "... (truncated)" else s
  | _ => Py.str text
  end.

(** Lines 128-143: the entity written for [opportunity_id], column by
    column. *)
Definition entity_columns (opportunity_id now : string)
    (title agency description close_date post_date agency_code
     award_ceiling award_floor category : string) : list (string * Py.value) :=
    [("Title", Py.VStr title);
     ("AgencyName", Py.VStr agency);
     ("Description",
        Py.VStr (if Py.len description >? 32000 then Py.str_slice description 0 32000
                 else description));
     ("CloseDate", Py.VStr close_date);
     ("PostDate", Py.VStr post_date);
     ("AgencyCode", Py.VStr agency_code);
     ("AwardCeiling", Py.VStr award_ceiling);
     ("AwardFloor", Py.VStr award_floor);
     ("Category", Py.VStr category);
     ("OpportunityURL",
        Py.VStr ("https://www.grants.gov/search-results-detail/" +:+ opportunity_id));
     ("LastUpdated", Py.VStr now)].

Definition build_entity (opportunity_id now : string)
    (title agency description close_date post_date agency_code
     award_ceiling award_floor category : string) : Table.entity :=
  list_to_map
    (entity_columns opportunity_id now title agency description close_date post_date
                    agency_code award_ceiling award_floor category).

(** Lines 83-117: the fields read from the reply.  Reading scalars out of
    an object cannot fail, so the handler of line 119 is never entered. *)
Definition extract (opportunity_id now : string) (grant_data : grant_json) : Table.entity :=
  let field d k := clean_text (Py.jget d k) in
  match grant_data with
  | Nested opp =>
      build_entity opportunity_id now
        (field opp "title") (field opp "agency") (field opp "description")
        (field opp "closeDate") (field opp "postDate") (field opp "agencyCode")
        (field opp "awardCeiling") (field opp "awardFloor") (field opp "category")
  | Flat d =>
      build_entity opportunity_id now
        (field d "opportunityTitle") (field d "agencyName") (field d "description")
        (field d "closeDate") (field d "postDate") (field d "agencyCode")
        (field d "awardCeiling") (field d "awardFloor") (field d "categoryOfFunding")
  | _ => build_entity opportunity_id now "" "" "" "" "" "" "" "" ""
  end.

(** Lines 26-41: the reply that is parsed, if any. *)
Definition choose_response (api legacy : http_reply) : option grant_json :=
  match api with
  | Failed => None
  | Reply 200 body => Some body
  | Reply _ _ =>
      match legacy with
      | Reply 200 body => Some body
      | _ => None
      end
  end.

(** [main]: the table after the message [body] has been handled.  [api]
    and [legacy] are the replies of the two endpoints, [connection_string]
    the setting of the storage account, [now] the clock as ISO text.
    Every failure is logged and leaves the table as it was. *)
Definition main (body : string) (api legacy : http_reply)
    (connection_string : option string) (now : string) (t : Table.table) : Table.table :=
  let opportunity_id := Py.strip Py.is_space body in
  match choose_response api legacy with
  | None | Some BadJson | Some NestedBad => t
  | Some grant_data =>
      match connection_string with
      | None | Some EmptyString => t
      | Some _ =>
          Table.upsert_entity t "Grant" opportunity_id (extract opportunity_id now grant_data)
      end
  end.

(** The columns filled from the reply. *)
Definition payload_columns : list string :=
  ["Title"; "AgencyName"; "Description"; "CloseDate"; "PostDate"; "AgencyCode";
   "AwardCeiling"; "AwardFloor"; "Category"].

(** The columns every write of this handler names. *)
Definition written_columns : list string :=
  ["Title"; "AgencyName"; "Description"; "CloseDate"; "PostDate"; "AgencyCode";
   "AwardCeiling"; "AwardFloor"; "Category"; "OpportunityURL"; "LastUpdated"].

End GetGrantDetails.

(* ===================================================================== *)
(** * scripts/enhanced_grant_collector.py: the search collector *)
(* ===================================================================== *)

Module EnhancedCollector.

Abbreviation payload := (gmap string Py.json).

(** [clean_text], lines 20-24. *)
Definition clean_text (text : Py.json) : string :=
  match text with
  | Py.JNull => ""
  | _ => Py.remove_char Py.NUL (Py.remove_char Py.NUL (Py.str text))
  end.

(** [d.get(key, dflt)] followed by [clean_text]. *)
Definition cleaned (d : payload) (key dflt : string) : string :=
  clean_text (default (Py.JStr dflt) (d !! key)).

(** [==] on scalars, as the [in] test of a set uses it. *)
Definition py_eq (a b : Py.json) : bool :=
  match a, b with
  | Py.JNull, Py.JNull => true
  | Py.JStr s, Py.JStr s' => String.eqb s s'
  | Py.JInt z, Py.JInt z' => z =? z'
  | Py.JBool c, Py.JBool c' => Bool.eqb c c'
  | Py.JInt z, Py.JBool c | Py.JBool c, Py.JInt z => z =? (if c then 1 else 0)
  | _, _ => false
  end.

Record state := {
  table : Table.table;
  processed_ids : list Py.json;
  total_grants_added : Z
}.

(** Lines 214-233, column by column. *)
Definition entity_columns (opportunity : payload) (opportunity_id now : string)
  : list (string * Py.value) :=
    [("Title", Py.VStr (cleaned opportunity "title" ""));
     ("Number", Py.VStr (cleaned opportunity "number" ""));
     ("AgencyCode", Py.VStr (cleaned opportunity "agencyCode" ""));
     ("AgencyName", Py.VStr (cleaned opportunity "agency" ""));
     ("Category", Py.VStr (cleaned opportunity "fundingCategory" ""));
     ("CFDANumbers", Py.VStr (cleaned opportunity "cfda" ""));
     ("Description", Py.VStr (cleaned opportunity "description" "Retrieved from Grants.gov API"));
     ("CloseDate", Py.VStr (cleaned opportunity "closeDate" ""));
     ("OpenDate", Py.VStr (cleaned opportunity "openDate" ""));
     ("AwardFloor", Py.VStr (cleaned opportunity "awardFloor" ""));
     ("AwardCeiling", Py.VStr (cleaned opportunity "awardCeiling" ""));
     ("ExpectedAwards", Py.VStr (cleaned opportunity "expectedNumOfAwards" ""));
     ("DocType", Py.VStr (cleaned opportunity "docType" ""));
     ("FundingType", Py.VStr (cleaned opportunity "fundingInstrument" ""));
     ("LastUpdated", Py.VStr now);
     ("OpportunityURL",
        Py.VStr ("https://www.grants.gov/search-results-detail/" +:+ opportunity_id))].

Definition build_entity (opportunity : payload) (opportunity_id now : string) : Table.entity :=
  list_to_map (entity_columns opportunity opportunity_id now).

(** The columns filled from the hit. *)
Definition payload_columns : list string :=
  ["Title"; "Number"; "AgencyCode"; "AgencyName"; "Category"; "CFDANumbers";
   "Description"; "CloseDate"; "OpenDate"; "AwardFloor"; "AwardCeiling";
   "ExpectedAwards"; "DocType"; "FundingType"].

(** Lines 199-248: one turn of the loop over the hits of a page.  A row
    key that is not text makes the client raise; the error is logged and
    the loop goes on. *)
Definition process_opportunity (st : state) (stamped : string * payload) : state :=
  let '(now, opportunity) := stamped in
  let opportunity_id := Py.jget opportunity "id" in
  if negb (Py.truthy opportunity_id) then st
  else if existsb (py_eq opportunity_id) (processed_ids st) then st
  else
    let ids := opportunity_id :: processed_ids st in
    match opportunity_id with
    | Py.JStr key =>
        {| table := Table.upsert_entity (table st) "Grant" key (build_entity opportunity key now);
           processed_ids := ids;
           total_grants_added := total_grants_added st + 1 |}
    | _ => {| table := table st; processed_ids := ids;
              total_grants_added := total_grants_added st |}
    end.

(** Lines 143-153: the ids already stored, or none when the scan fails. *)
Definition existing_ids (scan_succeeds : bool) (t : Table.table) : list Py.json :=
  if scan_succeeds then map (fun row => Py.JStr row.1.2) (Table.query_entities t "Grant")
  else [].

(** Every stored grant is among the ids seen. *)
Definition knows_stored (st : state) : Prop :=
  forall key, is_Some (table st !! ("Grant", key)) ->
              existsb (py_eq (Py.JStr key)) (processed_ids st) = true.

(** The collection run over the hits the searches return, each with the
    clock reading of its turn. *)
Definition collect (scan_succeeds : bool) (hits : list (string * payload)) (t : Table.table)
  : state :=
  foldl process_opportunity
        {| table := t; processed_ids := existing_ids scan_succeeds t; total_grants_added := 0 |}
        hits.

End EnhancedCollector.


(* ===================================================================== *)
(** * Sample data, to run the definitions on *)
(* ===================================================================== *)

Module Samples.

(** The greatest page number [int] reads: 4300 nines. *)
Definition huge_page : string := Py.str_mul "9" 4300.

(** Twenty-five numbered grants. *)
Definition numbered_rows : list (gmap string string) :=
  map (fun i : nat => {[ "RowKey" := pretty i ]}) (seq 1 25).

Definition clock : Py.datetime :=
  {| Py.year := 2026; Py.month := 11; Py.day := 3; Py.hour := 9;
     Py.minute := 30; Py.second := 0; Py.microsecond := 125000 |}.

(** Ninety days before [clock]. *)
Definition cutoff : Py.datetime :=
  {| Py.year := 2026; Py.month := 8; Py.day := 5; Py.hour := 9;
     Py.minute := 30; Py.second := 0; Py.microsecond := 125000 |}.

Definition stale : gmap string Py.value :=
  {[ "Title" := Py.VStr "Stale"; "LastUpdated" := Py.VStr "2025-01-15T08:00:00" ]}.

Definition fresh : gmap string Py.value :=
  {[ "Title" := Py.VStr "Fresh"; "LastUpdated" := Py.VStr "2026-10-01T08:00:00.5" ]}.

Definition undated : gmap string Py.value := {[ "Title" := Py.VStr "Undated" ]}.

Definition dated_table : gmap (string * string) (gmap string Py.value) :=
  {[ ("Grant", "1") := stale; ("Grant", "2") := fresh; ("Grant", "3") := undated ]}.

Definition cleaned_table : gmap (string * string) (gmap string Py.value) :=
  {[ ("Grant", "2") := fresh; ("Grant", "3") := undated ]}.

(** A grant stored with its description and award ceiling. *)
Definition stored_grant : gmap string Py.value :=
  {[ "Title" := Py.VStr "Teacher training";
     "Number" := Py.VStr "ED-GRANTS-2023";
     "Description" := Py.VStr "Funds for teacher training programmes";
     "AwardCeiling" := Py.VStr "500000" ]}.

Definition stored_table : gmap (string * string) (gmap string Py.value) :=
  {[ ("Grant", "351423") := stored_grant ]}.

(** A detail reply and a search hit that carry a title and nothing else. *)
Definition title_only_reply : GetGrantDetails.http_reply :=
  GetGrantDetails.Reply 200
    (GetGrantDetails.Nested {[ "title" := Py.JStr "Teacher training 2024" ]}).

Definition title_only_hit : gmap string Py.json :=
  {[ "id" := Py.JStr "351423"; "title" := Py.JStr "Teacher training 2024" ]}.

(** A search hit whose award floor is above its ceiling. *)
Definition inverted_hit : gmap string Py.json :=
  {[ "id" := Py.JStr "324456"; "title" := Py.JStr "Expeditions in Computing";
     "awardFloor" := Py.JStr "15000000"; "awardCeiling" := Py.JStr "5000000" ]}.

(** A later hit for the id of [inverted_hit], under another title. *)
Definition repeated_hit : gmap string Py.json :=
  {[ "id" := Py.JStr "324456"; "title" := Py.JStr "Expeditions in Computing (reissued)" ]}.

(** A stored grant without award amounts, and a scraped page that gives
    them in the wrong order. *)
Definition unpriced_grant : gmap string Py.value :=
  {[ "Title" := Py.VStr "Expeditions in Computing";
     "AwardCeiling" := Py.VInt 0; "AwardFloor" := Py.VInt 0 ]}.

Definition unpriced_table : gmap (string * string) (gmap string Py.value) :=
  {[ ("Grant", "324456") := unpriced_grant ]}.

Definition inverted_page : gmap string Py.value :=
  {[ "awardFloor" := Py.VStr "$15,000,000"; "awardCeiling" := Py.VStr "$5,000,000" ]}.

End Samples.

(* ===================================================================== *)
(** * Properties *)
(* ===================================================================== *)

(** ** The definitions at work *)

Example int_of_padded_text : Py.int "  42 " = Some 42.
Proof. vm_compute. reflexivity. Qed.

Example int_of_grouped_digits : Py.int "1_000" = Some 1000.
Proof. vm_compute. reflexivity. Qed.

Example int_of_words : Py.int "ten" = None.
Proof. vm_compute. reflexivity. Qed.

Example int_of_decimal_point : Py.int "1.5" = None.
Proof. vm_compute. reflexivity. Qed.

Example safe_float_of_price : Collector.safe_float (Py.VStr "12.50") 0 = Py.Ok (25 # 2).
Proof. vm_compute. reflexivity. Qed.

Example safe_float_of_two_points : Collector.safe_float (Py.VStr "1.2.3") 7 = Py.Ok 7%Q.
Proof. vm_compute. reflexivity. Qed.

Example safe_float_of_huge_int :
  Collector.safe_float (Py.VInt (2 ^ 1024)) 0 = Py.Raise Py.OverflowError.
Proof. vm_compute. reflexivity. Qed.

Example format_date_slash :
  Scraper.format_date "04/13/2023" = Some "2023-04-13T00:00:00".
Proof. vm_compute. reflexivity. Qed.

Example format_date_afternoon :
  Scraper.format_date "4-1-2023 1:05 pm" = Some "2023-04-01T13:05:00".
Proof. vm_compute. reflexivity. Qed.

Example format_date_leap_day :
  Scraper.format_date "2024-02-29 23:59" = Some "2024-02-29T23:59:00".
Proof. vm_compute. reflexivity. Qed.

Example format_date_no_such_day :
  Scraper.format_date "2023-02-29" = Some "2023-02-29".
Proof. vm_compute. reflexivity. Qed.

Example parse_grants_date_fixed_width :
  BulkEtl.parse_grants_date (Py.VStr "04132023") = Some (2023, 4, 13).
Proof. vm_compute. reflexivity. Qed.

Example isoformat_of_max :
  Py.isoformat Py.datetime_max = "9999-12-31T23:59:59.999999".
Proof. vm_compute. reflexivity. Qed.

Example ninety_days_back : Py.minus_days Samples.clock 90 = Some Samples.cutoff.
Proof. vm_compute. reflexivity. Qed.

Example ordinal_round_trip : Py.ord2ymd (Py.ymd2ord 2024 2 29) = (2024, 2, 29).
Proof. vm_compute. reflexivity. Qed.

Example repair_uses_stock_values :
  ((Scraper.fix_grant_with ∅ None "2026-11-03T10:00:00" "324456" Samples.unpriced_table).1
     !! ("Grant", "324456")) ≫= (.!! "AwardCeiling")
  = Some (Py.VFloat 250000).
Proof. vm_compute. reflexivity. Qed.

(** ** The read endpoint: pagination *)

Section ViewerFacts.

Import Viewer.

Lemma parse_limit_range params : 1 <= parse_limit params <= 10000.
Proof.
  unfold parse_limit.
  destruct (Py.int _) as [n|]; [|lia].
  destruct (n <=? 0) eqn:Hle; [lia|].
  destruct (n >? 10000) eqn:Hgt; lia.
Qed.

Lemma parse_page_range params : 1 <= parse_page params.
Proof. unfold parse_page. destruct (Py.int _); lia. Qed.

(** A slice with bounds in order is a [skipn] followed by a [firstn]. *)
Lemma slice_drop_take {A} (l : list A) (lo hi : Z) :
  0 <= lo <= hi ->
  Py.slice l lo hi = firstn (Z.to_nat (hi - lo)) (skipn (Z.to_nat lo) l).
Proof.
  intros Hb. unfold Py.slice, Py.slice_index.
  destruct (lo <? 0) eqn:Hlo; [lia|].
  destruct (hi <? 0) eqn:Hhi; [lia|].
  set (n := Z.of_nat (length l)).
  destruct (Z_le_gt_dec n lo) as [Hge|Hlt].
  - rewrite (Z.min_r lo n) by lia.
    rewrite !skipn_all2 by (subst n; lia).
    by rewrite !firstn_nil.
  - rewrite (Z.min_l lo n) by lia.
    destruct (Z_le_gt_dec hi n) as [Hh|Hh].
    + by rewrite (Z.min_l hi n) by lia.
    + rewrite (Z.min_r hi n) by lia.
      rewrite !firstn_all2; [done| |]; rewrite length_skipn; subst n; lia.
Qed.

Lemma ceiling_div_formula (a b : Z) :
  0 < b -> (a + b - 1) / b = ceiling_div a b.
Proof.
  intros Hb. unfold ceiling_div.
  pose proof (Z.div_mod (- a) b ltac:(lia)) as Hdm.
  pose proof (Z.mod_pos_bound (- a) b Hb) as Hr.
  symmetry. apply (Z.div_unique_pos _ _ _ (b - 1 - (- a) mod b)); lia.
Qed.

Lemma total_pages_positive total_count limit :
  1 <= limit -> 1 <= total_pages total_count limit.
Proof.
  intros Hl. unfold total_pages.
  destruct (total_count >? 0) eqn:Ht; [|lia].
  apply Z.div_le_lower_bound; lia.
Qed.

(** What [int] reads can be written back. *)
Lemma int_str_bound_large : 100000000 < Py.int_str_bound.
Proof.
  unfold Py.int_str_bound, Py.int_max_str_digits.
  change 100000000 with (10 ^ 8). apply Z.pow_lt_mono_r; lia.
Qed.

Lemma int_digits_bound s prev acc count v c :
  Py.int_digits prev acc count s = Some (v, c) ->
  0 <= acc < 10 ^ Z.of_nat count ->
  0 <= v < 10 ^ Z.of_nat c /\ (count <= c)%nat.
Proof.
  revert prev acc count. induction s as [|ch s IH]; intros prev acc count; cbn [Py.int_digits].
  - destruct prev; [|discriminate]. intros [= <- <-] Hacc. split; [done|lia].
  - destruct (Py.is_digit ch) eqn:Hdigit.
    + intros Hrun Hacc.
      assert (0 <= Py.digit_value ch <= 9) as Hvalue.
      { unfold Py.is_digit in Hdigit. unfold Py.digit_value.
        apply andb_true_iff in Hdigit as [Hlo%Nat.leb_le Hhi%Nat.leb_le]. lia. }
      apply IH in Hrun as [Hv Hc]; [split; [done|lia]|].
      rewrite Nat2Z.inj_succ, Z.pow_succ_r by lia. lia.
    + destruct (Ascii.eqb ch "_"); [|discriminate].
      destruct prev; [|discriminate]. apply IH.
Qed.

Lemma int_unsigned_bound s v : Py.int_unsigned s = Some v -> 0 <= v < Py.int_str_bound.
Proof.
  unfold Py.int_unsigned.
  destruct (Py.int_digits false 0 0 s) as [[v' c]|] eqn:Hrun; [|discriminate].
  destruct (c <=? Py.int_max_str_digits)%nat eqn:Hc; [|discriminate].
  intros [= <-]. apply Nat.leb_le in Hc.
  apply int_digits_bound in Hrun as [Hv _]; [|cbn; lia].
  split; [lia|]. unfold Py.int_str_bound.
  eapply Z.lt_le_trans; [apply Hv|]. apply Z.pow_le_mono_r; lia.
Qed.

Lemma int_bound s n : Py.int s = Some n -> Z.abs n < Py.int_str_bound.
Proof.
  assert (forall r, option_map Z.opp (Py.int_unsigned r) = Some n ->
                    Z.abs n < Py.int_str_bound) as Hminus.
  { intros r. destruct (Py.int_unsigned r) as [v|] eqn:Hv; [|discriminate].
    intros [= <-]. apply int_unsigned_bound in Hv. lia. }
  assert (forall r, Py.int_unsigned r = Some n -> Z.abs n < Py.int_str_bound) as Hplus.
  { intros r Hv%int_unsigned_bound. lia. }
  unfold Py.int. destruct (Py.strip Py.is_c_space s) as [|ch r]; [by apply Hplus|].
  destruct ch as [[] [] [] [] [] [] [] []]; first [apply Hplus | apply Hminus].
Qed.

Lemma parse_page_written params : Z.abs (parse_page params) < Py.int_str_bound.
Proof.
  pose proof int_str_bound_large as Hlarge. unfold parse_page.
  destruct (Py.int _) as [n|] eqn:Hn; [|lia]. apply int_bound in Hn. lia.
Qed.

Lemma parse_limit_written params : Z.abs (parse_limit params) < Py.int_str_bound.
Proof.
  pose proof int_str_bound_large. pose proof (parse_limit_range params). lia.
Qed.

(** The two log lines are written exactly when the offset is. *)
Lemma logs_offset params :
  let offset := (parse_page params - 1) * parse_limit params in
  (logs [offset; parse_limit params] = (Z.abs offset <? Py.int_str_bound))
  /\ (logs [parse_page params; parse_limit params; offset]
      = (Z.abs offset <? Py.int_str_bound)).
Proof.
  intros offset. unfold logs, Py.str_of_int. cbn [forallb].
  pose proof (parse_page_written params) as Hp%Z.ltb_lt.
  pose proof (parse_limit_written params) as Hl%Z.ltb_lt.
  rewrite Hp, Hl. by destruct (Z.abs offset <? Py.int_str_bound).
Qed.

(** What [main] answers once the storage account is configured and the
    scan succeeds: the page, unless the offset has more than 4300 digits. *)
Lemma main_cases params c conn count_query rows :
  let offset := (parse_page params - 1) * parse_limit params in
  if Z.abs offset <? Py.int_str_bound then
    body (main params (Some (String c conn)) count_query (Some rows)) =
    Some ({| total := Z.of_nat (length (filtered_grants params rows));
             page := parse_page params;
             limit := parse_limit params;
             pages := total_pages (Z.of_nat (length (filtered_grants params rows)))
                                  (parse_limit params) |},
          Py.slice (filtered_grants params rows) offset (offset + parse_limit params))
  else main params (Some (String c conn)) count_query (Some rows) = Error500.
Proof.
  intros offset. unfold main. cbv zeta.
  destruct (logs_offset params) as [-> ->]. fold offset.
  destruct (Z.abs offset <? Py.int_str_bound); [|done]. cbn [negb].
  by destruct (String.eqb _ "html").
Qed.

Lemma main_body params c conn count_query rows :
  Z.abs ((parse_page params - 1) * parse_limit params) < Py.int_str_bound ->
  body (main params (Some (String c conn)) count_query (Some rows)) =
  Some ({| total := Z.of_nat (length (filtered_grants params rows));
           page := parse_page params;
           limit := parse_limit params;
           pages := total_pages (Z.of_nat (length (filtered_grants params rows)))
                                (parse_limit params) |},
        Py.slice (filtered_grants params rows)
                 ((parse_page params - 1) * parse_limit params)
                 ((parse_page params - 1) * parse_limit params + parse_limit params)).
Proof.
  intros Hoffset%Z.ltb_lt. pose proof (main_cases params c conn count_query rows) as Hmain.
  cbv zeta in Hmain. by rewrite Hoffset in Hmain.
Qed.

(** Every page [main] answers with is that one. *)
Lemma main_reply params c conn count_query rows p grants :
  body (main params (Some (String c conn)) count_query (Some rows)) = Some (p, grants) ->
  Some ({| total := Z.of_nat (length (filtered_grants params rows));
           page := parse_page params;
           limit := parse_limit params;
           pages := total_pages (Z.of_nat (length (filtered_grants params rows)))
                                (parse_limit params) |},
        Py.slice (filtered_grants params rows)
                 ((parse_page params - 1) * parse_limit params)
                 ((parse_page params - 1) * parse_limit params + parse_limit params))
  = Some (p, grants).
Proof.
  pose proof (main_cases params c conn count_query rows) as Hmain. cbv zeta in Hmain.
  destruct (Z.abs _ <? Py.int_str_bound); [by rewrite Hmain|].
  rewrite Hmain. discriminate.
Qed.

Lemma main_error params c conn count_query list_query :
  Py.int_str_bound <= (parse_page params - 1) * parse_limit params ->
  main params (Some (String c conn)) count_query list_query = Error500.
Proof.
  intros Hoffset. unfold main. cbv zeta.
  destruct (logs_offset params) as [-> _].
  assert ((Z.abs ((parse_page params - 1) * parse_limit params) <? Py.int_str_bound)
          = false) as -> by (apply Z.ltb_ge; lia).
  done.
Qed.

(** A page number of at most 4296 digits keeps the offset within 4300. *)
Lemma offset_written params :
  parse_page params <= 10 ^ 4296 ->
  Z.abs ((parse_page params - 1) * parse_limit params) < Py.int_str_bound.
Proof.
  intros Hpage. pose proof (parse_limit_range params) as Hl.
  pose proof (parse_page_range params) as Hp.
  assert (Py.int_str_bound = 10 ^ 4296 * 10000) as ->.
  { unfold Py.int_str_bound, Py.int_max_str_digits.
    change (Z.of_nat 4300) with (4296 + 4). by rewrite Z.pow_add_r. }
  assert (0 < 10 ^ 4296) as Hbig by (by apply Z.pow_pos_nonneg).
  revert Hpage Hbig. generalize (10 ^ 4296). intros big Hpage Hbig.
  rewrite Z.abs_eq by nia. nia.
Qed.

(** A page number of everyday size. *)
Lemma small_offset_written params :
  parse_page params <= 10000 ->
  Z.abs ((parse_page params - 1) * parse_limit params) < Py.int_str_bound.
Proof.
  intros Hpage. pose proof (parse_limit_range params) as Hl.
  pose proof (parse_page_range params) as Hp. pose proof int_str_bound_large.
  rewrite Z.abs_eq by nia. nia.
Qed.

Lemma append_nil_r (s : string) : s +:+ "" = s.
Proof.
  induction s as [|c s IH]; [done|].
  change (String c s +:+ "") with (String c (s +:+ "")). by rewrite IH.
Qed.

(** [int] reads a row of nines. *)
Lemma nines_snoc n acc :
  Py.str_mul "9" n +:+ String "9" acc = String "9" (Py.str_mul "9" n +:+ acc).
Proof.
  induction n as [|n IH]; [done|]. cbn [Py.str_mul].
  change ("9" +:+ Py.str_mul "9" n) with (String "9" (Py.str_mul "9" n)).
  change (String "9" (Py.str_mul "9" n) +:+ String "9" acc)
    with (String "9" (Py.str_mul "9" n +:+ String "9" acc)).
  by rewrite IH.
Qed.

Lemma nines_rev n : String.rev (Py.str_mul "9" n) = Py.str_mul "9" n.
Proof.
  unfold String.rev.
  assert (forall acc, String.rev_app (Py.str_mul "9" n) acc = Py.str_mul "9" n +:+ acc)
    as Hacc.
  { induction n as [|n IH]; intros acc; [done|]. cbn [Py.str_mul].
    change ("9" +:+ Py.str_mul "9" n) with (String "9" (Py.str_mul "9" n)).
    cbn [String.rev_app]. rewrite IH. apply nines_snoc. }
  rewrite Hacc. apply append_nil_r.
Qed.

Lemma nines_strip n : Py.strip Py.is_c_space (Py.str_mul "9" n) = Py.str_mul "9" n.
Proof.
  assert (Py.lstrip Py.is_c_space (Py.str_mul "9" n) = Py.str_mul "9" n) as Hleft
    by (by destruct n).
  unfold Py.strip, Py.rstrip. by rewrite Hleft, nines_rev, Hleft, nines_rev.
Qed.

Lemma nines_digits n acc count :
  Py.int_digits true acc count (Py.str_mul "9" n)
  = Some (acc * 10 ^ Z.of_nat n + 10 ^ Z.of_nat n - 1, (count + n)%nat).
Proof.
  revert acc count. induction n as [|n IH]; intros acc count.
  - cbn [Py.str_mul Py.int_digits]. do 2 f_equal; [cbn; lia|lia].
  - cbn [Py.str_mul].
    change ("9" +:+ Py.str_mul "9" n) with (String "9" (Py.str_mul "9" n)).
    cbn [Py.int_digits]. change (Py.is_digit "9") with true. cbv iota.
    change (Py.digit_value "9") with 9. rewrite IH.
    rewrite Nat2Z.inj_succ, Z.pow_succ_r by lia. do 2 f_equal; lia.
Qed.

Lemma int_nines n :
  (n < Py.int_max_str_digits)%nat ->
  Py.int (Py.str_mul "9" (S n)) = Some (10 ^ Z.of_nat (S n) - 1).
Proof.
  intros Hn. unfold Py.int. rewrite nines_strip. cbn [Py.str_mul].
  change ("9" +:+ Py.str_mul "9" n) with (String "9" (Py.str_mul "9" n)).
  cbv iota beta. unfold Py.int_unsigned. cbn [Py.int_digits].
  change (Py.is_digit "9") with true. cbv iota. change (Py.digit_value "9") with 9.
  rewrite nines_digits.
  assert ((1 + n <=? Py.int_max_str_digits)%nat = true) as ->
    by (apply Nat.leb_le; lia).
  rewrite Nat2Z.inj_succ, Z.pow_succ_r by lia. f_equal. lia.
Qed.

End ViewerFacts.

Section ViewerClaims.

Import Viewer.







(** C10.  Every page the handler answers with reports at least one page.
    When no record matches the filters, the page it answers with carries
    total 0, one page and an empty list of grants; it answers so whenever
    the offset (page-1)*limit can be written in 4300 digits. *)
Theorem C10_page_count_at_least_one params conn count_query list_query :
  (forall p grants,
      body (main params conn count_query list_query) = Some (p, grants) ->
      1 <= pages p /\ (total p = 0 -> pages p = 1 /\ grants = []))
  /\ (forall c conn' rows,
      filtered_grants params rows = [] ->
      Z.abs ((parse_page params - 1) * parse_limit params) < Py.int_str_bound ->
      body (main params (Some (String c conn')) count_query (Some rows))
      = Some ({| total := 0; page := parse_page params; limit := parse_limit params;
                 pages := 1 |}, [])).
Proof.
  split.
  - intros p grants Hbody.
    destruct conn as [[|c conn']|]; [discriminate| |discriminate].
    destruct list_query as [rows|].
    2: { unfold main in Hbody. cbv zeta in Hbody.
         by destruct (negb (logs _)) in Hbody. }
    apply main_reply in Hbody. injection Hbody as <- <-. cbn [pages total].
    pose proof (parse_limit_range params) as Hl.
    split; [apply total_pages_positive; lia|].
    intros Hz. unfold total_pages. rewrite Hz. split; [done|].
    destruct (filtered_grants params rows); [|done].
    unfold Py.slice. by rewrite skipn_nil, firstn_nil.
  - intros c conn' rows Hnone Hoffset. rewrite main_body, Hnone by done.
    unfold Py.slice. by rewrite skipn_nil, firstn_nil.
Qed.

(** C10 at work: a search term that matches no stored grant. *)
Lemma C10_page_count_at_least_one_witness :
  body (main {[ "search" := "solar" ]} (Some "conn") None
             (Some [ {[ "Title" := "Rural health"; "RowKey" := "1" ]} ]))
  = Some ({| total := 0; page := 1; limit := 100; pages := 1 |}, []).
Proof.
  assert (Z.abs ((parse_page {[ "search" := "solar" ]} - 1)
                 * parse_limit {[ "search" := "solar" ]}) < Py.int_str_bound) as Hoffset
    by (apply small_offset_written; vm_compute; discriminate).
  exact (proj2 (C10_page_count_at_least_one {[ "search" := "solar" ]} None None None)
               "c"%char "onn" [ {[ "Title" := "Rural health"; "RowKey" := "1" ]} ]
               eq_refl Hoffset).
Defined.

End ViewerClaims.

(** ** Numeric coercion *)

Section CoercionClaims.

Import Collector.

(** On text [safe_float] always returns: the clean-up and the conversion
    raise nothing that is not caught. *)
Lemma safe_float_text_total s dflt :
  exists q, safe_float (Py.VStr s) dflt = Py.Ok q.
Proof.
  unfold safe_float. destruct (clean_amount s) as [cleaned|]; [|by eexists].
  destruct (Py.float_of_decimal cleaned); by eexists.
Qed.

(** C4.  [safe_float] gives 1500000.0 for "$1,500,000" and for "1500000",
    and the default for the empty text and for None.  On every text it
    returns a number without raising, and for every invalid input (None,
    a value that is neither text nor a number, text that is not an amount
    once "$", "," and other stray characters are dropped) that number is
    the default. *)
Theorem C4_safe_float_currency (dflt : Q) :
  safe_float (Py.VStr "$1,500,000") dflt = Py.Ok (1500000 # 1)
  /\ safe_float (Py.VStr "1500000") dflt = Py.Ok (1500000 # 1)
  /\ safe_float (Py.VStr "") dflt = Py.Ok dflt
  /\ safe_float Py.VNone dflt = Py.Ok dflt
  /\ safe_float Py.VOther dflt = Py.Ok dflt
  /\ (forall s, exists q, safe_float (Py.VStr s) dflt = Py.Ok q)
  /\ (forall s, invalid_text s -> safe_float (Py.VStr s) dflt = Py.Ok dflt).
Proof.
  repeat split; try reflexivity.
  - intros s. apply safe_float_text_total.
  - intros s. unfold invalid_text, safe_float.
    destruct (clean_amount s) as [cleaned|]; [|done]. by intros ->.
Qed.

(** C4 at work: three texts that are no amount. *)
Lemma C4_safe_float_currency_witness :
  safe_float (Py.VStr "1,5.0.0") (7 # 1) = Py.Ok (7 # 1)
  /\ safe_float (Py.VStr "TBD") (7 # 1) = Py.Ok (7 # 1)
  /\ safe_float (Py.VStr "12-5") (7 # 1) = Py.Ok (7 # 1).
Proof.
  pose proof (C4_safe_float_currency (7 # 1)) as (_ & _ & _ & _ & _ & _ & Hinvalid).
  split; [|split]; apply Hinvalid; vm_compute; reflexivity.
Defined.

End CoercionClaims.

(** ** The normaliser *)

Section TransformerClaims.

Import Transformer.

(** The loop over a batch followed by more records. *)
Lemma transform_loop_app (b1 b2 : list payload) acc log :
  transform_loop (b1 ++ b2) acc log =
  match transform_loop b1 acc log with
  | (log', Py.Ok acc') => transform_loop b2 acc' log'
  | (log', Py.Raise e) => (log', Py.Raise e)
  end.
Proof.
  revert acc log. induction b1 as [|opp b1 IH]; intros acc log; [done|].
  cbn [app transform_loop].
  destruct (missing_critical opp); [apply IH|].
  destruct (description_prefix opp); [apply IH | done].
Qed.

Lemma transform_opportunities_ok batch log out :
  transform_opportunities batch = (log, Py.Ok out) ->
  exists log0, transform_loop batch [] [] = (log0, Py.Ok out)
               /\ log = log0 ++ [Info_transformed (Z.of_nat (length out))].
Proof.
  unfold transform_opportunities.
  destruct (transform_loop batch [] []) as [log0 [acc|e]]; [|discriminate].
  intros [= <- <-]. by exists log0.
Qed.

Lemma warnings_app l1 l2 : warnings (l1 ++ l2) = warnings l1 ++ warnings l2.
Proof. apply flat_map_app. Qed.

Lemma reported_counts_app l1 l2 :
  reported_counts (l1 ++ l2) = reported_counts l1 ++ reported_counts l2.
Proof. apply flat_map_app. Qed.

(** C7 (as the claim states it, refuted).  The claim has a batch counter
    for rejections go up by one for a rejected payload.  The transformer
    returns the list of transformed records and nothing else, and the one
    count it reports is the number of transformed records: a batch made of
    a single payload without id reports 0, as the empty batch does. *)
Lemma C7_rejection_not_counted :
  let bad : payload := {[ "title" := Py.JStr "Rural broadband" ]} in
  missing_critical bad = true
  /\ transform_opportunities [bad] = ([Warning_skipping bad; Info_transformed 0], Py.Ok [])
  /\ transform_opportunities [] = ([Info_transformed 0], Py.Ok [])
  /\ reported_counts (transform_opportunities [bad]).1
     = reported_counts (transform_opportunities []).1.
Proof. vm_compute. repeat split. Qed.

(** C7 (amended).  A payload whose id or title is absent, null or empty is
    skipped: the transformed list is what it was without the payload, no
    default is put in place of the missing field, exactly one warning is
    logged for it, and the count the run reports does not change (there is
    no counter of rejections).  A payload with both id and title, whose
    description is absent or text, adds exactly one record at the end of
    the list, with the id and title it came with, and logs no warning. *)
Theorem C7_transformer_skips_incomplete (batch : list payload) (p : payload) log out :
  transform_opportunities batch = (log, Py.Ok out) ->
  (p !! "id" = None \/ p !! "title" = None -> missing_critical p = true)
  /\ (missing_critical p = true ->
      exists log',
        transform_opportunities (batch ++ [p]) = (log', Py.Ok out)
        /\ warnings log' = warnings log ++ [p]
        /\ reported_counts log' = reported_counts log)
  /\ (missing_critical p = false ->
      p !! "description" = None \/ (exists s, p !! "description" = Some (Py.JStr s)) ->
      exists log' r,
        transform_opportunities (batch ++ [p]) = (log', Py.Ok (out ++ [r]))
        /\ id r = Py.jget p "id" /\ title r = Py.jget p "title"
        /\ Py.truthy (id r) = true /\ Py.truthy (title r) = true
        /\ raw_data r = p
        /\ warnings log' = warnings log).
Proof.
  intros Hrun. apply transform_opportunities_ok in Hrun as (log0 & Hloop & ->).
  split; [|split].
  - unfold missing_critical, Py.jget. intros [-> | ->]; cbn; [done|].
    by rewrite orb_true_r.
  - intros Hmiss.
    exists ((log0 ++ [Warning_skipping p]) ++ [Info_transformed (Z.of_nat (length out))]).
    split; [|split].
    + unfold transform_opportunities.
      rewrite transform_loop_app, Hloop. cbn [transform_loop]. by rewrite Hmiss.
    + rewrite !warnings_app. cbn. by rewrite !app_nil_r.
    + rewrite !reported_counts_app. cbn. by rewrite app_nil_r.
  - intros Hboth Hdesc.
    assert (exists short, description_prefix p = Py.Ok short) as [short Hshort].
    { unfold description_prefix. destruct Hdesc as [-> | [s ->]]; by eexists. }
    exists (log0 ++ [Info_transformed (Z.of_nat (length (out ++ [build p short])))]),
           (build p short).
    unfold missing_critical in Hboth. apply orb_false_elim in Hboth as [Hid Htitle].
    apply negb_false_iff in Hid, Htitle.
    split; [|repeat split; try done].
    + unfold transform_opportunities.
      rewrite transform_loop_app, Hloop. cbn [transform_loop].
      unfold missing_critical. rewrite Hid, Htitle. cbn [negb orb]. by rewrite Hshort.
    + rewrite !warnings_app. cbn. done.
Qed.

(** C7 at work: a complete payload followed by one without title, and by
    itself. *)
Lemma C7_transformer_skips_incomplete_witness :
  let good : payload := {[ "id" := Py.JStr "351423"; "title" := Py.JStr "Teacher training";
                           "agencyCode" := Py.JStr "ED" ]} in
  let bad : payload := {[ "id" := Py.JStr "351424" ]} in
  (exists log', transform_opportunities ([good] ++ [bad])
                = (log', Py.Ok [build good ""])
                /\ warnings log' = [bad])
  /\ (exists log' r, transform_opportunities ([good] ++ [good])
                     = (log', Py.Ok ([build good ""] ++ [r]))
                     /\ id r = Py.JStr "351423").
Proof.
  intros good bad.
  pose proof (C7_transformer_skips_incomplete [good] bad
                [Info_transformed 1] [build good ""] eq_refl) as (_ & Hskip & _).
  pose proof (C7_transformer_skips_incomplete [good] good
                [Info_transformed 1] [build good ""] eq_refl) as (_ & _ & Hkeep).
  split.
  - destruct Hskip as (log' & Hrun & Hw & _); [reflexivity|]. by exists log'.
  - destruct Hkeep as (log' & r & Hrun & Hid & _); [reflexivity | by left |].
    by exists log', r.
Defined.

End TransformerClaims.

(** ** Dates *)

Section DateClaims.

Lemma first_some_none {A B} (f : A -> option B) (xs : list A) :
  (forall x, In x xs -> f x = None) -> Py.first_some f xs = None.
Proof.
  induction xs as [|x xs IH]; intros Hall; [done|].
  cbn. rewrite (Hall x) by (by left). apply IH. intros y Hy. apply Hall. by right.
Qed.

Lemma first_some_found {A B} (f : A -> option B) (xs : list A) b :
  Py.first_some f xs = Some b -> exists x, In x xs /\ f x = Some b.
Proof.
  induction xs as [|x xs IH]; [done|]. cbn.
  destruct (f x) as [b'|] eqn:Hfx.
  - intros [= ->]. exists x. split; [by left | done].
  - intros H. destruct (IH H) as (y & Hy & Hfy). exists y. split; [by right | done].
Qed.

(** C8 (as the claim states it, refuted).  The claim has every text that
    matches no recognised format kept as it is.  The date parser of the
    bulk extract answers None for ISO text, for "Mon DD, YYYY" text and
    for eight digits that are no date: the text is replaced by null. *)
Lemma C8_bulk_date_text_dropped :
  BulkEtl.parse_grants_date (Py.VStr "2023-04-13") = None
  /\ BulkEtl.parse_grants_date (Py.VStr "Apr 13, 2023") = None
  /\ BulkEtl.parse_grants_date (Py.VStr "13322023") = None
  /\ BulkEtl.parse_grants_date (Py.VStr "02302023") = None.
Proof. vm_compute. repeat split. Qed.

(** C8 (amended).  [format_date] of the scraper answers None for empty
    text; for other text it gives the ISO-8601 form of the first of its
    nine slash, dash and ISO formats that reads the text, and the text
    itself, unchanged, when none does: so MMDDYYYY and "Mon DD, YYYY"
    text passes through as it came.  [parse_grants_date] of the bulk
    extract gives a date only for text of exactly eight characters
    MMDDYYYY that name a day of the calendar, and None for every other
    input. *)
Theorem C8_date_normalisation :
  Scraper.format_date "" = None
  /\ (forall s t, s <> "" ->
        Py.first_some (Py.strptime s) Scraper.date_formats = Some t ->
        Scraper.format_date s = Some (Py.isoformat t)
        /\ exists fmt, In fmt Scraper.date_formats /\ Py.strptime s fmt = Some t)
  /\ (forall s, s <> "" ->
        (forall fmt, In fmt Scraper.date_formats -> Py.strptime s fmt = None) ->
        Scraper.format_date s = Some s)
  /\ (Scraper.format_date "04/13/2023" = Some "2023-04-13T00:00:00"
      /\ Scraper.format_date "04-13-2023" = Some "2023-04-13T00:00:00"
      /\ Scraper.format_date "2023-04-13" = Some "2023-04-13T00:00:00"
      /\ Scraper.format_date "04132023" = Some "04132023"
      /\ Scraper.format_date "Apr 13, 2023" = Some "Apr 13, 2023")
  /\ (forall v y m d,
        BulkEtl.parse_grants_date v = Some (y, m, d) ->
        exists s, v = Py.VStr s /\ Py.len s = 8
                  /\ Py.int (Py.str_slice s 0 2) = Some m
                  /\ Py.int (Py.str_slice s 2 4) = Some d
                  /\ Py.int (Py.str_slice s 4 8) = Some y
                  /\ Py.valid_date y m d = true)
  /\ (forall s, Py.len s <> 8 -> BulkEtl.parse_grants_date (Py.VStr s) = None)
  /\ BulkEtl.parse_grants_date (Py.VStr "04132023") = Some (2023, 4, 13).
Proof.
  split; [reflexivity|]. split; [|split; [|split; [|split; [|split]]]].
  - intros s t Hs Hfirst. split.
    + unfold Scraper.format_date. apply String.eqb_neq in Hs. by rewrite Hs, Hfirst.
    + by apply first_some_found.
  - intros s Hs Hnone. unfold Scraper.format_date.
    apply String.eqb_neq in Hs. rewrite Hs. by rewrite first_some_none.
  - vm_compute. repeat split.
  - intros v y m d. unfold BulkEtl.parse_grants_date.
    destruct v as [| | | |s|]; try discriminate.
    destruct (String.eqb s ""); [discriminate|].
    destruct (Py.len s =? 8) eqn:Hlen; [|discriminate].
    destruct (Py.int (Py.str_slice s 0 2)) as [month|] eqn:Hm; [|discriminate].
    destruct (Py.int (Py.str_slice s 2 4)) as [day|] eqn:Hd; [|discriminate].
    destruct (Py.int (Py.str_slice s 4 8)) as [year|] eqn:Hy; [|discriminate].
    destruct (_ && _); [|discriminate].
    destruct (Py.valid_date year month day) eqn:Hvalid; [|discriminate].
    apply Z.eqb_eq in Hlen.
    intros [= <- <- <-]. exists s. repeat split; done.
  - intros s Hlen. unfold BulkEtl.parse_grants_date.
    destruct (String.eqb s ""); [done|].
    destruct (Py.len s =? 8) eqn:H8; [lia | done].
  - vm_compute. reflexivity.
Qed.

(** C8 at work: a time of day in the afternoon, a day-first date, a text
    of eleven characters. *)
Lemma C8_date_normalisation_witness :
  Scraper.format_date "4/1/2023 1:05 PM" = Some "2023-04-01T13:05:00"
  /\ Scraper.format_date "13 April 2023" = Some "13 April 2023"
  /\ BulkEtl.parse_grants_date (Py.VStr "13 Apr 2023") = None.
Proof.
  pose proof C8_date_normalisation as (_ & Hparsed & Hraw & _ & _ & Hshort & _).
  split; [|split].
  - assert ("4/1/2023 1:05 PM" <> "") as Hne by discriminate.
    destruct (Hparsed "4/1/2023 1:05 PM"
                {| Py.year := 2023; Py.month := 4; Py.day := 1; Py.hour := 13;
                   Py.minute := 5; Py.second := 0; Py.microsecond := 0 |} Hne)
      as [Hiso _]; [vm_compute; reflexivity|].
    exact Hiso.
  - apply (Hraw "13 April 2023"); [discriminate|].
    intros fmt Hin. unfold Scraper.date_formats in Hin.
    repeat (destruct Hin as [<- | Hin]; [vm_compute; reflexivity|]). destruct Hin.
  - apply (Hshort "13 Apr 2023"). vm_compute. discriminate.
Defined.

End DateClaims.

(** ** The retention pass *)

Section TextOrder.

(** Text compares field by field when the leading fields have the same
    width. *)
Lemma compare_append (a b x y : string) :
  String.length a = String.length b ->
  String.compare (a +:+ x) (b +:+ y) =
  match String.compare a b with
  | Eq => String.compare x y
  | c => c
  end.
Proof.
  revert b. induction a as [|c a IH]; intros [|d b] Hlen; try discriminate.
  - done.
  - change (String c a +:+ x) with (String c (a +:+ x)).
    change (String d b +:+ y) with (String d (b +:+ y)).
    cbn [String.compare].
    destruct (Ascii.compare c d); [apply IH; by injection Hlen | done | done].
Qed.

Lemma length_append (a b : string) :
  String.length (a +:+ b) = (String.length a + String.length b)%nat.
Proof.
  induction a as [|c a IH]; [done|].
  change (String c a +:+ b) with (String c (a +:+ b)). cbn [String.length]. by rewrite IH.
Qed.

Lemma zfill_length w n : String.length (Py.zfill w n) = w.
Proof.
  revert n. induction w as [|w IH]; intros n; cbn [Py.zfill]; [done|].
  rewrite length_append, IH. cbn. lia.
Qed.

Lemma digit_char_compare x y :
  0 <= x <= 9 -> 0 <= y <= 9 ->
  Ascii.compare (Py.digit_char x) (Py.digit_char y) = (x ?= y).
Proof.
  intros Hx Hy.
  assert (x = 0 \/ x = 1 \/ x = 2 \/ x = 3 \/ x = 4 \/ x = 5 \/ x = 6 \/ x = 7
          \/ x = 8 \/ x = 9) as Hcx by lia.
  assert (y = 0 \/ y = 1 \/ y = 2 \/ y = 3 \/ y = 4 \/ y = 5 \/ y = 6 \/ y = 7
          \/ y = 8 \/ y = 9) as Hcy by lia.
  repeat (destruct Hcx as [-> | Hcx]);
    repeat (destruct Hcy as [-> | Hcy]); try subst x; try subst y; reflexivity.
Qed.

(** Zero-padded numbers of one width compare as the numbers do. *)
Lemma zfill_compare w a b :
  0 <= a < 10 ^ Z.of_nat w -> 0 <= b < 10 ^ Z.of_nat w ->
  String.compare (Py.zfill w a) (Py.zfill w b) = (a ?= b).
Proof.
  revert a b. induction w as [|w IH]; intros a b Ha Hb.
  - change (10 ^ Z.of_nat 0) with 1 in *. replace a with 0 by lia. by replace b with 0 by lia.
  - rewrite Nat2Z.inj_succ, Z.pow_succ_r in Ha, Hb by lia.
    cbn [Py.zfill]. rewrite compare_append by (by rewrite !zfill_length).
    pose proof (Z.div_mod a 10 ltac:(lia)) as Hda.
    pose proof (Z.div_mod b 10 ltac:(lia)) as Hdb.
    pose proof (Z.mod_pos_bound a 10 ltac:(lia)) as Hma.
    pose proof (Z.mod_pos_bound b 10 ltac:(lia)) as Hmb.
    rewrite IH.
    + cbn [String.compare]. rewrite digit_char_compare by lia.
      destruct (Z.compare_spec (a / 10) (b / 10));
        destruct (Z.compare_spec (a mod 10) (b mod 10));
        destruct (Z.compare_spec a b); try reflexivity; lia.
    + split; [apply Z.div_pos; lia | apply Z.div_lt_upper_bound; lia].
    + split; [apply Z.div_pos; lia | apply Z.div_lt_upper_bound; lia].
Qed.

Definition lex_ge (a b : string) : Prop := String.compare a b <> Lt.

Lemma lex_ge_field (w : nat) hi n x y :
  0 <= n <= hi -> hi < 10 ^ Z.of_nat w -> lex_ge x y ->
  lex_ge (Py.zfill w hi +:+ x) (Py.zfill w n +:+ y).
Proof.
  unfold lex_ge. intros Hn Hhi Hxy.
  rewrite compare_append by (by rewrite !zfill_length).
  rewrite zfill_compare by lia.
  destruct (Z.compare_spec hi n); [done | lia | done].
Qed.

Lemma lex_ge_char c x y :
  lex_ge x y -> lex_ge (String c EmptyString +:+ x) (String c EmptyString +:+ y).
Proof.
  unfold lex_ge.
  change (String c EmptyString +:+ x) with (String c x).
  change (String c EmptyString +:+ y) with (String c y).
  cbn [String.compare]. unfold Ascii.compare. by rewrite N.compare_refl.
Qed.

Lemma days_in_month_le y m : Py.days_in_month y m <= 31.
Proof.
  unfold Py.days_in_month.
  destruct (m =? 2); [destruct (Py.is_leap y); lia|].
  destruct (_ || _); lia.
Qed.

(** No date in range is written after the last instant of year 9999. *)
Lemma isoformat_le_max t :
  Py.valid_datetime t = true ->
  String.ltb (Py.isoformat Py.datetime_max) (Py.isoformat t) = false.
Proof.
  unfold Py.valid_datetime, Py.valid_date. rewrite !andb_true_iff, !Z.leb_le.
  intros Hvalid.
  repeat match goal with H : _ /\ _ |- _ => destruct H end.
  pose proof (days_in_month_le (Py.year t) (Py.month t)) as Hdim.
  assert (lex_ge (Py.isoformat Py.datetime_max) (Py.isoformat t)) as Hge.
  { unfold Py.isoformat, Py.datetime_max.
    cbn [Py.year Py.month Py.day Py.hour Py.minute Py.second Py.microsecond].
    change (999999 =? 0) with false. cbv iota.
    apply lex_ge_field; [lia | reflexivity |]. apply lex_ge_char.
    apply lex_ge_field; [lia | reflexivity |]. apply lex_ge_char.
    apply lex_ge_field; [lia | reflexivity |]. apply lex_ge_char.
    apply lex_ge_field; [lia | reflexivity |]. apply lex_ge_char.
    apply lex_ge_field; [lia | reflexivity |]. apply lex_ge_char.
    apply lex_ge_field; [lia | reflexivity |].
    destruct (Py.microsecond t =? 0); [by cbn|].
    apply lex_ge_char. unfold lex_ge.
    rewrite (zfill_compare 6) by (change (10 ^ Z.of_nat 6) with 1000000; lia).
    destruct (Z.compare_spec 999999 (Py.microsecond t)); [done | lia | done]. }
  unfold lex_ge in Hge. unfold String.ltb.
  by destruct (String.compare _ _).
Qed.

End TextOrder.

Section CleanupClaims.

Import Cleanup.

Implicit Types (t : gmap (string * string) (gmap string Py.value)).
Implicit Types (rows : list (string * string * gmap string Py.value)).

Lemma text_dated_lookup t k e v :
  text_dated t = true -> t !! k = Some e -> e !! "LastUpdated" = Some v ->
  exists s, v = Py.VStr s.
Proof.
  unfold text_dated. rewrite forallb_forall. intros Hall He Hv.
  specialize (Hall (k, e)). unfold dated_as_text in Hall. cbn in Hall. rewrite Hv in Hall.
  destruct v; try (discriminate Hall; apply list_elem_of_In; by apply elem_of_map_to_list).
  by eexists.
Qed.

Lemma is_old_text th (e : gmap string Py.value) :
  (forall v, e !! "LastUpdated" = Some v -> exists s, v = Py.VStr s) ->
  is_old th e = Py.Ok (selected th e).
Proof.
  intros Htext. unfold is_old, selected.
  destruct (e !! "LastUpdated") as [v|] eqn:Hv; [|done].
  destruct (Htext v eq_refl) as [s ->]. done.
Qed.

Lemma old_grants_text th rows :
  (forall row v, In row rows -> row.2 !! "LastUpdated" = Some v -> exists s, v = Py.VStr s) ->
  old_grants th rows = Py.Ok (List.filter (fun row => selected th row.2) rows).
Proof.
  induction rows as [|row rows IH]; intros Htext; [done|].
  cbn [old_grants List.filter].
  rewrite is_old_text by (intros v; apply Htext; by left).
  rewrite IH by (intros r v Hr; apply Htext; by right).
  done.
Qed.

Lemma lookup_delete_rows rows t k :
  foldl (fun t' grant => Table.delete_entity t' grant.1.1 grant.1.2) t rows !! k
  = if bool_decide (k ∈ rows.*1) then None else t !! k.
Proof.
  revert t. induction rows as [|[[pk rk] e] rows IH]; intros t; [done|].
  cbn [foldl fmap list_fmap fst snd]. rewrite IH. unfold Table.delete_entity.
  destruct (decide (k ∈ rows.*1)) as [Hin|Hout].
  - rewrite !bool_decide_eq_true_2; [done | by right | done].
  - rewrite (bool_decide_eq_false_2 _ Hout).
    destruct (decide (k = (pk, rk))) as [->|Hne].
    + rewrite bool_decide_eq_true_2 by (by left). apply lookup_delete_eq.
    + rewrite bool_decide_eq_false_2.
      * by apply lookup_delete_ne.
      * intros [?|?]%elem_of_cons; done.
Qed.

Lemma text_dated_lookup_all t :
  text_dated t = true ->
  forall k e v, t !! k = Some e -> e !! "LastUpdated" = Some v -> exists s, v = Py.VStr s.
Proof. intros Ht k e v. by apply text_dated_lookup. Qed.

(** The keys the pass picks are those of the Grant partition whose entity
    passes the test. *)
Lemma picked_keys th t k :
  k ∈ (List.filter (fun row => selected th row.2) (Table.query_entities t "Grant")).*1
  <-> exists e, t !! k = Some e /\ k.1 = "Grant" /\ selected th e = true.
Proof.
  unfold Table.query_entities. rewrite list_elem_of_fmap. split.
  - intros ([k' e] & -> & Hin). apply list_elem_of_In, filter_In in Hin as [Hin Hsel].
    apply list_elem_of_In, list_elem_of_filter in Hin as [Hpk Hin].
    apply elem_of_map_to_list in Hin. by exists e.
  - intros (e & Hlook & Hpk & Hsel). exists (k, e). split; [done|].
    apply list_elem_of_In, filter_In. split; [|done].
    apply list_elem_of_In, list_elem_of_filter. split; [done|].
    by apply elem_of_map_to_list.
Qed.

(** An entity is picked exactly when it carries a [LastUpdated] that
    compares before the threshold. *)
Lemma selected_dated cutoff (e : gmap string Py.value) :
  Py.valid_datetime cutoff = true ->
  (forall v, e !! "LastUpdated" = Some v -> exists s, v = Py.VStr s) ->
  selected (Py.isoformat cutoff) e = true
  <-> exists s, e !! "LastUpdated" = Some (Py.VStr s)
                /\ String.ltb s (Py.isoformat cutoff) = true.
Proof.
  intros Hvalid Htext. unfold selected.
  destruct (e !! "LastUpdated") as [v|] eqn:Hv.
  - destruct (Htext v eq_refl) as [s ->]. split.
    + intros Hlt. by exists s.
    + by intros (s' & [= <-] & Hlt).
  - rewrite isoformat_le_max by done. split; [done | by intros (s & ? & _)].
Qed.

(** C9.  Let the cutoff be the clock moved back by 90 days, and the
    threshold its ISO text.  With the store reachable and every stored
    LastUpdated being text, the pass ends normally and deletes exactly the
    grants of the Grant partition whose LastUpdated is present and
    compares before the threshold.  A grant without LastUpdated is read
    as dated at the last instant of year 9999 and is kept; every grant
    that is not deleted is left as it was, and nothing is added. *)
Theorem C9_cleanup_keeps_undated (c : ascii) (conn : string) (now cutoff : Py.datetime) t :
  Py.minus_days now 90 = Some cutoff ->
  Py.valid_datetime cutoff = true ->
  text_dated t = true ->
  exists t',
    main (Some (String c conn)) now t = Py.Ok t'
    /\ (forall pk rk e,
          t !! (pk, rk) = Some e ->
          (t' !! (pk, rk) = None
           <-> pk = "Grant"
               /\ exists s, e !! "LastUpdated" = Some (Py.VStr s)
                            /\ String.ltb s (Py.isoformat cutoff) = true)
          /\ (t' !! (pk, rk) = None \/ t' !! (pk, rk) = Some e)
          /\ (e !! "LastUpdated" = None -> t' !! (pk, rk) = Some e))
    /\ (forall k, t !! k = None -> t' !! k = None).
Proof.
  intros Hcutoff Hvalid Hdated_text.
  pose proof (text_dated_lookup_all t Hdated_text) as Htext. unfold main.
  rewrite Hcutoff.
  rewrite old_grants_text.
  2:{ intros [k e] v Hin Hv. unfold Table.query_entities in Hin.
      apply list_elem_of_In, list_elem_of_filter in Hin as [_ Hin].
      apply elem_of_map_to_list in Hin. by eapply Htext. }
  eexists. split; [reflexivity|]. split.
  - intros pk rk e He. rewrite lookup_delete_rows.
    assert (Hdated : forall v, e !! "LastUpdated" = Some v -> exists s, v = Py.VStr s)
      by (intros v; by eapply Htext).
    pose proof (picked_keys (Py.isoformat cutoff) t (pk, rk)) as Hpick.
    pose proof (selected_dated cutoff e Hvalid Hdated) as Hsel.
    destruct (decide ((pk, rk) ∈
      (List.filter (fun row => selected (Py.isoformat cutoff) row.2)
         (Table.query_entities t "Grant")).*1)) as [Hin|Hout].
    + rewrite bool_decide_eq_true_2 by done.
      apply Hpick in Hin as (e' & He' & Hpk & Hs). rewrite He in He'. injection He' as <-.
      apply Hsel in Hs as (s & Hs & Hlt).
      split; [|split].
      * split; [intros _; split; [done | by exists s] | done].
      * by left.
      * intros Hnone. by rewrite Hnone in Hs.
    + rewrite bool_decide_eq_false_2 by done. rewrite He.
      split; [|split].
      * split; [done|]. intros [Hpk Hs]. exfalso. apply Hout, Hpick.
        exists e. split; [done|]. split; [done|]. by apply Hsel.
      * by right.
      * done.
  - intros k Hk. rewrite lookup_delete_rows. by destruct (bool_decide _).
Qed.

(** C9 at work: a stale, a fresh and an undated grant. *)
Lemma C9_cleanup_keeps_undated_witness :
  exists t',
    main (Some "conn") Samples.clock Samples.dated_table = Py.Ok t'
    /\ t' !! ("Grant", "1") = None
    /\ t' !! ("Grant", "2") = Some Samples.fresh
    /\ t' !! ("Grant", "3") = Some Samples.undated.
Proof.
  destruct (C9_cleanup_keeps_undated "c" "onn" Samples.clock Samples.cutoff
              Samples.dated_table)
    as (t' & Hmain & Hrows & _);
    [vm_compute; exact eq_refl | vm_compute; exact eq_refl | vm_compute; exact eq_refl |].
  exists t'. split; [exact Hmain|].
  assert (Samples.dated_table !! ("Grant", "1") = Some Samples.stale) as H1
    by (vm_compute; exact eq_refl).
  assert (Samples.dated_table !! ("Grant", "2") = Some Samples.fresh) as H2
    by (vm_compute; exact eq_refl).
  assert (Samples.dated_table !! ("Grant", "3") = Some Samples.undated) as H3
    by (vm_compute; exact eq_refl).
  destruct (Hrows _ _ _ H1) as (Hdel & _ & _).
  destruct (Hrows _ _ _ H2) as (Hkeep & [Hgone | Hsame] & _).
  - split; [|split].
    + apply Hdel. split; [reflexivity|].
      exists "2025-01-15T08:00:00". split; vm_compute; exact eq_refl.
    + apply Hkeep in Hgone as (_ & s & Hs & Hlt).
      vm_compute in Hs. injection Hs as <-. vm_compute in Hlt. discriminate.
    + apply (Hrows _ _ _ H3). vm_compute; exact eq_refl.
  - split; [|split].
    + apply Hdel. split; [reflexivity|].
      exists "2025-01-15T08:00:00". split; vm_compute; exact eq_refl.
    + exact Hsame.
    + apply (Hrows _ _ _ H3). vm_compute; exact eq_refl.
Defined.

End CleanupClaims.

(** ** Merge writes *)

Section UpsertClaims.

Implicit Types (t : gmap (string * string) (gmap string Py.value)).
Implicit Types (props : gmap string Py.value).

(** A merge write sets the columns the written entity names and keeps the
    stored value of every other column. *)
Lemma upsert_entity_column t pk rk props col :
  (Table.upsert_entity t pk rk props !! (pk, rk)) ≫= (.!! col)
  = match props !! col with
    | Some v => Some v
    | None => (t !! (pk, rk)) ≫= (.!! col)
    end.
Proof.
  unfold Table.upsert_entity. rewrite lookup_insert_eq. cbn.
  rewrite lookup_union. destruct (props !! col) as [v|] eqn:Hcol.
  - by destruct (default ∅ (t !! (pk, rk)) !! col).
  - destruct (t !! (pk, rk)) as [old|]; cbn.
    + by destruct (old !! col).
    + by rewrite lookup_empty.
Qed.

Lemma upsert_entity_other t pk rk props k :
  k <> (pk, rk) -> Table.upsert_entity t pk rk props !! k = t !! k.
Proof. intros Hne. unfold Table.upsert_entity. by rewrite lookup_insert_ne. Qed.

Lemma detail_columns_names id now a b c d e f g h i :
  (GetGrantDetails.entity_columns id now a b c d e f g h i).*1
  = GetGrantDetails.written_columns.
Proof. reflexivity. Qed.

Lemma detail_extract_columns id now gd :
  exists a b c d e f g h i,
    GetGrantDetails.extract id now gd
    = list_to_map (GetGrantDetails.entity_columns id now a b c d e f g h i).
Proof.
  destruct gd; unfold GetGrantDetails.extract, GetGrantDetails.build_entity;
    do 9 eexists; reflexivity.
Qed.

(** The handler's entity names exactly its eleven columns. *)
Lemma detail_extract_named id now gd col :
  (In col GetGrantDetails.written_columns ->
   exists v, GetGrantDetails.extract id now gd !! col = Some v)
  /\ (~ In col GetGrantDetails.written_columns ->
      GetGrantDetails.extract id now gd !! col = None).
Proof.
  destruct (detail_extract_columns id now gd) as (a & b & c & d & e & f & g & h & i & ->).
  split.
  - intros Hin. apply list_elem_of_In in Hin.
    rewrite <- (detail_columns_names id now a b c d e f g h i) in Hin.
    destruct (list_to_map _ !! col) as [v|] eqn:Hcol; [by exists v|].
    by apply not_elem_of_list_to_map in Hcol.
  - intros Hout. apply not_elem_of_list_to_map.
    rewrite detail_columns_names. by rewrite list_elem_of_In.
Qed.

Lemma written_columns_nodup : NoDup GetGrantDetails.written_columns.
Proof. apply (bool_decide_unpack _). vm_compute. exact I. Qed.

(** What the handler writes in the two columns of the claim. *)
Lemma detail_extract_nested id now opp :
  GetGrantDetails.extract id now (GetGrantDetails.Nested opp) !! "Description"
  = Some (Py.VStr
            (let d := GetGrantDetails.clean_text (Py.jget opp "description") in
             if Py.len d >? 32000 then Py.str_slice d 0 32000 else d))
  /\ GetGrantDetails.extract id now (GetGrantDetails.Nested opp) !! "AwardCeiling"
     = Some (Py.VStr (GetGrantDetails.clean_text (Py.jget opp "awardCeiling"))).
Proof.
  unfold GetGrantDetails.extract, GetGrantDetails.build_entity.
  split; apply elem_of_list_to_map_1;
    try (rewrite detail_columns_names; apply written_columns_nodup);
    apply list_elem_of_In; unfold GetGrantDetails.entity_columns.
  - do 2 right. by left.
  - do 6 right. by left.
Qed.

(** The collector does not touch an id that its first scan has seen. *)
Lemma collector_knows_stored t key :
  is_Some (t !! ("Grant", key)) ->
  existsb (EnhancedCollector.py_eq (Py.JStr key)) (EnhancedCollector.existing_ids true t)
  = true.
Proof.
  intros [e He]. apply existsb_exists. exists (Py.JStr key). split.
  - unfold EnhancedCollector.existing_ids, Table.query_entities.
    apply in_map_iff. exists ("Grant", key, e). split; [done|].
    apply list_elem_of_In, list_elem_of_filter. split; [done|].
    by apply elem_of_map_to_list.
  - cbn. apply String.eqb_refl.
Qed.

(** C1 (as the claim states it, refuted).  A grant is stored with a
    description and an award ceiling.  The detail handler then receives,
    for the same id, a reply that carries a title and nothing else: the
    merge write it issues names every column of the handler, so the
    stored Description and AwardCeiling become the empty text. *)
Lemma C1_detail_upsert_clears_fields :
  let key := ("Grant", "351423") in
  let t' := GetGrantDetails.main "351423" Samples.title_only_reply GetGrantDetails.Failed
              (Some "conn") "2026-11-03T10:00:00" Samples.stored_table in
  (Samples.stored_table !! key) ≫= (.!! "Description")
    = Some (Py.VStr "Funds for teacher training programmes")
  /\ (Samples.stored_table !! key) ≫= (.!! "AwardCeiling") = Some (Py.VStr "500000")
  /\ (t' !! key) ≫= (.!! "Title") = Some (Py.VStr "Teacher training 2024")
  /\ (t' !! key) ≫= (.!! "Description") = Some (Py.VStr "")
  /\ (t' !! key) ≫= (.!! "AwardCeiling") = Some (Py.VStr "").
Proof. vm_compute. repeat split. Qed.

(** C1 (amended).  The upsert is a merge by column name: a column the
    written entity names takes the written value, empty or not, and a
    column it does not name keeps its stored value; other entities are
    not touched.  The detail handler names its eleven columns in every
    write, Description and AwardCeiling among them, so a reply without
    them stores the empty text there, while columns it never writes keep
    what was stored.  The search collector leaves the table as it is for
    an id that its first scan found stored. *)
Theorem C1_merge_by_named_column :
  (forall t pk rk props col,
      (Table.upsert_entity t pk rk props !! (pk, rk)) ≫= (.!! col)
      = match props !! col with
        | Some v => Some v
        | None => (t !! (pk, rk)) ≫= (.!! col)
        end)
  /\ (forall t pk rk props k,
        k <> (pk, rk) -> Table.upsert_entity t pk rk props !! k = t !! k)
  /\ (forall body opp legacy c conn now t col,
        let id := Py.strip Py.is_space body in
        let t' := GetGrantDetails.main body
                    (GetGrantDetails.Reply 200 (GetGrantDetails.Nested opp))
                    legacy (Some (String c conn)) now t in
        (In col GetGrantDetails.written_columns ->
         exists v, GetGrantDetails.extract id now (GetGrantDetails.Nested opp) !! col = Some v
                   /\ (t' !! ("Grant", id)) ≫= (.!! col) = Some v)
        /\ (~ In col GetGrantDetails.written_columns ->
            (t' !! ("Grant", id)) ≫= (.!! col) = (t !! ("Grant", id)) ≫= (.!! col))
        /\ (opp !! "description" = None ->
            (t' !! ("Grant", id)) ≫= (.!! "Description") = Some (Py.VStr ""))
        /\ (opp !! "awardCeiling" = None ->
            (t' !! ("Grant", id)) ≫= (.!! "AwardCeiling") = Some (Py.VStr "")))
  /\ (forall t key now opp added,
        is_Some (t !! ("Grant", key)) ->
        Py.jget opp "id" = Py.JStr key ->
        let st := {| EnhancedCollector.table := t;
                     EnhancedCollector.processed_ids := EnhancedCollector.existing_ids true t;
                     EnhancedCollector.total_grants_added := added |} in
        EnhancedCollector.process_opportunity st (now, opp) = st).
Proof.
  split; [apply upsert_entity_column|]. split; [apply upsert_entity_other|]. split.
  - intros body opp legacy c conn now t col id t'.
    assert (t' = Table.upsert_entity t "Grant" id
                   (GetGrantDetails.extract id now (GetGrantDetails.Nested opp))) as ->
      by reflexivity.
    destruct (detail_extract_named id now (GetGrantDetails.Nested opp) col) as [Hin Hout].
    destruct (detail_extract_nested id now opp) as [Hdesc Hceil].
    rewrite !upsert_entity_column. split; [|split; [|split]].
    + intros Hcol. destruct (Hin Hcol) as [v Hv]. exists v. by rewrite Hv.
    + intros Hcol. by rewrite (Hout Hcol).
    + intros Hnone. rewrite Hdesc. unfold Py.jget. by rewrite Hnone.
    + intros Hnone. rewrite Hceil. unfold Py.jget. by rewrite Hnone.
  - intros t key now opp added Hstored Hid st.
    unfold EnhancedCollector.process_opportunity. rewrite Hid. cbn [Py.truthy negb].
    destruct (negb (String.eqb key "")); [|done]. cbn [negb].
    subst st. cbn [EnhancedCollector.processed_ids].
    by rewrite collector_knows_stored.
Qed.

(** C1 at work: a title-only reply and a title-only search hit for a
    stored grant. *)
Lemma C1_merge_by_named_column_witness :
  let t' := GetGrantDetails.main "351423" Samples.title_only_reply GetGrantDetails.Failed
              (Some "conn") "2026-11-03T10:00:00" Samples.stored_table in
  (t' !! ("Grant", "351423")) ≫= (.!! "Description") = Some (Py.VStr "")
  /\ (t' !! ("Grant", "351423")) ≫= (.!! "Number") = Some (Py.VStr "ED-GRANTS-2023")
  /\ EnhancedCollector.table
       (EnhancedCollector.collect true [("2026-11-03T10:00:00", Samples.title_only_hit)]
          Samples.stored_table)
     = Samples.stored_table.
Proof.
  pose proof C1_merge_by_named_column as (_ & _ & Hdetail & Hcollector).
  destruct (Hdetail "351423" {[ "title" := Py.JStr "Teacher training 2024" ]}
              GetGrantDetails.Failed "c"%char "onn" "2026-11-03T10:00:00"
              Samples.stored_table "Number") as (_ & Hkeep & Hdesc & _).
  pose proof (Hcollector Samples.stored_table "351423" "2026-11-03T10:00:00"
                Samples.title_only_hit 0 (ex_intro _ Samples.stored_grant eq_refl) eq_refl)
    as Hskip.
  split; [|split].
  - vm_compute in Hdesc. vm_compute. exact (Hdesc eq_refl).
  - vm_compute in Hkeep. vm_compute. apply Hkeep.
    intros H. repeat (destruct H as [H|H]; [discriminate H|]). exact H.
  - exact (f_equal EnhancedCollector.table Hskip).
Defined.

End UpsertClaims.

(** ** The award range *)

Section AwardRangeClaims.

Import Scraper.

Implicit Types (fx : fixes) (entity web_data : gmap string Py.value).

Lemma Qgtb_lt a b : Py.Qgtb a b = true -> (b < a)%Q.
Proof.
  unfold Py.Qgtb. intros H%negb_true_iff.
  assert (~ (a <= b)%Q) by (rewrite <- Qle_bool_iff; congruence). lra.
Qed.

(** The page contributes both amounts: after [apply_web_data] the changes
    hold them as read. *)
Lemma apply_web_data_amounts entity web_data fx vf vc f c :
  web_data !! "awardFloor" = Some vf -> web_data !! "awardCeiling" = Some vc ->
  safe_float vf 0 = Py.Ok f -> safe_float vc 0 = Py.Ok c ->
  Py.Qgtb f c = true -> Py.Qgtb c 0 = true ->
  exists fx',
    apply_web_data entity web_data fx = Py.Ok fx'
    /\ modified fx' = true
    /\ updates fx' !! "AwardFloor" = Some (Py.VFloat f)
    /\ updates fx' !! "AwardCeiling" = Some (Py.VFloat c).
Proof.
  intros Hvf Hvc Hf Hc Hfc Hc0.
  assert (not_negative f = true) as Hnn.
  { apply Qle_bool_iff. apply Qgtb_lt in Hfc, Hc0. lra. }
  unfold apply_web_data, take_amount.
  rewrite Hvc, Hc. unfold positive. rewrite Hc0.
  rewrite Hvf, Hf, Hnn.
  eexists. split; [reflexivity|].
  destruct (web_data !! "expectedNumOfAwards") as [awards|];
    destruct (web_data !! "fundingInstrument") as [instrument|];
    try destruct (negb (has entity "FundingType"));
    cbn [set_update updates modified]; (split; [done|]); split.
  all: try (rewrite ?lookup_insert_ne by done; by rewrite lookup_insert_eq).
Qed.

(** The swap of lines 697-701 on a pair in the wrong order. *)
Lemma ensure_floor_le_ceiling_swaps fx f c :
  updates fx !! "AwardFloor" = Some (Py.VFloat f) ->
  updates fx !! "AwardCeiling" = Some (Py.VFloat c) ->
  Py.Qgtb f c = true -> Py.Qgtb c 0 = true ->
  updates (ensure_floor_le_ceiling fx) !! "AwardFloor" = Some (Py.VFloat c)
  /\ updates (ensure_floor_le_ceiling fx) !! "AwardCeiling" = Some (Py.VFloat f)
  /\ modified (ensure_floor_le_ceiling fx) = modified fx.
Proof.
  intros Hf Hc Hfc Hc0. unfold ensure_floor_le_ceiling.
  rewrite Hf, Hc, Hfc, Hc0. cbn [andb updates modified].
  by rewrite lookup_insert_eq, lookup_insert_ne, lookup_insert_eq.
Qed.

(** What the collector stores for a hit that is new to it. *)
Lemma collector_stores_as_received st now opp key col v :
  Py.jget opp "id" = Py.JStr key -> key <> "" ->
  existsb (EnhancedCollector.py_eq (Py.JStr key)) (EnhancedCollector.processed_ids st) = false ->
  In (col, v) (EnhancedCollector.entity_columns opp key now) ->
  (EnhancedCollector.table (EnhancedCollector.process_opportunity st (now, opp))
     !! ("Grant", key)) ≫= (.!! col) = Some v.
Proof.
  intros Hid Hkey Hnew Hcol. unfold EnhancedCollector.process_opportunity.
  rewrite Hid. cbn [Py.truthy]. apply String.eqb_neq in Hkey. rewrite Hkey. cbn [negb].
  rewrite Hnew. cbn [EnhancedCollector.table].
  rewrite upsert_entity_column.
  unfold EnhancedCollector.build_entity.
  erewrite elem_of_list_to_map_1; [done| |by apply list_elem_of_In].
  apply (bool_decide_unpack _). vm_compute. exact I.
Qed.

(** C2 (as the claim states it, refuted).  The claim has every ingestion
    path repair a pair with floor above ceiling.  The search collector
    receives a hit with awardFloor 15000000 and awardCeiling 5000000 and
    stores both texts as they came: the stored floor is above the stored
    ceiling. *)
Lemma C2_collector_stores_inverted_range :
  let st := EnhancedCollector.collect true
              [("2026-11-03T10:00:00", Samples.inverted_hit)] ∅ in
  (EnhancedCollector.table st !! ("Grant", "324456")) ≫= (.!! "AwardFloor")
    = Some (Py.VStr "15000000")
  /\ (EnhancedCollector.table st !! ("Grant", "324456")) ≫= (.!! "AwardCeiling")
     = Some (Py.VStr "5000000")
  /\ Collector.safe_float (Py.VStr "15000000") 0 = Py.Ok (15000000 # 1)
  /\ Collector.safe_float (Py.VStr "5000000") 0 = Py.Ok (5000000 # 1)
  /\ Py.Qgtb (15000000 # 1) (5000000 # 1) = true
  /\ Py.Qgtb (5000000 # 1) 0 = true.
Proof. vm_compute. repeat split. Qed.

(** C2 (amended).  The repair pass [fix_grant] swaps the pair: when the
    stored grant lacks an award amount and the scraped page gives an award
    floor and an award ceiling that coerce to floor > ceiling > 0, the
    grant is updated with the two values exchanged, so that the stored
    floor is below the stored ceiling.  The search collector compares
    nothing: for a hit that is new to it, it stores the award floor and
    the award ceiling as the cleaned text it received. *)
Theorem C2_repair_pass_swaps_range :
  (forall web_data api_data now grant_id t entity vf vc f c,
      t !! ("Grant", grant_id) = Some entity ->
      missing_amount (entity !! "AwardCeiling") || missing_amount (entity !! "AwardFloor")
        = true ->
      web_data !! "awardFloor" = Some vf -> web_data !! "awardCeiling" = Some vc ->
      safe_float vf 0 = Py.Ok f -> safe_float vc 0 = Py.Ok c ->
      Py.Qgtb f c = true -> Py.Qgtb c 0 = true ->
      exists t',
        fix_grant_with web_data api_data now grant_id t = (t', true)
        /\ (t' !! ("Grant", grant_id)) ≫= (.!! "AwardFloor") = Some (Py.VFloat c)
        /\ (t' !! ("Grant", grant_id)) ≫= (.!! "AwardCeiling") = Some (Py.VFloat f)
        /\ (c < f)%Q)
  /\ (forall st now opp key,
        Py.jget opp "id" = Py.JStr key -> key <> "" ->
        existsb (EnhancedCollector.py_eq (Py.JStr key)) (EnhancedCollector.processed_ids st)
          = false ->
        let t' := EnhancedCollector.table
                    (EnhancedCollector.process_opportunity st (now, opp)) in
        (t' !! ("Grant", key)) ≫= (.!! "AwardFloor")
          = Some (Py.VStr (EnhancedCollector.cleaned opp "awardFloor" ""))
        /\ (t' !! ("Grant", key)) ≫= (.!! "AwardCeiling")
           = Some (Py.VStr (EnhancedCollector.cleaned opp "awardCeiling" ""))).
Proof.
  split.
  - intros web_data api_data now grant_id t entity vf vc f c
           Hentity Hneeds Hvf Hvc Hf Hc Hfc Hc0.
    destruct (apply_web_data_amounts entity web_data
                (copy_expected_awards entity {| updates := ∅; modified := false |})
                vf vc f c Hvf Hvc Hf Hc Hfc Hc0)
      as (fx & Hweb & Hmod & Hfloor & Hceil).
    destruct (ensure_floor_le_ceiling_swaps fx f c Hfloor Hceil Hfc Hc0)
      as (Hfloor' & Hceil' & Hmod').
    assert (web_data <> ∅) as Hne by (intros ->; by rewrite lookup_empty in Hvf).
    assert (collect_fixes entity web_data api_data = Py.Ok (ensure_floor_le_ceiling fx))
      as Hfixes.
    { unfold collect_fixes. rewrite Hneeds.
      rewrite (bool_decide_eq_false_2 _ Hne), Hweb, Hmod.
      unfold apply_defaults. by rewrite Hmod', Hmod. }
    unfold fix_grant_with, Table.get_entity, Table.update_entity.
    rewrite Hentity, Hfixes, Hmod', Hmod.
    eexists. split; [reflexivity|].
    rewrite lookup_insert_eq. cbn [mbind option_bind].
    rewrite !lookup_union, !lookup_insert_ne, Hfloor', Hceil' by done.
    split; [by destruct (entity !! "AwardFloor")|].
    split; [by destruct (entity !! "AwardCeiling")|].
    by apply Qgtb_lt.
  - intros st now opp key Hid Hkey Hnew t'. subst t'.
    split; apply collector_stores_as_received; try done;
      unfold EnhancedCollector.entity_columns.
    + do 9 right. by left.
    + do 10 right. by left.
Qed.

(** C2 at work: a page giving a floor of 15 million and a ceiling of 5
    million. *)
Lemma C2_repair_pass_swaps_range_witness :
  exists t',
    fix_grant_with Samples.inverted_page None "2026-11-03T10:00:00" "324456"
                   Samples.unpriced_table = (t', true)
    /\ (t' !! ("Grant", "324456")) ≫= (.!! "AwardFloor") = Some (Py.VFloat (5000000 # 1))
    /\ (t' !! ("Grant", "324456")) ≫= (.!! "AwardCeiling") = Some (Py.VFloat (15000000 # 1)).
Proof.
  destruct (proj1 C2_repair_pass_swaps_range Samples.inverted_page None
              "2026-11-03T10:00:00" "324456" Samples.unpriced_table Samples.unpriced_grant
              (Py.VStr "$15,000,000") (Py.VStr "$5,000,000") (15000000 # 1) (5000000 # 1))
    as (t' & Hrun & Hfloor & Hceil & _); try (vm_compute; exact eq_refl).
  exists t'. split; [exact Hrun|]. split; [exact Hfloor | exact Hceil].
Defined.

End AwardRangeClaims.

(** ** The retry policy of the fetchers *)

Section RetryClaims.

Import Scraper.

Implicit Types (fetch search : nat -> api_reply) (trace : list event).

Lemma requests_to_app target trace1 trace2 :
  requests_to target (trace1 ++ trace2)
  = (requests_to target trace1 + requests_to target trace2)%nat.
Proof. unfold requests_to. by rewrite List.filter_app, length_app. Qed.

Lemma requests_to_turn target retry :
  requests_to target [api_delay retry; Request target retry] = 1%nat.
Proof. unfold requests_to. cbn. by destruct target; cbn; rewrite ?Nat.eqb_refl. Qed.

Lemma requests_to_fetch_turn retry :
  requests_to Search2 [api_delay retry; Request FetchOpportunity retry] = 0%nat.
Proof. reflexivity. Qed.

Lemma requests_to_search_turn retry :
  requests_to FetchOpportunity [api_delay retry; Request Search2 retry] = 0%nat.
Proof. reflexivity. Qed.

Lemma requests_to_backoff target retry : requests_to target [backoff retry] = 0%nat.
Proof. reflexivity. Qed.

Create Rewrite HintDb requests.
Hint Rewrite requests_to_app requests_to_turn requests_to_fetch_turn
     requests_to_search_turn requests_to_backoff : requests.

(** Case analysis on one turn of a retry loop. *)
Ltac loop_cases reply :=
  destruct reply as [status_code [|errorcode [d|]]|];
  [ destruct (rate_limited status_code); [|destruct (status_code =? 200)]
  | destruct (rate_limited status_code);
    [|destruct (status_code =? 200); [destruct (negb (errorcode =? 0))|]]
  | destruct (rate_limited status_code);
    [|destruct (status_code =? 200); [destruct (negb (errorcode =? 0))|]]
  | ].

(** The first loop sends at most one request per turn, and none to the
    search endpoint. *)
Lemma fetch_loop_requests fetch max_retries todo retry trace :
  (requests_to FetchOpportunity (fetch_loop fetch max_retries todo retry trace).2
   <= requests_to FetchOpportunity trace + todo)%nat
  /\ requests_to Search2 (fetch_loop fetch max_retries todo retry trace).2
     = requests_to Search2 trace.
Proof.
  revert retry trace. induction todo as [|todo IH]; intros retry trace; cbn [fetch_loop].
  - cbn [snd]. split; [lia | done].
  - pose proof (IH (S retry)
                  ((trace ++ [api_delay retry; Request FetchOpportunity retry])
                     ++ [backoff retry])) as [IHf IHs].
    autorewrite with requests in IHf, IHs.
    loop_cases (fetch retry); try destruct (S retry <? max_retries)%nat;
      cbn [snd]; autorewrite with requests; split; lia.
Qed.

Lemma search_loop_requests search max_retries todo retry trace :
  (requests_to Search2 (search_loop search max_retries todo retry trace).2
   <= requests_to Search2 trace + todo)%nat
  /\ requests_to FetchOpportunity (search_loop search max_retries todo retry trace).2
     = requests_to FetchOpportunity trace.
Proof.
  revert retry trace. induction todo as [|todo IH]; intros retry trace; cbn [search_loop].
  - cbn [snd]. split; [lia | done].
  - pose proof (IH (S retry)
                  ((trace ++ [api_delay retry; Request Search2 retry])
                     ++ [backoff retry])) as [IHs IHf].
    autorewrite with requests in IHf, IHs.
    loop_cases (search retry); try destruct (S retry <? max_retries)%nat;
      try (destruct d as [? [[|hit hits]|]]);
      cbn [snd]; autorewrite with requests; split; lia.
Qed.

(** Both loops only add to the trace they are given. *)
Lemma fetch_loop_extends fetch max_retries todo retry trace :
  exists rest, (fetch_loop fetch max_retries todo retry trace).2 = trace ++ rest.
Proof.
  revert retry trace. induction todo as [|todo IH]; intros retry trace; cbn [fetch_loop].
  - exists []. by rewrite app_nil_r.
  - destruct (IH (S retry)
                ((trace ++ [api_delay retry; Request FetchOpportunity retry])
                   ++ [backoff retry])) as [rest Hrest].
    loop_cases (fetch retry); try destruct (S retry <? max_retries)%nat;
      cbn [snd]; rewrite ?Hrest, <- ?app_assoc; by eexists.
Qed.

Lemma search_loop_extends search max_retries todo retry trace :
  exists rest, (search_loop search max_retries todo retry trace).2 = trace ++ rest.
Proof.
  revert retry trace. induction todo as [|todo IH]; intros retry trace; cbn [search_loop].
  - exists []. by rewrite app_nil_r.
  - destruct (IH (S retry)
                ((trace ++ [api_delay retry; Request Search2 retry])
                   ++ [backoff retry])) as [rest Hrest].
    loop_cases (search retry); try destruct (S retry <? max_retries)%nat;
      try (destruct d as [? [[|hit hits]|]]);
      cbn [snd]; rewrite ?Hrest, <- ?app_assoc; by eexists.
Qed.

Lemma fetch_loop_bounded fetch max_retries todo retry trace :
  (retry + todo = max_retries)%nat ->
  Forall (turn_event max_retries) trace ->
  Forall (turn_event max_retries) (fetch_loop fetch max_retries todo retry trace).2.
Proof.
  revert retry trace. induction todo as [|todo IH]; intros retry trace Hsum Htrace;
    cbn [fetch_loop]; [done|].
  assert (Forall (turn_event max_retries)
            (trace ++ [api_delay retry; Request FetchOpportunity retry])) as Hturn.
  { apply Forall_app. split; [done|].
    repeat constructor; exists retry; (split; [lia|]); auto. }
  assert (Forall (turn_event max_retries)
            ((trace ++ [api_delay retry; Request FetchOpportunity retry])
               ++ [backoff retry])) as Hback.
  { apply Forall_app. split; [done|]. repeat constructor. exists retry. split; [lia|]. auto. }
  pose proof (IH (S retry) _ ltac:(lia) Hback) as Hrec.
  loop_cases (fetch retry); try destruct (S retry <? max_retries)%nat; cbn [snd]; done.
Qed.

Lemma search_loop_bounded search max_retries todo retry trace :
  (retry + todo = max_retries)%nat ->
  Forall (turn_event max_retries) trace ->
  Forall (turn_event max_retries) (search_loop search max_retries todo retry trace).2.
Proof.
  revert retry trace. induction todo as [|todo IH]; intros retry trace Hsum Htrace;
    cbn [search_loop]; [done|].
  assert (Forall (turn_event max_retries)
            (trace ++ [api_delay retry; Request Search2 retry])) as Hturn.
  { apply Forall_app. split; [done|].
    repeat constructor; exists retry; (split; [lia|]); auto. }
  assert (Forall (turn_event max_retries)
            ((trace ++ [api_delay retry; Request Search2 retry])
               ++ [backoff retry])) as Hback.
  { apply Forall_app. split; [done|]. repeat constructor. exists retry. split; [lia|]. auto. }
  pose proof (IH (S retry) _ ltac:(lia) Hback) as Hrec.
  loop_cases (search retry); try destruct (S retry <? max_retries)%nat;
    try (destruct d as [? [[|hit hits]|]]); cbn [snd]; done.
Qed.

(** A turn always starts with its pause and its request. *)
Lemma fetch_loop_turn fetch max_retries todo retry trace :
  exists rest,
    (fetch_loop fetch max_retries (S todo) retry trace).2
    = (trace ++ [api_delay retry; Request FetchOpportunity retry]) ++ rest.
Proof.
  cbn [fetch_loop].
  destruct (fetch_loop_extends fetch max_retries todo (S retry)
              ((trace ++ [api_delay retry; Request FetchOpportunity retry])
                 ++ [backoff retry])) as [rest Hrest].
  loop_cases (fetch retry); try destruct (S retry <? max_retries)%nat; cbn [snd];
    first [ rewrite Hrest, <- (app_assoc _ [backoff retry]); by eexists
          | exists []; by rewrite app_nil_r ].
Qed.

Lemma search_loop_turn search max_retries todo retry trace :
  exists rest,
    (search_loop search max_retries (S todo) retry trace).2
    = (trace ++ [api_delay retry; Request Search2 retry]) ++ rest.
Proof.
  cbn [search_loop].
  destruct (search_loop_extends search max_retries todo (S retry)
              ((trace ++ [api_delay retry; Request Search2 retry])
                 ++ [backoff retry])) as [rest Hrest].
  loop_cases (search retry); try destruct (S retry <? max_retries)%nat;
    try (destruct d as [? [[|hit hits]|]]); cbn [snd];
    first [ rewrite Hrest, <- (app_assoc _ [backoff retry]); by eexists
          | exists []; by rewrite app_nil_r ].
Qed.

(** After a reply of the retried kind the first endpoint is asked again,
    if the cap allows a second turn. *)
Lemma fetch_loop_retries fetch max_retries :
  retried (fetch 0%nat) = true -> (2 <= max_retries)%nat ->
  exists rest,
    (fetch_loop fetch max_retries max_retries 0 []).2
    = [api_delay 0; Request FetchOpportunity 0; backoff 0;
       api_delay 1; Request FetchOpportunity 1] ++ rest.
Proof.
  intros Hretried Hcap. destruct max_retries as [|[|k]]; [lia | lia |].
  destruct (fetch_loop_turn fetch (S (S k)) k 1
              [api_delay 0; Request FetchOpportunity 0; backoff 0]) as [rest Hrest].
  exists rest.
  transitivity
    (fetch_loop fetch (S (S k)) (S k) 1
       [api_delay 0; Request FetchOpportunity 0; backoff 0]).2; [|exact Hrest].
  clear Hrest.
  cbn [fetch_loop]. change (1 <? S (S k))%nat with true. cbv iota.
  unfold retried in Hretried.
  destruct (fetch 0%nat) as [status_code body|]; [|done].
  destruct (rate_limited status_code); [done|]. cbn [orb] in Hretried.
  destruct (status_code =? 200); [|done].
  by destruct body.
Qed.

(** After any other reply the first endpoint is not asked again. *)
Lemma fetch_loop_gives_up fetch max_retries :
  retried (fetch 0%nat) = false -> (1 <= max_retries)%nat ->
  (exists d, fetch 0%nat = ApiReply 200 (ApiJson 0 (Some d))
             /\ fetch_loop fetch max_retries max_retries 0 []
                = (Returned (fields d), [api_delay 0; Request FetchOpportunity 0]))
  \/ fetch_loop fetch max_retries max_retries 0 []
     = (LeftLoop, [api_delay 0; Request FetchOpportunity 0]).
Proof.
  intros Hretried Hcap. destruct max_retries as [|k]; [lia|].
  cbn [fetch_loop]. unfold retried in Hretried.
  destruct (fetch 0%nat) as [status_code body|]; [|done].
  destruct (rate_limited status_code); [done|]. cbn [orb] in Hretried.
  destruct (status_code =? 200) eqn:Hok; [|by right].
  apply Z.eqb_eq in Hok as ->.
  destruct body as [|errorcode [d|]]; [done| |].
  - destruct (errorcode =? 0) eqn:Hcode; [|by right].
    apply Z.eqb_eq in Hcode as ->. left. by exists d.
  - right. by destruct (negb (errorcode =? 0)).
Qed.

(** The page scraper: the trace only grows, and a turn starts with its
    pause and its request. *)
Lemma page_loop_extends page url_index todo retry grant_data trace :
  exists rest, (page_loop page url_index todo retry grant_data trace).2 = trace ++ rest.
Proof.
  revert retry trace. induction todo as [|todo IH]; intros retry trace; cbn [page_loop].
  - exists []. by rewrite app_nil_r.
  - destruct (IH (S retry) (trace ++ [web_delay retry; Request (DetailPage url_index) retry]))
      as [rest1 Hrest1].
    destruct (IH (S retry)
                ((trace ++ [web_delay retry; Request (DetailPage url_index) retry])
                   ++ [backoff retry])) as [rest2 Hrest2].
    destruct (page retry) as [status_code found|].
    + destruct (status_code =? 200); [by eexists|].
      destruct (rate_limited status_code); [|by eexists].
      rewrite Hrest2, <- !app_assoc. by eexists.
    + rewrite Hrest1, <- !app_assoc. by eexists.
Qed.

Lemma page_loop_turn page url_index todo retry grant_data trace :
  exists rest,
    (page_loop page url_index (S todo) retry grant_data trace).2
    = (trace ++ [web_delay retry; Request (DetailPage url_index) retry]) ++ rest.
Proof.
  cbn [page_loop].
  destruct (page retry) as [status_code found|].
  - destruct (status_code =? 200); [exists []; by rewrite app_nil_r|].
    destruct (rate_limited status_code); [|exists []; by rewrite app_nil_r].
    destruct (page_loop_extends page url_index todo (S retry) grant_data
                ((trace ++ [web_delay retry; Request (DetailPage url_index) retry])
                   ++ [backoff retry])) as [rest Hrest].
    rewrite Hrest, <- (app_assoc _ [backoff retry]). by eexists.
  - apply page_loop_extends.
Qed.

(** Turns that end in a reply of the retried kind, the cap allowing
    another turn after each: the loop goes through them one by one, each
    followed by its own backoff. *)
Lemma fetch_loop_retried fetch max_retries k todo retry trace :
  (k <= todo)%nat -> (retry + k < max_retries)%nat ->
  (forall i, (i < k)%nat -> retried (fetch (retry + i)%nat) = true) ->
  fetch_loop fetch max_retries todo retry trace
  = fetch_loop fetch max_retries (todo - k) (retry + k)
      (trace ++ backed_off_turns FetchOpportunity retry k).
Proof.
  revert todo retry trace. induction k as [|k IH]; intros todo retry trace Hk Hcap Hall.
  - rewrite Nat.sub_0_r, Nat.add_0_r. unfold backed_off_turns. cbn [seq flat_map].
    by rewrite app_nil_r.
  - destruct todo as [|todo]; [lia|].
    assert (fetch_loop fetch max_retries (S todo) retry trace
            = fetch_loop fetch max_retries todo (S retry)
                ((trace ++ [api_delay retry; Request FetchOpportunity retry])
                   ++ [backoff retry])) as ->.
    { cbn [fetch_loop]. pose proof (Hall 0%nat ltac:(lia)) as Hfirst.
      rewrite Nat.add_0_r in Hfirst. unfold retried in Hfirst.
      assert ((S retry <? max_retries)%nat = true) as -> by (apply Nat.ltb_lt; lia).
      destruct (fetch retry) as [status_code body|]; [|done].
      destruct (rate_limited status_code); [done|]. cbn [orb] in Hfirst.
      destruct (status_code =? 200); [|discriminate]. by destruct body. }
    rewrite (IH todo (S retry)); [|lia|lia|].
    2: { intros i Hi. replace (S retry + i)%nat with (retry + S i)%nat by lia.
         apply Hall. lia. }
    replace (retry + S k)%nat with (S retry + k)%nat by lia. cbn [Nat.sub]. f_equal.
    unfold backed_off_turns. cbn [seq flat_map]. by rewrite <- !app_assoc.
Qed.

Lemma search_loop_retried search max_retries k todo retry trace :
  (k <= todo)%nat -> (retry + k < max_retries)%nat ->
  (forall i, (i < k)%nat -> retried (search (retry + i)%nat) = true) ->
  search_loop search max_retries todo retry trace
  = search_loop search max_retries (todo - k) (retry + k)
      (trace ++ backed_off_turns Search2 retry k).
Proof.
  revert todo retry trace. induction k as [|k IH]; intros todo retry trace Hk Hcap Hall.
  - rewrite Nat.sub_0_r, Nat.add_0_r. unfold backed_off_turns. cbn [seq flat_map].
    by rewrite app_nil_r.
  - destruct todo as [|todo]; [lia|].
    assert (search_loop search max_retries (S todo) retry trace
            = search_loop search max_retries todo (S retry)
                ((trace ++ [api_delay retry; Request Search2 retry]) ++ [backoff retry]))
      as ->.
    { cbn [search_loop]. pose proof (Hall 0%nat ltac:(lia)) as Hfirst.
      rewrite Nat.add_0_r in Hfirst. unfold retried in Hfirst.
      assert ((S retry <? max_retries)%nat = true) as -> by (apply Nat.ltb_lt; lia).
      destruct (search retry) as [status_code body|]; [|done].
      destruct (rate_limited status_code); [done|]. cbn [orb] in Hfirst.
      destruct (status_code =? 200); [|discriminate]. by destruct body. }
    rewrite (IH todo (S retry)); [|lia|lia|].
    2: { intros i Hi. replace (S retry + i)%nat with (retry + S i)%nat by lia.
         apply Hall. lia. }
    replace (retry + S k)%nat with (S retry + k)%nat by lia. cbn [Nat.sub]. f_equal.
    unfold backed_off_turns. cbn [seq flat_map]. by rewrite <- !app_assoc.
Qed.

Lemma rate_limited_not_ok status_code :
  rate_limited status_code = true -> (status_code =? 200) = false.
Proof.
  unfold rate_limited. intros [->%Z.eqb_eq | ->%Z.eqb_eq]%orb_true_iff; reflexivity.
Qed.

Lemma page_loop_backed_off page url_index k todo retry grant_data trace :
  (k <= todo)%nat ->
  (forall i, (i < k)%nat ->
     exists status_code found,
       page (retry + i)%nat = WebReply status_code found
       /\ rate_limited status_code = true) ->
  page_loop page url_index todo retry grant_data trace
  = page_loop page url_index (todo - k) (retry + k) grant_data
      (trace ++ backed_off_page_turns url_index retry k).
Proof.
  revert todo retry trace. induction k as [|k IH]; intros todo retry trace Hk Hall.
  - rewrite Nat.sub_0_r, Nat.add_0_r. unfold backed_off_page_turns. cbn [seq flat_map].
    by rewrite app_nil_r.
  - destruct todo as [|todo]; [lia|].
    assert (page_loop page url_index (S todo) retry grant_data trace
            = page_loop page url_index todo (S retry) grant_data
                ((trace ++ [web_delay retry; Request (DetailPage url_index) retry])
                   ++ [backoff retry])) as ->.
    { cbn [page_loop].
      destruct (Hall 0%nat ltac:(lia)) as (status_code & found & Hreply & Hlimited).
      rewrite Nat.add_0_r in Hreply.
      by rewrite Hreply, (rate_limited_not_ok _ Hlimited), Hlimited. }
    rewrite (IH todo (S retry)); [|lia|].
    2: { intros i Hi. replace (S retry + i)%nat with (retry + S i)%nat by lia.
         apply Hall. lia. }
    replace (retry + S k)%nat with (S retry + k)%nat by lia. cbn [Nat.sub]. f_equal.
    unfold backed_off_page_turns. cbn [seq flat_map]. by rewrite <- !app_assoc.
Qed.

Lemma requests_to_backed_off target first count :
  requests_to target (backed_off_turns target first count) = count.
Proof.
  revert first. induction count as [|count IH]; intros first; [done|].
  unfold backed_off_turns in *. cbn [seq flat_map].
  rewrite requests_to_app, IH. unfold requests_to. cbn.
  destruct target; cbn; rewrite ?Nat.eqb_refl; reflexivity.
Qed.

(** A reply that is not of the retried kind ends the turns of its loop,
    whichever turn it answers. *)
Lemma fetch_loop_stops fetch max_retries todo retry trace :
  retried (fetch retry) = false ->
  (exists d, fetch retry = ApiReply 200 (ApiJson 0 (Some d))
             /\ fetch_loop fetch max_retries (S todo) retry trace
                = (Returned (fields d),
                   trace ++ [api_delay retry; Request FetchOpportunity retry]))
  \/ fetch_loop fetch max_retries (S todo) retry trace
     = (LeftLoop, trace ++ [api_delay retry; Request FetchOpportunity retry]).
Proof.
  intros Hretried. cbn [fetch_loop]. unfold retried in Hretried.
  destruct (fetch retry) as [status_code body|]; [|done].
  destruct (rate_limited status_code); [done|]. cbn [orb] in Hretried.
  destruct (status_code =? 200) eqn:Hok; [|by right].
  apply Z.eqb_eq in Hok as ->.
  destruct body as [|errorcode [d|]]; [done| |].
  - destruct (errorcode =? 0) eqn:Hcode; [|by right].
    apply Z.eqb_eq in Hcode as ->. left. by exists d.
  - right. by destruct (negb (errorcode =? 0)).
Qed.

Lemma search_loop_stops search max_retries todo retry trace :
  retried (search retry) = false ->
  exists found,
    search_loop search max_retries (S todo) retry trace
    = (found, trace ++ [api_delay retry; Request Search2 retry]).
Proof.
  intros Hretried. cbn [search_loop]. unfold retried in Hretried.
  destruct (search retry) as [status_code body|]; [|done].
  destruct (rate_limited status_code); [done|]. cbn [orb] in Hretried.
  destruct (status_code =? 200); [|by eexists].
  destruct body as [|errorcode data]; [done|].
  destruct (negb (errorcode =? 0)); [by eexists|].
  destruct data as [[fields_ [[|hit hits]|]]|]; by eexists.
Qed.




End RetryClaims.

(* ===================================================================== *)
(** * Further properties of the modelled code *)
(* ===================================================================== *)

(** ** The read endpoint *)

Section ViewerMore.

Import Viewer.

Lemma pages_cover total_count limit :
  1 <= limit -> 0 < total_count ->
  (total_pages total_count limit - 1) * limit < total_count
  /\ total_count <= total_pages total_count limit * limit.
Proof.
  intros Hl Ht. unfold total_pages. destruct (total_count >? 0) eqn:Hgt; [|lia].
  pose proof (Z.div_mod (total_count + limit - 1) limit ltac:(lia)) as Hdm.
  pose proof (Z.mod_pos_bound (total_count + limit - 1) limit ltac:(lia)) as Hr.
  nia.
Qed.

(** X1.  The page of a reply holds at most [limit] grants; a page past
    the last is empty; every page up to the last holds a grant, and every
    page before the last is full. *)
Theorem X1_viewer_page_bounds params c conn count_query rows p grants :
  body (main params (Some (String c conn)) count_query (Some rows)) = Some (p, grants) ->
  (length grants <= Z.to_nat (limit p))%nat
  /\ (pages p < page p -> grants = [])
  /\ (0 < total p -> page p <= pages p -> grants <> [])
  /\ (page p < pages p -> length grants = Z.to_nat (limit p)).
Proof.
  intros [= <- <-]%main_reply. cbn [limit pages page total].
  pose proof (parse_limit_range params) as Hl.
  pose proof (parse_page_range params) as Hp.
  set (matching := filtered_grants params rows).
  set (L := parse_limit params) in *. set (P := parse_page params) in *.
  rewrite slice_drop_take by nia.
  replace ((P - 1) * L + L - (P - 1) * L) with L by lia.
  assert (Hlen : length (firstn (Z.to_nat L) (skipn (Z.to_nat ((P - 1) * L)) matching))
                 = Nat.min (Z.to_nat L) (length matching - Z.to_nat ((P - 1) * L)))
    by (by rewrite length_firstn, length_skipn).
  destruct (Z_le_gt_dec (Z.of_nat (length matching)) 0) as [Hempty|Hsome].
  - assert (length matching = 0%nat) as Hz by lia.
    rewrite Hlen, Hz. repeat split; try lia.
    + intros _. apply length_zero_iff_nil. rewrite Hlen, Hz. lia.
    + unfold total_pages. replace (Z.of_nat 0 >? 0) with false by reflexivity. lia.
  - pose proof (pages_cover (Z.of_nat (length matching)) L ltac:(lia) ltac:(lia))
      as [Hlast Hall].
    repeat split.
    + rewrite Hlen. lia.
    + intros Hpast. apply length_zero_iff_nil. rewrite Hlen. nia.
    + intros _ Hin Hnil. apply (f_equal length) in Hnil. rewrite Hlen in Hnil.
      cbn in Hnil. nia.
    + intros Hbefore. rewrite Hlen. nia.
Qed.

(** X1 at work: the third and the fourth page of 25 grants, ten to a
    page. *)
Lemma X1_viewer_page_bounds_witness :
  (exists p grants,
      body (main {[ "page" := "3"; "limit" := "10" ]} (Some "conn") None
                 (Some Samples.numbered_rows)) = Some (p, grants)
      /\ (length grants <= 10)%nat /\ grants <> [])
  /\ (exists p,
        body (main {[ "page" := "4"; "limit" := "10" ]} (Some "conn") None
                   (Some Samples.numbered_rows)) = Some (p, [])).
Proof.
  split.
  - assert (parse_page {[ "page" := "3"; "limit" := "10" ]} <= 10000) as Hsmall
      by (vm_compute; discriminate).
    pose proof (main_body {[ "page" := "3"; "limit" := "10" ]} "c"%char "onn" None
                  Samples.numbered_rows (small_offset_written _ Hsmall)) as Hbody.
    pose proof (X1_viewer_page_bounds _ "c"%char "onn" _ _ _ _ Hbody)
      as (Hle & _ & Hsome & _).
    eexists _, _. split; [exact Hbody|]. split.
    + vm_compute in Hle |- *. exact Hle.
    + apply Hsome; vm_compute; [reflexivity | discriminate].
  - assert (parse_page {[ "page" := "4"; "limit" := "10" ]} <= 10000) as Hsmall
      by (vm_compute; discriminate).
    pose proof (main_body {[ "page" := "4"; "limit" := "10" ]} "c"%char "onn" None
                  Samples.numbered_rows (small_offset_written _ Hsmall)) as Hbody.
    pose proof (X1_viewer_page_bounds _ "c"%char "onn" _ _ _ _ Hbody)
      as (_ & Hpast & _).
    cbn [pages page] in Hpast.
    eexists. rewrite Hbody, Hpast by (vm_compute; reflexivity). reflexivity.
Defined.

Lemma get_insert_other (params : gmap string string) key key' v dflt :
  key <> key' -> get (<[key := v]> params) key' dflt = get params key' dflt.
Proof. intros Hne. unfold get. by rewrite lookup_insert_ne. Qed.

Lemma get_insert_same (params : gmap string string) key v dflt :
  get (<[key := v]> params) key dflt = v.
Proof. unfold get. by rewrite lookup_insert_eq. Qed.

(** X2.  The [format] parameter only chooses the rendering: the
    pagination block and the page of grants are the same for every value
    of it. *)
Theorem X2_viewer_format_keeps_data params fmt conn count_query list_query :
  body (main (<["format" := fmt]> params) conn count_query list_query)
  = body (main params conn count_query list_query).
Proof.
  unfold main, parse_limit, parse_page, filtered_grants.
  rewrite (get_insert_other params "format" "limit"),
    (get_insert_other params "format" "page"),
    (get_insert_other params "format" "search"),
    (get_insert_other params "format" "agency"),
    (get_insert_other params "format" "category") by done.
  destruct conn as [[|c conn]|]; [done| |done].
  destruct (negb (logs _)); [done|].
  destruct list_query as [rows|]; [|done].
  destruct (negb (logs _)); [done|].
  by do 2 destruct (String.eqb _ "html").
Qed.

Lemma lower_ascii_idemp c : Py.lower_ascii (Py.lower_ascii c) = Py.lower_ascii c.
Proof. by destruct c as [[] [] [] [] [] [] [] []]. Qed.

Lemma lower_idemp s : Py.lower (Py.lower s) = Py.lower s.
Proof.
  induction s as [|c s IH]; [done|]. cbn [Py.lower]. by rewrite lower_ascii_idemp, IH.
Qed.

(** X3.  The filters do not depend on the case of the terms given:
    writing the search, agency or category term in lower case gives the
    same matching grants. *)
Theorem X3_viewer_terms_ignore_case params term rows :
  filtered_grants (<["search" := Py.lower term]> params) rows
    = filtered_grants (<["search" := term]> params) rows
  /\ filtered_grants (<["agency" := Py.lower term]> params) rows
     = filtered_grants (<["agency" := term]> params) rows
  /\ filtered_grants (<["category" := Py.lower term]> params) rows
     = filtered_grants (<["category" := term]> params) rows.
Proof.
  unfold filtered_grants.
  repeat split;
    rewrite !get_insert_same, ?get_insert_other by done;
    by rewrite lower_idemp.
Qed.

Lemma matches_passes search agency category grant :
  matches search agency category grant = true
  <-> passes search search_fields grant
      /\ passes agency ["AgencyName"] grant
      /\ passes category ["Category"] grant.
Proof.
  unfold matches, passes. rewrite !andb_true_iff.
  assert (Hone : forall term field,
    (if String.eqb term "" then true
     else Py.contains term (Py.lower (get grant field ""))) = true
    <-> term = "" \/ exists f, In f [field]
                               /\ Py.contains term (Py.lower (get grant f "")) = true).
  { intros term field. destruct (String.eqb_spec term "") as [->|Hne].
    - split; [by left | done].
    - split.
      + intros H. right. exists field. split; [by left | done].
      + intros [?|(f & [<-|[]] & H)]; done. }
  rewrite !Hone.
  assert (Hmany :
    (if String.eqb search "" then true
     else existsb (fun field => Py.contains search (Py.lower (get grant field "")))
                  search_fields) = true
    <-> search = "" \/ exists field, In field search_fields
          /\ Py.contains search (Py.lower (get grant field "")) = true).
  { destruct (String.eqb_spec search "") as [->|Hne].
    - split; [by left | done].
    - rewrite existsb_exists. split; [by right | by intros [?|?]]. }
  rewrite Hmany. tauto.
Qed.

(** X4.  Every grant of a reply is the projection of a stored row that
    passes each filter given, the total is the number of such rows, and
    without filters every stored row counts. *)
Theorem X4_viewer_filters_exact params c conn count_query rows p grants :
  body (main params (Some (String c conn)) count_query (Some rows)) = Some (p, grants) ->
  let search := Py.lower (get params "search" "") in
  let agency := Py.lower (get params "agency" "") in
  let category := Py.lower (get params "category" "") in
  (forall g, In g grants ->
     exists row, In row rows /\ g = simplify row
                 /\ passes search search_fields row
                 /\ passes agency ["AgencyName"] row
                 /\ passes category ["Category"] row)
  /\ total p = Z.of_nat (length (List.filter (matches search agency category) rows))
  /\ (search = "" -> agency = "" -> category = "" -> total p = Z.of_nat (length rows)).
Proof.
  intros [= <- <-]%main_reply search agency category. cbn [total].
  assert (Hfilter : filter (fun g => matches search agency category g = true) rows
                    = List.filter (matches search agency category) rows).
  { clear. induction rows as [|row rows IH]; [done|].
    rewrite filter_cons. cbn [List.filter]. rewrite IH.
    destruct (matches search agency category row) eqn:Hm.
    - by rewrite decide_True.
    - by rewrite decide_False. }
  unfold filtered_grants. fold search agency category. rewrite Hfilter.
  split; [|split].
  - intros g Hin. unfold Py.slice in Hin.
    apply list_elem_of_In, subseteq_take, subseteq_drop, list_elem_of_In in Hin.
    apply in_map_iff in Hin as (row & <- & Hrow).
    apply filter_In in Hrow as [Hrow Hmatch].
    exists row. split; [done|]. split; [done|]. by apply matches_passes.
  - by rewrite length_map.
  - intros -> -> ->. rewrite length_map. f_equal. f_equal.
    clear. induction rows as [|row rows IH]; [done|]. cbn. by rewrite IH.
Qed.

(** X4 at work: a search for "solar" over two stored grants. *)
Lemma X4_viewer_filters_exact_witness :
  exists p grants,
    body (main {[ "search" := "Solar" ]} (Some "conn") None
               (Some [ {[ "RowKey" := "1"; "Title" := "Rural health" ]};
                       {[ "RowKey" := "2"; "Description" := "SOLAR farms" ]} ]))
      = Some (p, grants)
    /\ total p = 1 /\ map ID grants = ["2"].
Proof.
  assert (parse_page {[ "search" := "Solar" ]} <= 10000) as Hsmall
    by (vm_compute; discriminate).
  pose proof (main_body {[ "search" := "Solar" ]} "c"%char "onn" None
                [ {[ "RowKey" := "1"; "Title" := "Rural health" ]};
                  {[ "RowKey" := "2"; "Description" := "SOLAR farms" ]} ]
                (small_offset_written _ Hsmall)) as Hbody.
  pose proof (X4_viewer_filters_exact _ "c"%char "onn" _ _ _ _ Hbody) as (_ & Htotal & _).
  eexists _, _. split; [exact Hbody|]. split.
  - rewrite Htotal. vm_compute. reflexivity.
  - vm_compute. reflexivity.
Defined.

End ViewerMore.

(** ** The normaliser *)

Section TransformerMore.

Import Transformer.

Lemma description_prefix_bad opp :
  description_prefix opp = (if bad_description opp then Py.Raise Py.TypeError
                            else description_prefix opp)
  /\ (bad_description opp = false -> exists short, description_prefix opp = Py.Ok short).
Proof.
  unfold description_prefix, bad_description.
  destruct (opp !! "description") as [[| | |]|]; split; try done; intros _; by eexists.
Qed.

(** What the loop returns, in terms of the batch. *)
Lemma transform_loop_ok batch acc log log' out :
  transform_loop batch acc log = (log', Py.Ok out) ->
  map raw_data out = map raw_data acc ++ List.filter complete batch
  /\ warnings log' = warnings log ++ List.filter missing_critical batch
  /\ reported_counts log' = reported_counts log.
Proof.
  revert acc log. induction batch as [|opp batch IH]; intros acc log; cbn [transform_loop].
  - intros [= <- <-]. cbn. by rewrite !app_nil_r.
  - unfold complete. cbn [List.filter].
    destruct (missing_critical opp) eqn:Hmiss; cbn [negb].
    + intros Hrun. apply IH in Hrun as (Hout & Hwarn & Hcount).
      rewrite Hout, Hwarn, Hcount, warnings_app, reported_counts_app. cbn.
      by rewrite <- !app_assoc, app_nil_r.
    + destruct (description_prefix opp) as [short|e]; [|discriminate].
      intros Hrun. apply IH in Hrun as (Hout & Hwarn & Hcount).
      rewrite Hout, Hwarn, Hcount, map_app. cbn. by rewrite <- !app_assoc.
Qed.

(** X5.  When the transformer returns, its records are the complete
    payloads of the batch, one each and in the order of the batch; one
    warning is logged for each incomplete payload, in order; and the count
    it reports is the number of records returned. *)
Theorem X5_transform_keeps_complete_in_order batch log out :
  transform_opportunities batch = (log, Py.Ok out) ->
  map raw_data out = List.filter complete batch
  /\ warnings log = List.filter missing_critical batch
  /\ reported_counts log = [Z.of_nat (length out)]
  /\ (length out + length (warnings log) = length batch)%nat.
Proof.
  intros Hrun. apply transform_opportunities_ok in Hrun as (log0 & Hloop & ->).
  apply transform_loop_ok in Hloop as (Hout & Hwarn & Hcount).
  cbn in Hout, Hwarn, Hcount.
  rewrite warnings_app, reported_counts_app, Hwarn, Hcount. cbn. rewrite app_nil_r.
  repeat split; try done.
  rewrite <- (length_map raw_data out), Hout. unfold complete.
  clear. induction batch as [|opp batch IH]; [done|].
  cbn. destruct (missing_critical opp); cbn; lia.
Qed.

(** X5 at work: a batch of three payloads, the second without title. *)
Lemma X5_transform_keeps_complete_in_order_witness :
  let a : payload := {[ "id" := Py.JStr "1"; "title" := Py.JStr "A" ]} in
  let b : payload := {[ "id" := Py.JStr "2" ]} in
  let c : payload := {[ "id" := Py.JStr "3"; "title" := Py.JStr "C" ]} in
  exists log out,
    transform_opportunities [a; b; c] = (log, Py.Ok out)
    /\ map raw_data out = [a; c] /\ warnings log = [b].
Proof.
  intros a b c.
  destruct (transform_opportunities [a; b; c]) as [log [out|e]] eqn:Hrun;
    [|vm_compute in Hrun; discriminate Hrun].
  pose proof (X5_transform_keeps_complete_in_order _ _ _ Hrun) as (Hout & Hwarn & _).
  exists log, out. split; [reflexivity|]. split.
  - rewrite Hout. vm_compute. reflexivity.
  - rewrite Hwarn. vm_compute. reflexivity.
Defined.

Lemma transform_loop_outcome batch acc log :
  if existsb (fun opp => complete opp && bad_description opp) batch
  then exists log', transform_loop batch acc log = (log', Py.Raise Py.TypeError)
                    /\ reported_counts log' = reported_counts log
  else exists log' out, transform_loop batch acc log = (log', Py.Ok out).
Proof.
  revert acc log. induction batch as [|opp batch IH]; intros acc log;
    cbn [transform_loop existsb]; [by eexists _, _|].
  unfold complete at 1.
  destruct (missing_critical opp) eqn:Hmiss; cbn [negb andb orb].
  - specialize (IH acc (log ++ [Warning_skipping opp])).
    destruct (existsb _ batch); [|done].
    destruct IH as (log' & Hrun & Hcount). exists log'. split; [done|].
    rewrite Hcount, reported_counts_app. cbn. by rewrite app_nil_r.
  - destruct (description_prefix_bad opp) as [Hbad Hgood].
    destruct (bad_description opp); cbn [orb].
    + rewrite Hbad. by exists log.
    + destruct (Hgood eq_refl) as [short ->]. apply IH.
Qed.

(** X6.  The transformer fails exactly when some complete payload of the
    batch carries a description that is present and not text: it then
    raises TypeError for the whole batch, returns no record and reports no
    count.  In every other case it returns. *)
Theorem X6_transform_fails_on_bad_description batch :
  (existsb (fun opp => complete opp && bad_description opp) batch = true ->
   exists log, transform_opportunities batch = (log, Py.Raise Py.TypeError)
               /\ reported_counts log = [])
  /\ (existsb (fun opp => complete opp && bad_description opp) batch = false ->
      exists log out, transform_opportunities batch = (log, Py.Ok out)).
Proof.
  pose proof (transform_loop_outcome batch [] []) as Hloop.
  unfold transform_opportunities. split; intros Hex; rewrite Hex in Hloop.
  - destruct Hloop as (log' & -> & Hcount). by exists log'.
  - destruct Hloop as (log' & out & ->). by eexists _, _.
Qed.

(** X6 at work: a null description after a good payload. *)
Lemma X6_transform_fails_on_bad_description_witness :
  let a : payload := {[ "id" := Py.JStr "1"; "title" := Py.JStr "A" ]} in
  let b : payload := {[ "id" := Py.JStr "2"; "title" := Py.JStr "B";
                        "description" := Py.JNull ]} in
  (exists log, transform_opportunities [a; b] = (log, Py.Raise Py.TypeError))
  /\ (exists log out, transform_opportunities [a; a] = (log, Py.Ok out)).
Proof.
  intros a b. split.
  - destruct (proj1 (X6_transform_fails_on_bad_description [a; b])) as (log & Hrun & _);
      [vm_compute; exact eq_refl|]. by exists log.
  - apply (proj2 (X6_transform_fails_on_bad_description [a; a])).
    vm_compute; exact eq_refl.
Defined.

Lemma substring_length_le n m s : (String.length (String.substring n m s) <= m)%nat.
Proof.
  revert n m. induction s as [|c s IH]; intros [|n] [|m]; cbn; try lia.
  - specialize (IH 0%nat m). lia.
  - apply (IH n 0%nat).
  - apply (IH n (S m)).
Qed.

Lemma substring_prefix m s : String.prefix (String.substring 0 m s) s = true.
Proof.
  revert m. induction s as [|c s IH]; intros [|m]; cbn; try done.
  rewrite IH. by destruct (ascii_dec c c).
Qed.

Lemma str_slice_head s k :
  0 <= k ->
  (String.length (Py.str_slice s 0 k) <= Z.to_nat k)%nat
  /\ String.prefix (Py.str_slice s 0 k) s = true.
Proof.
  intros Hk. unfold Py.str_slice, Py.slice_index, Py.len.
  replace (0 <? 0) with false by reflexivity.
  destruct (k <? 0) eqn:Hneg; [lia|].
  rewrite Z.min_l by lia. change (Z.to_nat 0) with 0%nat. split.
  - etransitivity; [apply substring_length_le|]. lia.
  - apply substring_prefix.
Qed.

Lemma transform_loop_well_formed batch acc log log' out :
  Forall well_formed acc ->
  transform_loop batch acc log = (log', Py.Ok out) ->
  Forall well_formed out.
Proof.
  revert acc log. induction batch as [|opp batch IH]; intros acc log Hacc;
    cbn [transform_loop]; [by intros [= <- <-]|].
  destruct (missing_critical opp) eqn:Hmiss; [by apply IH|].
  destruct (description_prefix opp) as [short|e] eqn:Hshort; [|discriminate].
  apply IH. apply Forall_app. split; [done|]. constructor; [|done].
  unfold missing_critical in Hmiss. apply orb_false_elim in Hmiss as [Hid Htitle].
  apply negb_false_iff in Hid, Htitle.
  unfold well_formed. cbn. repeat split; try done.
  - unfold description_prefix in Hshort.
    destruct (opp !! "description") as [[| | |text]|]; try discriminate;
      injection Hshort as <-.
    + by apply (str_slice_head text 500).
    + by apply (str_slice_head "" 500).
  - unfold description_prefix, Py.jget in *.
    destruct (opp !! "description") as [[| | |text]|]; try discriminate;
      injection Hshort as <-; [by apply (str_slice_head text 500) | done].
Qed.

(** X7.  Every record the transformer returns takes its id and title from
    its payload, both being present; its two URLs are the fixed templates
    followed by the id; its short description has at most 500 characters
    and is the beginning of the long description. *)
Theorem X7_transform_records_well_formed batch log out :
  transform_opportunities batch = (log, Py.Ok out) -> Forall well_formed out.
Proof.
  intros Hrun. apply transform_opportunities_ok in Hrun as (log0 & Hloop & _).
  by eapply transform_loop_well_formed.
Qed.

(** X7 at work: the record made from the grant 351423. *)
Lemma X7_transform_records_well_formed_witness :
  let hit : payload := {[ "id" := Py.JStr "351423"; "title" := Py.JStr "Teacher training";
                          "agencyCode" := Py.JStr "ED" ]} in
  exists log r,
    transform_opportunities [hit] = (log, Py.Ok [r])
    /\ opportunity_url r = "https://www.grants.gov/search-results-detail/351423"
    /\ agency_code r = Py.JStr "ED".
Proof.
  intros hit.
  assert (transform_opportunities [hit] = ([Info_transformed 1], Py.Ok [build hit ""]))
    as Hrun by (vm_compute; exact eq_refl).
  pose proof (X7_transform_records_well_formed _ _ _ Hrun) as Hall.
  apply Forall_inv in Hall as (Hid & _ & _ & _ & Hurl & _).
  exists [Info_transformed 1], (build hit ""). split; [exact Hrun|]. split.
  - rewrite Hurl, Hid. vm_compute. reflexivity.
  - vm_compute. reflexivity.
Defined.

End TransformerMore.

(** ** The retention pass *)

Section CleanupMore.

Import Cleanup.

Implicit Types (t : gmap (string * string) (gmap string Py.value)).
Implicit Types (rows : list (string * string * gmap string Py.value)).

Lemma old_grants_filter th rows olds :
  old_grants th rows = Py.Ok olds ->
  olds = List.filter (fun row => tests_old th row.2) rows
  /\ forall row, In row rows -> exists b, is_old th row.2 = Py.Ok b.
Proof.
  revert olds. induction rows as [|r rows IH]; intros olds; cbn [old_grants List.filter].
  - by intros [= <-].
  - destruct (is_old th r.2) as [b|e] eqn:Hold; [|discriminate].
    destruct (old_grants th rows) as [olds'|e]; [|discriminate].
    destruct (IH olds' eq_refl) as [-> Hall]. intros [= <-]. split.
    + unfold tests_old. cbn beta. rewrite Hold. by destruct b.
    + intros row [<-|Hin]; [by exists b | by apply Hall].
Qed.

Lemma old_grants_none th rows :
  (forall row, In row rows -> is_old th row.2 = Py.Ok false) ->
  old_grants th rows = Py.Ok [].
Proof.
  induction rows as [|r rows IH]; intros Hall; [done|]. cbn [old_grants].
  rewrite (Hall r) by (by left). rewrite IH; [done|]. intros row Hin. apply Hall. by right.
Qed.

Lemma old_grants_raises th rows :
  (exists row, In row rows /\ is_old th row.2 = Py.Raise Py.TypeError) ->
  old_grants th rows = Py.Raise Py.TypeError.
Proof.
  induction rows as [|r rows IH]; intros (row & Hin & Hraise); [done|].
  cbn [old_grants]. unfold is_old in *.
  destruct Hin as [<-|Hin].
  - by rewrite Hraise.
  - destruct (default _ (r.2 !! "LastUpdated")); try done.
    rewrite IH; [done|]. by exists row.
Qed.

Lemma query_entities_lookup t pk k e :
  In (k, e) (Table.query_entities t pk) <-> t !! k = Some e /\ k.1 = pk.
Proof.
  unfold Table.query_entities.
  rewrite <- list_elem_of_In, list_elem_of_filter, elem_of_map_to_list. cbn. tauto.
Qed.

(** X8.  The pass is idempotent: run again at the same clock reading on
    the table it left, it ends normally and deletes nothing more. *)
Theorem X8_cleanup_idempotent conn now t t' :
  main conn now t = Py.Ok t' -> main conn now t' = Py.Ok t'.
Proof.
  unfold main. destruct conn as [[|c conn]|]; [by intros [= <-] | | by intros [= <-]].
  destruct (Py.minus_days now 90) as [cutoff|]; [|discriminate].
  destruct (old_grants (Py.isoformat cutoff) (Table.query_entities t "Grant"))
    as [olds|e] eqn:Holds; [|discriminate].
  intros [= <-]. apply old_grants_filter in Holds as [Holds Hall].
  rewrite old_grants_none; [done|].
  intros [k e] Hin. apply query_entities_lookup in Hin as [Hlook Hpk].
  rewrite lookup_delete_rows in Hlook.
  destruct (decide (k ∈ olds.*1)) as [Hk|Hk];
    [by rewrite bool_decide_eq_true_2 in Hlook|].
  rewrite bool_decide_eq_false_2 in Hlook by done.
  assert (In (k, e) (Table.query_entities t "Grant")) as Hrow
    by (by apply query_entities_lookup).
  destruct (Hall _ Hrow) as [[|] Hb]; [|done].
  exfalso. apply Hk. rewrite Holds. apply list_elem_of_fmap. exists (k, e).
  split; [done|]. apply list_elem_of_In, filter_In. split; [done|].
  unfold tests_old. cbn [snd] in Hb |- *. by rewrite Hb.
Qed.

(** X9.  A grant of the Grant partition whose LastUpdated is not text
    makes the pass fail with TypeError while it selects, before anything
    is deleted: no table is returned. *)
Theorem X9_cleanup_fails_before_deleting c conn now cutoff t rk e v :
  Py.minus_days now 90 = Some cutoff ->
  t !! ("Grant", rk) = Some e ->
  e !! "LastUpdated" = Some v ->
  (forall s, v <> Py.VStr s) ->
  main (Some (String c conn)) now t = Py.Raise Py.TypeError.
Proof.
  intros Hcutoff He Hv Htext. unfold main. rewrite Hcutoff.
  rewrite old_grants_raises; [done|].
  exists ("Grant", rk, e). split; [by apply query_entities_lookup|].
  unfold is_old. cbn. rewrite Hv. cbn. destruct v; try done. by destruct (Htext s).
Qed.

End CleanupMore.

(** X8 at work: the sample table, cleaned twice. *)
Lemma X8_cleanup_idempotent_witness :
  exists t',
    Cleanup.main (Some "conn") Samples.clock Samples.dated_table = Py.Ok t'
    /\ Cleanup.main (Some "conn") Samples.clock t' = Py.Ok t'.
Proof.
  assert (Cleanup.main (Some "conn") Samples.clock Samples.dated_table
          = Py.Ok Samples.cleaned_table) as Hrun by (vm_compute; exact eq_refl).
  exists Samples.cleaned_table. split; [exact Hrun|].
  exact (X8_cleanup_idempotent _ _ _ _ Hrun).
Defined.

(** X9 at work: a grant whose LastUpdated was stored as a number. *)
Lemma X9_cleanup_fails_before_deleting_witness :
  Cleanup.main (Some "conn") Samples.clock
       (<[("Grant", "9") := {[ "LastUpdated" := Py.VInt 20250115 ]}]> Samples.dated_table)
  = Py.Raise Py.TypeError.
Proof.
  apply (X9_cleanup_fails_before_deleting "c" "onn" Samples.clock Samples.cutoff _ "9"
           {[ "LastUpdated" := Py.VInt 20250115 ]} (Py.VInt 20250115));
    [vm_compute; exact eq_refl | apply lookup_insert_eq | vm_compute; exact eq_refl
    | discriminate].
Defined.

(** ** The detail handler *)

Section DetailMore.

Import GetGrantDetails.

Implicit Types (t : gmap (string * string) (gmap string Py.value)).

Lemma upsert_entity_twice t pk rk (props : gmap string Py.value) :
  Table.upsert_entity (Table.upsert_entity t pk rk props) pk rk props
  = Table.upsert_entity t pk rk props.
Proof.
  unfold Table.upsert_entity. rewrite lookup_insert_eq, insert_insert_eq. cbn.
  by rewrite (assoc_L (∪)), (idemp_L (∪)).
Qed.

(** The entity of a reply, with the values that do not depend on the
    clock. *)
Lemma extract_columns_any_clock id gd :
  exists a b c d e f g h i,
    forall now, extract id now gd = list_to_map (entity_columns id now a b c d e f g h i).
Proof.
  destruct gd; unfold extract, build_entity; do 9 eexists; intros now; reflexivity.
Qed.

Lemma extract_other_clock id now now' gd col :
  col <> "LastUpdated" -> extract id now gd !! col = extract id now' gd !! col.
Proof.
  intros Hcol.
  destruct (extract_columns_any_clock id gd) as (a & b & c & d & e & f & g & h & i & Hx).
  rewrite !Hx. unfold entity_columns. rewrite !list_to_map_cons. cbn [fst snd].
  repeat match goal with
         | |- <[?k := _]> _ !! col = <[?k := _]> _ !! col =>
             destruct (decide (k = col)) as [<-|];
             [first [by rewrite !lookup_insert_eq | done]
             | rewrite !(lookup_insert_ne _ k) by done]
         end.
  done.
Qed.

(** X10.  Handling the same message with the same replies again changes
    nothing when the clock has not moved, and only LastUpdated when it
    has. *)
Theorem X10_detail_ingestion_idempotent body api legacy conn now now' t :
  main body api legacy conn now (main body api legacy conn now t)
  = main body api legacy conn now t
  /\ (forall k col,
        col <> "LastUpdated" ->
        (main body api legacy conn now' (main body api legacy conn now t) !! k)
          ≫= (.!! col)
        = (main body api legacy conn now t !! k) ≫= (.!! col)).
Proof.
  unfold main. destruct (choose_response api legacy) as [gd|]; [|done].
  assert (Hsame : forall T : gmap (string * string) (gmap string Py.value),
             match gd with BadJson | NestedBad => T | _ => T end = T)
    by (by destruct gd).
  destruct conn as [[|c conn]|]; try (by destruct gd).
  set (id := Py.strip Py.is_space body).
  destruct gd; try done; (split; [apply upsert_entity_twice|]); intros k col Hcol;
    (destruct (decide (k = ("Grant", id))) as [->|Hk];
     [ rewrite !upsert_entity_column, (extract_other_clock id now' now) by done;
       by destruct (extract id now _ !! col)
     | by rewrite upsert_entity_other ]).
Qed.

Lemma status_cases (A : Type) (status : Z) (x y : A) :
  status <> 200 -> match status with 200 => x | _ => y end = y.
Proof.
  intros H. destruct status as [|p|p]; try done.
  do 8 (destruct p as [p|p|]; try done).
Qed.

Lemma choose_response_fallback status b legacy :
  status <> 200 ->
  choose_response (Reply status b) legacy
  = match legacy with Reply 200 body => Some body | _ => None end.
Proof.
  intros H. unfold choose_response.
  exact (status_cases _ status (Some b)
           (match legacy with Reply 200 body => Some body | _ => None end) H).
Qed.

(** X11.  The handler writes at most the entity of its own message: every
    other entity stays as it was.  When the API call fails, or answers
    with another status than 200 while the legacy endpoint does not answer
    200, when the body chosen is not JSON, or when no storage account is
    configured, the table stays as it was.  With another status than 200
    from the API, the reply of the legacy endpoint is used as if the API
    had sent it. *)
Theorem X11_detail_failures_leave_table body api legacy conn now t :
  (forall k, k <> ("Grant", Py.strip Py.is_space body) ->
             main body api legacy conn now t !! k = t !! k)
  /\ (api = Failed -> main body api legacy conn now t = t)
  /\ (forall status b, api = Reply status b -> status <> 200 ->
        (forall lb, legacy <> Reply 200 lb) ->
        main body api legacy conn now t = t)
  /\ (choose_response api legacy = Some BadJson -> main body api legacy conn now t = t)
  /\ (conn = None \/ conn = Some "" -> main body api legacy conn now t = t)
  /\ (forall status b lb, api = Reply status b -> status <> 200 -> legacy = Reply 200 lb ->
        main body api legacy conn now t = main body (Reply 200 lb) Failed conn now t).
Proof.
  unfold main. split; [|split; [|split; [|split; [|split]]]].
  - intros k Hk. destruct (choose_response api legacy) as [gd|]; [|done].
    destruct conn as [[|c conn]|]; destruct gd; try done; by apply upsert_entity_other.
  - by intros ->.
  - intros status b -> Hstatus Hlegacy.
    rewrite choose_response_fallback by done.
    destruct legacy as [ls lb|]; [|done].
    destruct (decide (ls = 200)) as [->|Hls]; [by destruct (Hlegacy lb)|].
    by rewrite (status_cases _ ls (Some lb) None Hls).
  - by intros ->.
  - intros [-> | ->]; by destruct (choose_response api legacy) as [[]|].
  - intros status b lb -> Hstatus ->.
    by rewrite choose_response_fallback by done.
Qed.

Lemma has_char_remove c s : Py.has_char c (Py.remove_char c s) = false.
Proof.
  induction s as [|d r IH]; [done|]. cbn.
  destruct (Ascii.eqb c d) eqn:Hcd; [done|]. cbn. by rewrite Hcd.
Qed.

Lemma has_char_remove_other c c' s :
  Py.has_char c s = false -> Py.has_char c (Py.remove_char c' s) = false.
Proof.
  induction s as [|d r IH]; [done|]. cbn. intros [Hd Hr]%orb_false_iff.
  destruct (Ascii.eqb c' d); [by apply IH|]. cbn. by rewrite Hd, IH.
Qed.

Lemma has_char_app c a b :
  Py.has_char c (a +:+ b) = Py.has_char c a || Py.has_char c b.
Proof.
  induction a as [|d r IH]; [done|].
  change (String d r +:+ b) with (String d (r +:+ b)). cbn. by rewrite IH, orb_assoc.
Qed.

Lemma has_char_substring c n m s :
  Py.has_char c s = false -> Py.has_char c (String.substring n m s) = false.
Proof.
  revert n m. induction s as [|d r IH]; intros n m Hs.
  - by destruct n, m.
  - cbn in Hs. apply orb_false_iff in Hs as [Hd Hr].
    destruct n as [|n]; [destruct m as [|m]; [done|] |]; cbn.
    + by rewrite Hd, IH.
    + by apply IH.
Qed.

Lemma pretty_N_char_not_nul (n : N) : Ascii.eqb Py.NUL (pretty_N_char n) = false.
Proof.
  destruct n as [|p]; [reflexivity|].
  do 4 (try (destruct p as [p|p|]; try reflexivity)).
Qed.

Lemma has_char_pretty_N_go x s :
  Py.has_char Py.NUL s = false -> Py.has_char Py.NUL (pretty_N_go x s) = false.
Proof.
  revert s. induction (N.lt_wf_0 x) as [x _ IH]; intros s Hs.
  assert (x = 0 \/ 0 < x)%N as [->|Hpos] by lia.
  - by rewrite pretty_N_go_0.
  - rewrite pretty_N_go_step by done. apply IH; [by apply N.div_lt|].
    cbn [Py.has_char]. by rewrite Hs, pretty_N_char_not_nul.
Qed.

Lemma has_char_pretty_Z (z : Z) : Py.has_char Py.NUL (pretty z) = false.
Proof.
  destruct z as [|x|x]; [done| |].
  - by apply has_char_pretty_N_go.
  - change (pretty (Z.neg x)) with ("-" +:+ pretty (N.pos x)).
    rewrite has_char_app. cbn. by apply has_char_pretty_N_go.
Qed.

Lemma has_char_str (x : Py.json) :
  (forall s, x = Py.JStr s -> Py.has_char Py.NUL s = false) ->
  Py.has_char Py.NUL (Py.str x) = false.
Proof.
  intros Hs. destruct x as [|[]|z|s]; try done.
  - apply has_char_pretty_Z.
  - by apply Hs.
Qed.

Lemma clean_text_no_nul (x : Py.json) : Py.has_char Py.NUL (clean_text x) = false.
Proof.
  destruct x as [|b|z|s]; cbn [clean_text]; [done|by apply has_char_str|by apply has_char_str|].
  destruct (Py.len _ >? 32000).
  - rewrite has_char_app. apply orb_false_iff. split; [|done].
    apply has_char_substring, has_char_remove.
  - apply has_char_remove.
Qed.

Lemma collector_clean_text_no_nul (x : Py.json) :
  Py.has_char Py.NUL (EnhancedCollector.clean_text x) = false.
Proof. destruct x; try done; apply has_char_remove. Qed.

(** X12.  Text reaches the table without NUL characters.  Each of the
    nine columns the detail handler fills from a reply, and each of the
    fourteen columns the search collector fills from a hit, holds text in
    which no NUL occurs, whatever scalars the reply carries; the
    Description the detail handler stores has at most 32000 characters. *)
Theorem X12_stored_text_has_no_nul :
  (forall id now gd col,
      In col payload_columns ->
      exists s, extract id now gd !! col = Some (Py.VStr s)
                /\ Py.has_char Py.NUL s = false
                /\ (col = "Description" -> Py.len s <= 32000))
  /\ (forall opp id now col,
        In col EnhancedCollector.payload_columns ->
        exists s, EnhancedCollector.build_entity opp id now !! col = Some (Py.VStr s)
                  /\ Py.has_char Py.NUL s = false).
Proof.
  split.
  - intros id now gd col Hin.
    assert (forall a b c d e f g h i,
               Py.has_char Py.NUL a = false -> Py.has_char Py.NUL b = false ->
               Py.has_char Py.NUL c = false -> Py.has_char Py.NUL d = false ->
               Py.has_char Py.NUL e = false -> Py.has_char Py.NUL f = false ->
               Py.has_char Py.NUL g = false -> Py.has_char Py.NUL h = false ->
               Py.has_char Py.NUL i = false ->
               exists s, build_entity id now a b c d e f g h i !! col = Some (Py.VStr s)
                         /\ Py.has_char Py.NUL s = false
                         /\ (col = "Description" -> Py.len s <= 32000)) as Hbuilt.
    { intros a b c d e f g h i Ha Hb Hc Hd He Hf Hg Hh Hi.
      assert (Py.has_char Py.NUL
                (if Py.len c >? 32000 then Py.str_slice c 0 32000 else c) = false
              /\ Py.len (if Py.len c >? 32000 then Py.str_slice c 0 32000 else c) <= 32000)
        as [Hc' Hlen].
      { destruct (Py.len c >? 32000) eqn:Hlong.
        - split; [by apply has_char_substring|].
          destruct (str_slice_head c 32000) as [Hle _]; [lia|]. unfold Py.len. lia.
        - split; [done|lia]. }
      unfold build_entity, payload_columns in *.
      repeat (destruct Hin as [<-|Hin];
              [eexists; split;
               [apply elem_of_list_to_map_1;
                [rewrite detail_columns_names; apply written_columns_nodup
                |apply list_elem_of_In; unfold entity_columns;
                 repeat (first [left; reflexivity | right])]
               |split; [eassumption|];
                intros Hd'; first [exact Hlen | discriminate Hd']]|]).
      destruct Hin. }
    destruct gd; unfold extract; apply Hbuilt; try done; apply clean_text_no_nul.
  - intros opp id now col Hin.
    assert (NoDup (EnhancedCollector.entity_columns opp id now).*1) as Hnodup
      by (apply (bool_decide_unpack _); vm_compute; exact I).
    unfold EnhancedCollector.build_entity, EnhancedCollector.payload_columns in *.
    repeat (destruct Hin as [<-|Hin];
            [eexists; split;
             [apply elem_of_list_to_map_1;
              [exact Hnodup
              |apply list_elem_of_In; unfold EnhancedCollector.entity_columns;
               repeat (first [left; reflexivity | right])]
             |apply collector_clean_text_no_nul]|]).
    destruct Hin.
Qed.

End DetailMore.

(** ** The search collector *)

Section CollectorMore.

Import EnhancedCollector.

Implicit Types (st : state) (hits : list (string * payload)).

Lemma py_eq_text key (x : Py.json) : py_eq (Py.JStr key) x = true <-> x = Py.JStr key.
Proof.
  destruct x as [|b|z|s]; cbn; try (split; [discriminate|discriminate]).
  rewrite String.eqb_eq. split; [by intros ->|by intros [= ->]].
Qed.

Lemma existing_ids_stored t key :
  existsb (py_eq (Py.JStr key)) (existing_ids true t) = true ->
  is_Some (t !! ("Grant", key)).
Proof.
  intros (x & Hin & Hx)%existsb_exists. apply py_eq_text in Hx as ->.
  unfold existing_ids, Table.query_entities in Hin.
  apply in_map_iff in Hin as ([[pk rk] e] & [= <-] & Hrow).
  apply list_elem_of_In, list_elem_of_filter in Hrow as [Hpk Hrow].
  cbn in Hpk. subst pk. apply elem_of_map_to_list in Hrow. by exists e.
Qed.

(** One turn of the loop, from a state that knows what is stored. *)
Lemma process_opportunity_step st hit :
  knows_stored st ->
  knows_stored (process_opportunity st hit)
  /\ table st ⊆ table (process_opportunity st hit)
  /\ total_grants_added (process_opportunity st hit) - total_grants_added st
     = Z.of_nat (size (table (process_opportunity st hit))) - Z.of_nat (size (table st)).
Proof.
  intros Hknows. destruct hit as [now opp]. unfold process_opportunity.
  destruct (negb (Py.truthy (Py.jget opp "id"))); [split; [done|split; [done|lia]]|].
  destruct (existsb (py_eq (Py.jget opp "id")) (processed_ids st)) eqn:Hseen;
    [split; [done|split; [done|lia]]|].
  assert (forall tbl n, table {| table := tbl; processed_ids := Py.jget opp "id" :: processed_ids st;
                                 total_grants_added := n |} = table st ->
            knows_stored {| table := tbl; processed_ids := Py.jget opp "id" :: processed_ids st;
                            total_grants_added := n |}) as Hsame.
  { intros tbl n Htbl key Hkey. rewrite Htbl in Hkey. cbn.
    rewrite (Hknows key Hkey). apply orb_true_r. }
  destruct (Py.jget opp "id") as [|b|z|key] eqn:Hid; cbn [table total_grants_added];
    try (split; [by apply Hsame|split; [done|lia]]).
  assert (table st !! ("Grant", key) = None) as Hnew.
  { destruct (table st !! ("Grant", key)) as [e|] eqn:He; [|done].
    rewrite (Hknows key) in Hseen by (by exists e). discriminate Hseen. }
  unfold Table.upsert_entity. rewrite Hnew.
  split; [|split].
  - intros key' Hkey'. cbn [table processed_ids] in *. cbn [existsb].
    destruct (decide (key' = key)) as [->|Hne].
    + cbn. by rewrite String.eqb_refl.
    + rewrite lookup_insert_ne in Hkey' by congruence.
      rewrite (Hknows key' Hkey'). apply orb_true_r.
  - by apply insert_subseteq.
  - rewrite map_size_insert_None by done. lia.
Qed.

Lemma process_opportunity_run hits st :
  knows_stored st ->
  knows_stored (foldl process_opportunity st hits)
  /\ table st ⊆ table (foldl process_opportunity st hits)
  /\ total_grants_added (foldl process_opportunity st hits) - total_grants_added st
     = Z.of_nat (size (table (foldl process_opportunity st hits)))
       - Z.of_nat (size (table st)).
Proof.
  revert st. induction hits as [|hit hits IH]; intros st Hknows; cbn [foldl].
  - split; [done|split; [done|lia]].
  - destruct (process_opportunity_step st hit Hknows) as (Hk & Hsub & Hcount).
    destruct (IH _ Hk) as (Hk' & Hsub' & Hcount').
    split; [done|]. split; [by etransitivity|lia].
Qed.

Lemma collect_starts_knowing t :
  knows_stored {| table := t; processed_ids := existing_ids true t; total_grants_added := 0 |}.
Proof. intros key Hkey. by apply collector_knows_stored. Qed.

(** Hits for other ids leave an id unseen. *)
Lemma process_opportunity_unseen hits st key :
  Forall (fun hit => Py.jget hit.2 "id" <> Py.JStr key) hits ->
  existsb (py_eq (Py.JStr key)) (processed_ids st) = false ->
  existsb (py_eq (Py.JStr key)) (processed_ids (foldl process_opportunity st hits)) = false.
Proof.
  revert st. induction hits as [|[now opp] hits IH]; intros st Hall Hst; [done|].
  apply Forall_cons in Hall as [Hhit Hall]. cbn [foldl]. apply IH; [done|].
  unfold process_opportunity. cbn [snd] in Hhit.
  destruct (negb _); [done|]. destruct (existsb (py_eq (Py.jget opp "id")) _); [done|].
  assert (py_eq (Py.JStr key) (Py.jget opp "id") = false) as Hne.
  { destruct (py_eq (Py.JStr key) (Py.jget opp "id")) eqn:Heq; [|done].
    by apply py_eq_text in Heq. }
  destruct (Py.jget opp "id"); cbn [processed_ids existsb]; by rewrite Hne, Hst.
Qed.

(** X13.  Of the hits that carry one id, the first is the one stored.
    When the first scan succeeds and the table holds no grant under
    [key], the first hit whose id is the non-empty text [key] is written
    under that key as the entity built from it, and no later hit, for
    that id or another, changes it. *)
Theorem X13_collector_first_hit_wins pre now opp post t key :
  Py.jget opp "id" = Py.JStr key -> key <> "" ->
  t !! ("Grant", key) = None ->
  Forall (fun hit => Py.jget hit.2 "id" <> Py.JStr key) pre ->
  table (collect true (pre ++ (now, opp) :: post) t) !! ("Grant", key)
  = Some (build_entity opp key now).
Proof.
  intros Hid Hkey Hnone Hpre. unfold collect. rewrite foldl_app. cbn [foldl].
  set (st0 := {| table := t; processed_ids := existing_ids true t; total_grants_added := 0 |}).
  destruct (process_opportunity_run pre st0 (collect_starts_knowing t)) as (Hk1 & _ & _).
  assert (existsb (py_eq (Py.JStr key)) (processed_ids (foldl process_opportunity st0 pre))
          = false) as Hunseen.
  { apply process_opportunity_unseen; [done|].
    destruct (existsb (py_eq (Py.JStr key)) (processed_ids st0)) eqn:Hseen; [|done].
    apply existing_ids_stored in Hseen as [e He]. congruence. }
  set (st1 := foldl process_opportunity st0 pre) in *.
  destruct (process_opportunity_step st1 (now, opp) Hk1) as (Hk2 & _ & _).
  destruct (process_opportunity_run post _ Hk2) as (_ & Hsub & _).
  eapply lookup_weaken; [|exact Hsub].
  assert (table st1 !! ("Grant", key) = None) as Hnew.
  { destruct (table st1 !! ("Grant", key)) as [e|] eqn:He; [|done].
    rewrite (Hk1 key) in Hunseen by (by exists e). discriminate Hunseen. }
  unfold process_opportunity. rewrite Hid. cbn [Py.truthy].
  apply String.eqb_neq in Hkey. rewrite Hkey. cbn [negb]. rewrite Hunseen.
  cbn [table]. unfold Table.upsert_entity. rewrite lookup_insert_eq, Hnew. cbn.
  by rewrite (right_id_L ∅ (∪)).
Qed.

(** X14.  After a successful first scan the collector only adds: every
    entity the table held before the run is there unchanged after it,
    whatever hits the searches return, and the counter of grants added
    is the number of entities the table has gained. *)
Theorem X14_collector_only_adds hits t :
  (forall k e, t !! k = Some e -> table (collect true hits t) !! k = Some e)
  /\ total_grants_added (collect true hits t)
     = Z.of_nat (size (table (collect true hits t))) - Z.of_nat (size t).
Proof.
  unfold collect.
  destruct (process_opportunity_run hits _ (collect_starts_knowing t)) as (_ & Hsub & Hcount).
  cbn [table total_grants_added] in Hsub, Hcount. split.
  - intros k e Hk. by eapply lookup_weaken.
  - lia.
Qed.

End CollectorMore.

(** X13 at work: two hits for one id, after a hit without an id. *)
Lemma X13_collector_first_hit_wins_witness :
  EnhancedCollector.table
    (EnhancedCollector.collect true
       ([("2026-11-03T10:00:00", ∅)]
        ++ ("2026-11-03T10:00:01", Samples.inverted_hit)
        :: [("2026-11-03T10:00:02", Samples.repeated_hit)])
       Samples.stored_table) !! ("Grant", "324456")
  = Some (EnhancedCollector.build_entity Samples.inverted_hit "324456" "2026-11-03T10:00:01").
Proof.
  apply (X13_collector_first_hit_wins [("2026-11-03T10:00:00", ∅)]).
  - vm_compute. exact eq_refl.
  - discriminate.
  - vm_compute. exact eq_refl.
  - apply Forall_cons. split; [|apply List.Forall_nil]. vm_compute. discriminate.
Defined.

(** ** The repair pass *)

Section FixGrantMore.

Import Scraper.

Implicit Types (fx : fixes) (entity web_data u : gmap string Py.value).

Lemma fixes_ok_set_update col v fx :
  fixes_ok fx -> In col fix_columns ->
  (col = "AwardCeiling" -> exists c, v = Py.VFloat c /\ (0 < c)%Q) ->
  (col = "AwardFloor" -> exists f, v = Py.VFloat f /\ (0 <= f)%Q) ->
  fixes_ok (set_update col v fx).
Proof.
  intros ([Hceil Hfloor] & Hcols & _) Hcol Hc Hf. unfold set_update, fixes_ok. cbn.
  split; [split|split; [|discriminate]].
  - intros w. destruct (decide (col = "AwardCeiling")) as [->|Hne].
    + rewrite lookup_insert_eq. intros [= <-]. by apply Hc.
    + rewrite lookup_insert_ne by done. apply Hceil.
  - intros w. destruct (decide (col = "AwardFloor")) as [->|Hne].
    + rewrite lookup_insert_eq. intros [= <-]. by apply Hf.
    + rewrite lookup_insert_ne by done. apply Hfloor.
  - intros col'. destruct (decide (col = col')) as [<-|Hne]; [done|].
    rewrite lookup_insert_ne by done. apply Hcols.
Qed.

Lemma fixes_ok_take_ceiling data key fx fx' :
  fixes_ok fx -> take_amount data key "AwardCeiling" positive fx = Py.Ok fx' -> fixes_ok fx'.
Proof.
  intros Hok. unfold take_amount. destruct (data !! key) as [v|]; [|by intros [= <-]].
  destruct (safe_float v 0) as [x|]; [|discriminate]. intros [= <-].
  destruct (positive x) eqn:Hx; [|done].
  apply fixes_ok_set_update; [done|cbn; tauto| |discriminate].
  intros _. exists x. split; [done|]. by apply Qgtb_lt.
Qed.

Lemma fixes_ok_take_floor data key fx fx' :
  fixes_ok fx -> take_amount data key "AwardFloor" not_negative fx = Py.Ok fx' -> fixes_ok fx'.
Proof.
  intros Hok. unfold take_amount. destruct (data !! key) as [v|]; [|by intros [= <-]].
  destruct (safe_float v 0) as [x|]; [|discriminate]. intros [= <-].
  destruct (not_negative x) eqn:Hx; [|done].
  apply fixes_ok_set_update; [done|cbn; tauto|discriminate|].
  intros _. exists x. split; [done|]. by apply Qle_bool_iff.
Qed.

Lemma fixes_ok_other col v fx :
  fixes_ok fx -> In col fix_columns -> col <> "AwardCeiling" -> col <> "AwardFloor" ->
  fixes_ok (set_update col v fx).
Proof. intros. by apply fixes_ok_set_update. Qed.

Lemma fixes_ok_copy entity fx : fixes_ok fx -> fixes_ok (copy_expected_awards entity fx).
Proof.
  intros Hok. unfold copy_expected_awards.
  destruct (negb (has entity "ExpectedAwards") && has entity "ExpectedNumberofAwards");
    destruct (negb (has entity "ExpectedNumberofAwards") && has entity "ExpectedAwards");
    repeat (apply fixes_ok_other; [|cbn; tauto|discriminate|discriminate]); done.
Qed.

Lemma fixes_ok_web entity web_data fx fx' :
  fixes_ok fx -> apply_web_data entity web_data fx = Py.Ok fx' -> fixes_ok fx'.
Proof.
  intros Hok. unfold apply_web_data.
  destruct (take_amount web_data "awardCeiling" _ _ fx) as [fx1|] eqn:H1; [|discriminate].
  apply fixes_ok_take_ceiling in H1; [|done].
  destruct (take_amount web_data "awardFloor" _ _ fx1) as [fx2|] eqn:H2; [|discriminate].
  apply fixes_ok_take_floor in H2; [|done].
  intros [= <-].
  destruct (web_data !! "expectedNumOfAwards") as [awards|];
    destruct (web_data !! "fundingInstrument") as [instrument|];
    try destruct (negb (has entity "FundingType"));
    repeat (apply fixes_ok_other; [|cbn; tauto|discriminate|discriminate]); done.
Qed.

Lemma fixes_ok_api api_data fx fx' :
  fixes_ok fx -> apply_api_data api_data fx = Py.Ok fx' -> fixes_ok fx'.
Proof.
  intros Hok. unfold apply_api_data.
  destruct (if has api_data "awardCeiling" then _ else _) as [fx1|] eqn:H1; [|discriminate].
  assert (fixes_ok fx1) as Hok1.
  { destruct (has api_data "awardCeiling"); [by eapply fixes_ok_take_ceiling|].
    by injection H1 as <-. }
  destruct (has api_data "awardFloor"); [by apply fixes_ok_take_floor|].
  by intros [= <-].
Qed.

Lemma fixes_ok_ensure fx :
  fixes_ok fx ->
  fixes_ok (ensure_floor_le_ceiling fx) /\ ordered (updates (ensure_floor_le_ceiling fx)).
Proof.
  intros Hok. pose proof Hok as ([Hceil Hfloor] & Hcols & Hnone).
  unfold ensure_floor_le_ceiling.
  destruct (updates fx !! "AwardFloor") as [vf|] eqn:Hf;
    [|split; [done|]; intros f c Hf'; congruence].
  destruct (Hfloor vf eq_refl) as (f & -> & Hf0).
  destruct (updates fx !! "AwardCeiling") as [vc|] eqn:Hc;
    [|split; [done|]; intros f' c Hf' Hc'; congruence].
  destruct (Hceil vc eq_refl) as (c & -> & Hc0).
  destruct (Py.Qgtb f c) eqn:Hfc; cbn [andb].
  - apply Qgtb_lt in Hfc.
    assert (Py.Qgtb c 0 = true) as ->.
    { unfold Py.Qgtb. apply negb_true_iff. destruct (Qle_bool c 0) eqn:Hle; [|done].
      apply Qle_bool_iff in Hle. lra. }
    split.
    + split; [split|split].
      * cbn. rewrite lookup_insert_eq. intros v [= <-]. exists f. split; [done|lra].
      * cbn. rewrite lookup_insert_ne, lookup_insert_eq by done.
        intros v [= <-]. exists c. split; [done|lra].
      * cbn. intros col. destruct (decide (col = "AwardCeiling")) as [->|Hne1]; [cbn; tauto|].
        rewrite lookup_insert_ne by done.
        destruct (decide (col = "AwardFloor")) as [->|Hne2]; [cbn; tauto|].
        rewrite lookup_insert_ne by done. apply Hcols.
      * cbn. intros Hm. rewrite (Hnone Hm) in Hf. by rewrite lookup_empty in Hf.
    + cbn. intros f' c'. rewrite lookup_insert_ne, !lookup_insert_eq by done.
      intros [= <-] [= <-]. lra.
  - split; [done|]. intros f' c'. rewrite Hf, Hc. intros [= <-] [= <-].
    unfold Py.Qgtb in Hfc. apply negb_false_iff, Qle_bool_iff in Hfc. done.
Qed.

Lemma apply_defaults_empty :
  apply_defaults true {| updates := ∅; modified := false |}
  = {| updates := <["AwardFloor" := Py.VFloat 50000]>
                    (<["AwardCeiling" := Py.VFloat 250000]> ∅);
       modified := true |}.
Proof. vm_compute. reflexivity. Qed.

Lemma fixes_ok_defaults needs_fix fx :
  fixes_ok fx -> ordered (updates fx) ->
  fixes_ok (apply_defaults needs_fix fx) /\ ordered (updates (apply_defaults needs_fix fx)).
Proof.
  intros Hok Hord.
  destruct (needs_fix && negb (modified fx)) eqn:Hcase;
    [|unfold apply_defaults; by rewrite Hcase].
  apply andb_true_iff in Hcase as [-> Hm%negb_true_iff].
  destruct Hok as (_ & _ & Hnone). specialize (Hnone Hm).
  destruct fx as [u m]. cbn [updates modified] in *. subst u m.
  rewrite apply_defaults_empty.
  assert (fixes_ok {| updates := ∅; modified := false |}) as Hempty.
  { split; [split|split]; cbn; try done; intros ?; rewrite lookup_empty;
      try done; by intros []. }
  split.
  - apply (fixes_ok_set_update "AwardFloor" _
             (set_update "AwardCeiling" (Py.VFloat 250000) {| updates := ∅; modified := false |})).
    + apply fixes_ok_set_update; [done|cbn; tauto| |discriminate].
      intros _. eexists. split; reflexivity.
    + cbn; tauto.
    + discriminate.
    + intros _. eexists. split; [reflexivity|]. discriminate.
  - cbn [updates]. intros f c.
    rewrite lookup_insert_eq, lookup_insert_ne, lookup_insert_eq by done.
    intros [= <-] [= <-]. discriminate.
Qed.

(** The changes [fix_grant] decides on. *)
Lemma collect_fixes_ok entity web_data api_data fx :
  collect_fixes entity web_data api_data = Py.Ok fx ->
  fixes_ok fx /\ ordered (updates fx).
Proof.
  unfold collect_fixes.
  set (needs_fix := missing_amount _ || missing_amount _).
  assert (fixes_ok (copy_expected_awards entity {| updates := ∅; modified := false |}))
    as Hstart.
  { apply fixes_ok_copy. split; [split|split]; cbn; try done; intros ?;
      rewrite lookup_empty; try done; by intros []. }
  set (fx0 := copy_expected_awards entity _) in *.
  assert (forall fx1, fixes_ok fx1 ->
            Py.Ok (apply_defaults needs_fix (ensure_floor_le_ceiling fx1)) = Py.Ok fx ->
            fixes_ok fx /\ ordered (updates fx)) as Hend.
  { intros fx1 Hok1 [= <-].
    destruct (fixes_ok_ensure fx1 Hok1) as [Hok2 Hord2]. by apply fixes_ok_defaults. }
  destruct needs_fix; [|exact (Hend fx0 Hstart)].
  destruct (bool_decide (web_data = ∅)); [exact (Hend fx0 Hstart)|].
  destruct (apply_web_data entity web_data fx0) as [fx1|] eqn:Hweb; [|discriminate].
  apply fixes_ok_web in Hweb; [|done].
  destruct (modified fx1); [exact (Hend fx1 Hweb)|].
  destruct api_data as [d|]; [|exact (Hend fx1 Hweb)].
  destruct (bool_decide (d = ∅)); [exact (Hend fx1 Hweb)|].
  destruct (apply_api_data d fx1) as [fx2|] eqn:Hapi; [|discriminate].
  apply fixes_ok_api in Hapi; [|done]. exact (Hend fx2 Hapi).
Qed.

(** How a call of [fix_grant] ends. *)
Lemma fix_grant_with_cases web_data api_data now grant_id t t' b :
  fix_grant_with web_data api_data now grant_id t = (t', b) ->
  (t' = t /\ b = false)
  \/ (exists entity fx,
        t !! ("Grant", grant_id) = Some entity
        /\ collect_fixes entity web_data api_data = Py.Ok fx
        /\ modified fx = true /\ b = true
        /\ t' = <[("Grant", grant_id) := <["LastFixed" := Py.VStr now]> (updates fx) ∪ entity]> t).
Proof.
  unfold fix_grant_with, Table.get_entity, Table.update_entity.
  destruct (t !! ("Grant", grant_id)) as [entity|] eqn:Hentity; [|intros [= <- <-]; by left].
  destruct (collect_fixes entity web_data api_data) as [fx|] eqn:Hfx;
    [|intros [= <- <-]; by left].
  destruct (modified fx) eqn:Hm; [|intros [= <- <-]; by left].
  intros [= <- <-]. right. by exists entity, fx.
Qed.

(** X15.  The award amounts [fix_grant] writes are in range.  When it
    answers True, the stored entity is the old one overlaid with the
    columns written, LastFixed among them with the clock reading; an
    AwardCeiling it writes is a float above zero, an AwardFloor it writes
    a float that is not negative, and when it writes both the floor is at
    most the ceiling. *)
Theorem X15_fix_grant_writes_ordered_amounts web_data api_data now grant_id t t' :
  fix_grant_with web_data api_data now grant_id t = (t', true) ->
  exists entity written,
    t !! ("Grant", grant_id) = Some entity
    /\ t' = <[("Grant", grant_id) := written ∪ entity]> t
    /\ written !! "LastFixed" = Some (Py.VStr now)
    /\ (forall v, written !! "AwardCeiling" = Some v ->
                  exists c, v = Py.VFloat c /\ (0 < c)%Q)
    /\ (forall v, written !! "AwardFloor" = Some v ->
                  exists f, v = Py.VFloat f /\ (0 <= f)%Q)
    /\ (forall f c, written !! "AwardFloor" = Some (Py.VFloat f) ->
                    written !! "AwardCeiling" = Some (Py.VFloat c) -> (f <= c)%Q).
Proof.
  intros [[_ [=]] | (entity & fx & Hentity & Hfx & _ & _ & ->)]%fix_grant_with_cases.
  destruct (collect_fixes_ok _ _ _ _ Hfx) as (([Hceil Hfloor] & _ & _) & Hord).
  exists entity, (<["LastFixed" := Py.VStr now]> (updates fx)).
  split; [done|]. split; [done|]. split; [by rewrite lookup_insert_eq|].
  split; [|split].
  - intros v. rewrite lookup_insert_ne by done. apply Hceil.
  - intros v. rewrite lookup_insert_ne by done. apply Hfloor.
  - intros f c. rewrite !lookup_insert_ne by done. apply Hord.
Qed.

(** X16.  [fix_grant] touches nothing but the columns it repairs.  It
    answers False exactly when it leaves the table as it was, which is
    what it does for an id that is not stored.  It never adds or removes
    an entity, never changes another entity than the one asked for, and
    in that one changes no column besides ExpectedNumberofAwards,
    ExpectedAwards, AwardCeiling, AwardFloor, FundingType and
    LastFixed. *)
Theorem X16_fix_grant_frame web_data api_data now grant_id t :
  let run := fix_grant_with web_data api_data now grant_id t in
  (run.2 = false -> run.1 = t)
  /\ (t !! ("Grant", grant_id) = None -> run = (t, false))
  /\ (forall k, k <> ("Grant", grant_id) -> run.1 !! k = t !! k)
  /\ (forall k, is_Some (run.1 !! k) <-> is_Some (t !! k))
  /\ (forall col, ~ In col fix_columns ->
        (run.1 !! ("Grant", grant_id)) ≫= (.!! col) = (t !! ("Grant", grant_id)) ≫= (.!! col))
  /\ (run.2 = true ->
        (run.1 !! ("Grant", grant_id)) ≫= (.!! "LastFixed") = Some (Py.VStr now)).
Proof.
  intros run. subst run.
  destruct (fix_grant_with web_data api_data now grant_id t) as [t' b] eqn:Hrun.
  cbn [fst snd]. split; [|split].
  - intros ->. by apply fix_grant_with_cases in Hrun as [[-> _] | (? & ? & _ & _ & _ & [=] & _)].
  - intros Hnone. unfold fix_grant_with, Table.get_entity in Hrun. rewrite Hnone in Hrun.
    by injection Hrun as <- <-.
  - apply fix_grant_with_cases in Hrun as [[-> ->] | (entity & fx & Hentity & Hfx & _ & -> & ->)].
    { split; [done|]. split; [done|]. split; [done|discriminate]. }
    destruct (collect_fixes_ok _ _ _ _ Hfx) as ((_ & Hcols & _) & _).
    split; [|split; [|split]].
    + intros k Hk. by rewrite lookup_insert_ne.
    + intros k. destruct (decide (k = ("Grant", grant_id))) as [->|Hk].
      * rewrite lookup_insert_eq, Hentity. split; by eexists.
      * by rewrite lookup_insert_ne.
    + intros col Hcol. rewrite lookup_insert_eq, Hentity. cbn.
      rewrite lookup_union.
      assert (col <> "LastFixed") as Hne by (intros ->; apply Hcol; cbn; tauto).
      rewrite lookup_insert_ne by done.
      destruct (updates fx !! col) as [v|] eqn:Hv.
      * destruct Hcol. apply Hcols. by exists v.
      * by destruct (entity !! col).
    + intros _. rewrite lookup_insert_eq. cbn. rewrite lookup_union, lookup_insert_eq.
      by destruct (entity !! "LastFixed").
Qed.

(** X17.  When the page scraper brings nothing back, the answer of the
    API is never used: [fix_grant] does the same whatever the API
    returned.  For a stored grant that lacks an award amount and needs no
    copy between its two award-count columns, it then writes the stock
    values, an AwardCeiling of 250000 and an AwardFloor of 50000, over
    whatever was stored in the two columns, and answers True. *)
Theorem X17_fix_grant_stock_values api_data now grant_id t entity :
  t !! ("Grant", grant_id) = Some entity ->
  missing_amount (entity !! "AwardCeiling") || missing_amount (entity !! "AwardFloor") = true ->
  has entity "ExpectedAwards" = has entity "ExpectedNumberofAwards" ->
  let run := fix_grant_with ∅ api_data now grant_id t in
  run = fix_grant_with ∅ None now grant_id t
  /\ run.2 = true
  /\ (run.1 !! ("Grant", grant_id)) ≫= (.!! "AwardCeiling") = Some (Py.VFloat 250000)
  /\ (run.1 !! ("Grant", grant_id)) ≫= (.!! "AwardFloor") = Some (Py.VFloat 50000).
Proof.
  intros Hentity Hneeds Hcopy run. subst run.
  assert (forall api, collect_fixes entity ∅ api
            = Py.Ok {| updates := <["AwardFloor" := Py.VFloat 50000]>
                                    (<["AwardCeiling" := Py.VFloat 250000]> ∅);
                       modified := true |}) as Hfx.
  { intros api. unfold collect_fixes. rewrite Hneeds.
    rewrite bool_decide_true by done.
    assert (copy_expected_awards entity {| updates := ∅; modified := false |}
            = {| updates := ∅; modified := false |}) as ->.
    { unfold copy_expected_awards. rewrite Hcopy.
      by destruct (has entity "ExpectedNumberofAwards"). }
    unfold ensure_floor_le_ceiling. cbn [updates]. rewrite lookup_empty.
    by rewrite apply_defaults_empty. }
  unfold fix_grant_with, Table.get_entity, Table.update_entity.
  rewrite Hentity, !Hfx. cbn [modified updates fst snd].
  split; [done|]. split; [done|].
  rewrite lookup_insert_eq. cbn. rewrite !lookup_union.
  rewrite !(lookup_insert_ne _ "LastFixed") by done.
  rewrite lookup_insert_eq, lookup_insert_ne, lookup_insert_eq by done.
  split; [by destruct (entity !! "AwardCeiling")|by destruct (entity !! "AwardFloor")].
Qed.

End FixGrantMore.

(** ** What the fetchers bring back *)

Section FetcherMore.

Import Scraper.

Implicit Types (fetch search : nat -> api_reply) (trace : list event)
  (web : nat -> nat -> web_reply) (grant_data : gmap string Py.value).

Lemma requests_to_more target trace rest :
  (requests_to target trace <= requests_to target (trace ++ rest))%nat.
Proof. unfold requests_to. rewrite List.filter_app, length_app. lia. Qed.

Lemma requests_to_snoc target trace ev :
  requests_to target (trace ++ [ev])
  = (requests_to target trace + if is_request_to target ev then 1 else 0)%nat.
Proof.
  unfold requests_to. rewrite List.filter_app, length_app. cbn.
  by destruct (is_request_to target ev).
Qed.

(** The first loop returns the data of the first reply that is not
    retried, when that reply is a clean 200. *)
Lemma fetch_loop_returned fetch max_retries todo retry trace d trace' :
  fetch_loop fetch max_retries todo retry trace = (Returned d, trace') ->
  exists r data,
    (retry <= r < retry + todo)%nat
    /\ fetch r = ApiReply 200 (ApiJson 0 (Some data)) /\ d = fields data
    /\ (forall r', (retry <= r' < r)%nat -> retried (fetch r') = true).
Proof.
  revert retry trace. induction todo as [|todo IH]; intros retry trace Hrun;
    cbn [fetch_loop] in Hrun; [discriminate|].
  assert (forall trace1,
             retried (fetch retry) = true ->
             fetch_loop fetch max_retries todo (S retry) trace1 = (Returned d, trace') ->
             exists r data,
               (retry <= r < retry + S todo)%nat
               /\ fetch r = ApiReply 200 (ApiJson 0 (Some data)) /\ d = fields data
               /\ (forall r', (retry <= r' < r)%nat -> retried (fetch r') = true)) as Hnext.
  { intros trace1 Hretried (r & data & Hr & Hreply & Hd & Hbefore)%IH.
    exists r, data. split; [lia|]. split; [done|]. split; [done|].
    intros r' Hr'. destruct (decide (r' = retry)) as [->|Hne]; [done|].
    apply Hbefore. lia. }
  destruct (fetch retry) as [status_code body|] eqn:Hreply.
  - destruct (rate_limited status_code) eqn:Hlimited.
    { eapply Hnext; [|exact Hrun]. cbn. by rewrite Hlimited. }
    destruct (status_code =? 200) eqn:Hok; [|discriminate].
    apply Z.eqb_eq in Hok as ->. destruct body as [|errorcode data].
    { destruct (S retry <? max_retries)%nat; [|discriminate]. by eapply Hnext. }
    destruct (errorcode =? 0) eqn:Hcode; [|discriminate]. cbn [negb] in Hrun.
    apply Z.eqb_eq in Hcode as ->. destruct data as [data|]; [|discriminate].
    injection Hrun as <- <-. exists retry, data.
    split; [lia|]. split; [done|]. split; [done|]. intros r' Hr'. lia.
  - destruct (S retry <? max_retries)%nat; [|discriminate]. by eapply Hnext.
Qed.

(** The second loop returns the first hit of the first reply that is not
    retried. *)
Lemma search_loop_returned search max_retries todo retry trace d trace' :
  search_loop search max_retries todo retry trace = (Some d, trace') ->
  exists r data rest,
    (retry <= r < retry + todo)%nat
    /\ search r = ApiReply 200 (ApiJson 0 (Some data)) /\ oppHits data = Some (d :: rest)
    /\ (forall r', (retry <= r' < r)%nat -> retried (search r') = true).
Proof.
  revert retry trace. induction todo as [|todo IH]; intros retry trace Hrun;
    cbn [search_loop] in Hrun; [discriminate|].
  assert (forall trace1,
             retried (search retry) = true ->
             search_loop search max_retries todo (S retry) trace1 = (Some d, trace') ->
             exists r data rest,
               (retry <= r < retry + S todo)%nat
               /\ search r = ApiReply 200 (ApiJson 0 (Some data))
               /\ oppHits data = Some (d :: rest)
               /\ (forall r', (retry <= r' < r)%nat -> retried (search r') = true)) as Hnext.
  { intros trace1 Hretried (r & data & rest & Hr & Hreply & Hd & Hbefore)%IH.
    exists r, data, rest. split; [lia|]. split; [done|]. split; [done|].
    intros r' Hr'. destruct (decide (r' = retry)) as [->|Hne]; [done|].
    apply Hbefore. lia. }
  destruct (search retry) as [status_code body|] eqn:Hreply.
  - destruct (rate_limited status_code) eqn:Hlimited.
    { destruct (S retry <? max_retries)%nat; [|discriminate].
      eapply Hnext; [|exact Hrun]. cbn. by rewrite Hlimited. }
    destruct (status_code =? 200) eqn:Hok; [|discriminate].
    apply Z.eqb_eq in Hok as ->. destruct body as [|errorcode data].
    { destruct (S retry <? max_retries)%nat; [|discriminate]. by eapply Hnext. }
    destruct (errorcode =? 0) eqn:Hcode; [|discriminate]. cbn [negb] in Hrun.
    apply Z.eqb_eq in Hcode as ->.
    destruct data as [[fields_ [[|hit rest]|]]|]; try discriminate.
    injection Hrun as <- <-. exists retry, {| fields := fields_; oppHits := Some (hit :: rest) |}, rest.
    split; [lia|]. split; [done|]. split; [done|]. intros r' Hr'. lia.
  - destruct (S retry <? max_retries)%nat; [|discriminate]. by eapply Hnext.
Qed.

(** An endpoint that keeps failing is asked once per turn, to the cap. *)
Lemma fetch_loop_outage fetch max_retries todo retry trace :
  (todo + retry = max_retries)%nat ->
  (forall r, (r < max_retries)%nat -> retried (fetch r) = true) ->
  (fetch_loop fetch max_retries todo retry trace).1 = LeftLoop
  /\ requests_to FetchOpportunity (fetch_loop fetch max_retries todo retry trace).2
     = (requests_to FetchOpportunity trace + todo)%nat.
Proof.
  revert retry trace. induction todo as [|todo IH]; intros retry trace Hcap Hall;
    cbn [fetch_loop]; [cbn [fst snd]; split; [done|lia]|].
  assert (forall trace1,
             requests_to FetchOpportunity trace1 = S (requests_to FetchOpportunity trace) ->
             (fetch_loop fetch max_retries todo (S retry) trace1).1 = LeftLoop
             /\ requests_to FetchOpportunity
                  (fetch_loop fetch max_retries todo (S retry) trace1).2
                = (requests_to FetchOpportunity trace + S todo)%nat) as Hnext.
  { intros trace1 Htrace1. destruct (IH (S retry) trace1) as [Hexit Hcount]; [lia|done|].
    split; [done|]. rewrite Hcount, Htrace1. lia. }
  assert (requests_to FetchOpportunity
            (trace ++ [api_delay retry; Request FetchOpportunity retry])
          = S (requests_to FetchOpportunity trace)) as Hturn.
  { unfold requests_to. rewrite List.filter_app, length_app. cbn. lia. }
  assert (requests_to FetchOpportunity
            ((trace ++ [api_delay retry; Request FetchOpportunity retry]) ++ [backoff retry])
          = S (requests_to FetchOpportunity trace)) as Hturn'.
  { rewrite requests_to_snoc, Hturn. cbn. lia. }
  assert ((if (S retry <? max_retries)%nat
           then fetch_loop fetch max_retries todo (S retry)
                  ((trace ++ [api_delay retry; Request FetchOpportunity retry])
                     ++ [backoff retry])
           else (LeftLoop, trace ++ [api_delay retry; Request FetchOpportunity retry])).1
          = LeftLoop
          /\ requests_to FetchOpportunity
               (if (S retry <? max_retries)%nat
                then fetch_loop fetch max_retries todo (S retry)
                       ((trace ++ [api_delay retry; Request FetchOpportunity retry])
                          ++ [backoff retry])
                else (LeftLoop, trace ++ [api_delay retry; Request FetchOpportunity retry])).2
             = (requests_to FetchOpportunity trace + S todo)%nat) as Hexception.
  { destruct (S retry <? max_retries)%nat eqn:Hmore; [by apply Hnext|].
    apply Nat.ltb_ge in Hmore. cbn [fst snd]. split; [done|]. rewrite Hturn. lia. }
  pose proof (Hall retry ltac:(lia)) as Hretried. unfold retried in Hretried.
  destruct (fetch retry) as [status_code body|]; [|exact Hexception].
  destruct (rate_limited status_code); [by apply Hnext|]. cbn [orb] in Hretried.
  destruct (status_code =? 200); [|discriminate].
  destruct body; [exact Hexception|discriminate].
Qed.

Lemma search_loop_outage search max_retries todo retry trace :
  (todo + retry = max_retries)%nat ->
  (forall r, (r < max_retries)%nat -> retried (search r) = true) ->
  (search_loop search max_retries todo retry trace).1 = None
  /\ requests_to Search2 (search_loop search max_retries todo retry trace).2
     = (requests_to Search2 trace + todo)%nat.
Proof.
  revert retry trace. induction todo as [|todo IH]; intros retry trace Hcap Hall;
    cbn [search_loop]; [cbn [fst snd]; split; [done|lia]|].
  assert (requests_to Search2 (trace ++ [api_delay retry; Request Search2 retry])
          = S (requests_to Search2 trace)) as Hturn.
  { unfold requests_to. rewrite List.filter_app, length_app. cbn. lia. }
  assert (requests_to Search2
            ((trace ++ [api_delay retry; Request Search2 retry]) ++ [backoff retry])
          = S (requests_to Search2 trace)) as Hturn'.
  { rewrite requests_to_snoc, Hturn. cbn. lia. }
  assert ((if (S retry <? max_retries)%nat
           then search_loop search max_retries todo (S retry)
                  ((trace ++ [api_delay retry; Request Search2 retry]) ++ [backoff retry])
           else (None, trace ++ [api_delay retry; Request Search2 retry])).1 = None
          /\ requests_to Search2
               (if (S retry <? max_retries)%nat
                then search_loop search max_retries todo (S retry)
                       ((trace ++ [api_delay retry; Request Search2 retry])
                          ++ [backoff retry])
                else (None, trace ++ [api_delay retry; Request Search2 retry])).2
             = (requests_to Search2 trace + S todo)%nat) as Hgive_up.
  { destruct (S retry <? max_retries)%nat eqn:Hmore.
    - destruct (IH (S retry)
                  ((trace ++ [api_delay retry; Request Search2 retry]) ++ [backoff retry]))
        as [Hexit Hcount]; [lia|done|].
      split; [done|]. rewrite Hcount, Hturn'. lia.
    - apply Nat.ltb_ge in Hmore. cbn [fst snd]. split; [done|]. rewrite Hturn. lia. }
  pose proof (Hall retry ltac:(lia)) as Hretried. unfold retried in Hretried.
  destruct (search retry) as [status_code body|]; [|exact Hgive_up].
  destruct (rate_limited status_code); [exact Hgive_up|]. cbn [orb] in Hretried.
  destruct (status_code =? 200); [|discriminate].
  destruct body; [exact Hgive_up|discriminate].
Qed.

(** X18.  What the API fetcher returns comes from a clean reply.  A
    record it returns is the data of a 200 reply of fetchOpportunity with
    error code 0, or the first hit of such a reply of the search
    endpoint; every earlier reply of that endpoint was one that is
    retried, and the search endpoint is not asked at all when
    fetchOpportunity gave the data.  When every reply of both endpoints
    is one that is retried (a rate limit, a raised error, an unreadable
    body), the fetcher returns None after exactly max_retries requests to
    each endpoint. *)
Theorem X18_api_fetcher_result fetch search max_retries :
  let run := get_api_grant_details fetch search max_retries in
  (forall d, run.1 = Some d ->
     (exists r data,
         (r < max_retries)%nat
         /\ fetch r = ApiReply 200 (ApiJson 0 (Some data)) /\ d = fields data
         /\ (forall r', (r' < r)%nat -> retried (fetch r') = true)
         /\ requests_to Search2 run.2 = 0%nat)
     \/ (exists r data rest,
           (r < max_retries)%nat
           /\ search r = ApiReply 200 (ApiJson 0 (Some data))
           /\ oppHits data = Some (d :: rest)
           /\ (forall r', (r' < r)%nat -> retried (search r') = true)))
  /\ ((forall r, (r < max_retries)%nat -> retried (fetch r) = true) ->
      (forall r, (r < max_retries)%nat -> retried (search r) = true) ->
      run.1 = None
      /\ requests_to FetchOpportunity run.2 = max_retries
      /\ requests_to Search2 run.2 = max_retries).
Proof.
  intros run. subst run. unfold get_api_grant_details. split.
  - intros d.
    pose proof (fetch_loop_requests fetch max_retries max_retries 0 []) as [_ Hnone].
    destruct (fetch_loop fetch max_retries max_retries 0 []) as [[d'|] ftrace] eqn:Hfetch.
    + cbn [fst snd] in *. intros [= ->]. left.
      apply fetch_loop_returned in Hfetch as (r & data & Hr & Hreply & Hd & Hbefore).
      exists r, data. split; [lia|]. split; [done|]. split; [done|].
      split; [|exact Hnone]. intros r' Hr'. apply Hbefore. lia.
    + destruct (search_loop search max_retries max_retries 0 ftrace) as [found strace]
        eqn:Hsearch.
      cbn [fst]. intros ->. right.
      apply search_loop_returned in Hsearch as (r & data & rest & Hr & Hreply & Hd & Hbefore).
      exists r, data, rest. split; [lia|]. split; [done|]. split; [done|].
      intros r' Hr'. apply Hbefore. lia.
  - intros Hfetch Hsearch.
    destruct (fetch_loop_outage fetch max_retries max_retries 0 [] ltac:(lia) Hfetch)
      as [Hexit Hcount].
    pose proof (fetch_loop_requests fetch max_retries max_retries 0 []) as [_ Hzero].
    destruct (fetch_loop fetch max_retries max_retries 0 []) as [exit ftrace].
    cbn [fst snd] in Hexit, Hcount, Hzero. subst exit.
    destruct (search_loop_outage search max_retries max_retries 0 ftrace ltac:(lia) Hsearch)
      as [Hnone Hscount].
    pose proof (search_loop_requests search max_retries max_retries 0 ftrace) as [_ Hsame].
    split; [done|]. split.
    + rewrite Hsame, Hcount. reflexivity.
    + rewrite Hscount, Hzero. reflexivity.
Qed.

Lemma page_loop_scraped web max_retries url_index todo retry grant_data trace :
  (url_index < 3)%nat -> (retry + todo <= max_retries)%nat ->
  scraped_from web max_retries grant_data ->
  scraped_from web max_retries
    (page_loop (web url_index) url_index todo retry grant_data trace).1.2.
Proof.
  intros Hurl. revert retry trace.
  induction todo as [|todo IH]; intros retry trace Hcap Hdata; cbn [page_loop]; [done|].
  destruct (web url_index retry) as [status_code found|] eqn:Hreply.
  - destruct (status_code =? 200) eqn:Hok.
    + apply Z.eqb_eq in Hok as ->. cbn [fst snd]. intros key v Hkey.
      apply lookup_union_Some_raw in Hkey as [Hfound | [_ Hold]]; [|by apply Hdata].
      exists url_index, retry, found. split; [done|]. split; [lia|]. done.
    + destruct (rate_limited status_code); [|done]. apply IH; [lia|done].
  - apply IH; [lia|done].
Qed.

Lemma page_loop_requests page url_index todo retry grant_data trace target :
  (requests_to (DetailPage target) (page_loop page url_index todo retry grant_data trace).2
   <= requests_to (DetailPage target) trace
      + (if (url_index =? target)%nat then todo else 0))%nat.
Proof.
  revert retry trace. induction todo as [|todo IH]; intros retry trace; cbn [page_loop].
  - cbn [snd]. lia.
  - assert (requests_to (DetailPage target)
              (trace ++ [web_delay retry; Request (DetailPage url_index) retry])
            = (requests_to (DetailPage target) trace
               + if (url_index =? target)%nat then 1 else 0)%nat) as Hturn.
    { unfold requests_to. rewrite List.filter_app, length_app. cbn.
      by destruct (url_index =? target)%nat. }
    pose proof (IH (S retry)
                  (trace ++ [web_delay retry; Request (DetailPage url_index) retry])) as IH1.
    pose proof (IH (S retry)
                  ((trace ++ [web_delay retry; Request (DetailPage url_index) retry])
                     ++ [backoff retry])) as IH2.
    rewrite requests_to_snoc in IH2.
    change (is_request_to (DetailPage target) (backoff retry)) with false in IH2.
    rewrite Hturn in IH1, IH2.
    destruct (page retry) as [status_code found|].
    + destruct (status_code =? 200); [cbn [snd]; rewrite Hturn|];
        [|destruct (rate_limited status_code); [|cbn [snd]; rewrite Hturn]];
        destruct (url_index =? target)%nat; lia.
    + destruct (url_index =? target)%nat; lia.
Qed.

(** A URL that is reached is asked at least once. *)
Lemma page_loop_asks page url_index todo grant_data trace :
  (1 <= requests_to (DetailPage url_index)
          (page_loop page url_index (S todo) 0 grant_data trace).2)%nat.
Proof.
  destruct (page_loop_turn page url_index todo 0 grant_data trace) as [rest ->].
  etransitivity; [|apply requests_to_more].
  unfold requests_to. rewrite List.filter_app, length_app. cbn.
  rewrite Nat.eqb_refl. cbn. lia.
Qed.

Lemma page_loop_returns page url_index todo retry grant_data trace :
  (page_loop page url_index todo retry grant_data trace).1.1 = true ->
  data_has_required_fields (page_loop page url_index todo retry grant_data trace).1.2 = true.
Proof.
  revert retry trace. induction todo as [|todo IH]; intros retry trace; cbn [page_loop];
    [discriminate|].
  destruct (page retry) as [status_code found|]; [|apply IH].
  destruct (status_code =? 200); [done|].
  destruct (rate_limited status_code); [apply IH|discriminate].
Qed.

Lemma url_loop_extends web max_retries url_indices grant_data trace :
  exists rest, (url_loop web max_retries url_indices grant_data trace).2 = trace ++ rest.
Proof.
  revert grant_data trace.
  induction url_indices as [|i rest IH]; intros grant_data trace; cbn [url_loop].
  - exists []. by rewrite app_nil_r.
  - destruct (page_loop_extends (web i) i max_retries 0 grant_data trace) as [more Hmore].
    destruct (page_loop (web i) i max_retries 0 grant_data trace) as [[[] data] trace1];
      cbn [snd] in Hmore; subst trace1; [by eexists|].
    destruct (IH data (trace ++ more)) as [more' ->]. rewrite <- app_assoc. by eexists.
Qed.

Lemma url_loop_scraped web max_retries url_indices grant_data trace :
  Forall (fun i => i < 3)%nat url_indices ->
  scraped_from web max_retries grant_data ->
  scraped_from web max_retries (url_loop web max_retries url_indices grant_data trace).1.
Proof.
  revert grant_data trace.
  induction url_indices as [|i rest IH]; intros grant_data trace Hall Hdata; cbn [url_loop];
    [done|].
  apply Forall_cons in Hall as [Hi Hall].
  pose proof (page_loop_scraped web max_retries i max_retries 0 grant_data trace Hi
                ltac:(lia) Hdata) as Hpage.
  destruct (page_loop (web i) i max_retries 0 grant_data trace) as [[[] data] trace1];
    cbn [fst snd] in Hpage; [done|]. by apply IH.
Qed.

Lemma url_loop_requests web max_retries url_indices grant_data trace target :
  (requests_to (DetailPage target) (url_loop web max_retries url_indices grant_data trace).2
   <= requests_to (DetailPage target) trace
      + max_retries * length (List.filter (Nat.eqb target) url_indices))%nat.
Proof.
  revert grant_data trace.
  induction url_indices as [|i rest IH]; intros grant_data trace; cbn [url_loop].
  - cbn [snd List.filter length]. lia.
  - pose proof (page_loop_requests (web i) i max_retries 0 grant_data trace target) as Hpage.
    cbn [List.filter]. rewrite (Nat.eqb_sym target i).
    destruct (page_loop (web i) i max_retries 0 grant_data trace) as [[[] data] trace1];
      cbn [snd] in Hpage |- *.
    + destruct (i =? target)%nat; cbn [length]; nia.
    + specialize (IH data trace1). destruct (i =? target)%nat; cbn [length]; nia.
Qed.

Lemma url_loop_tries_all web max_retries url_indices grant_data trace :
  data_has_required_fields (url_loop web (S max_retries) url_indices grant_data trace).1
  = false ->
  forall i, In i url_indices ->
    (1 <= requests_to (DetailPage i)
            (url_loop web (S max_retries) url_indices grant_data trace).2)%nat.
Proof.
  revert grant_data trace.
  induction url_indices as [|j rest IH]; intros grant_data trace Hlacks i Hi; [done|].
  cbn [url_loop] in *.
  pose proof (page_loop_asks (web j) j max_retries grant_data trace) as Hasks.
  pose proof (page_loop_returns (web j) j (S max_retries) 0 grant_data trace) as Hreturns.
  destruct (page_loop (web j) j (S max_retries) 0 grant_data trace) as [[[] data] trace1];
    cbn [fst snd] in *.
  - rewrite Hreturns in Hlacks by done. discriminate Hlacks.
  - destruct Hi as [<-|Hi]; [|by apply IH].
    destruct (url_loop_extends web (S max_retries) rest data trace1) as [more ->].
    etransitivity; [exact Hasks|apply requests_to_more].
Qed.

(** X19.  What the page scraper brings back was read from a page.  Every
    field of the record it returns was found on a page that one of the
    three URLs gave with status 200, within the retry cap; no URL is
    asked more than max_retries times; and when the record holds none of
    awardCeiling, awardFloor and expectedNumOfAwards, each of the three
    URLs was asked at least once (given a cap of at least 1). *)
Theorem X19_web_scraper_result web max_retries :
  let run := get_grant_details_from_web web max_retries in
  scraped_from web max_retries run.1
  /\ (forall url_index,
        (requests_to (DetailPage url_index) run.2
         <= if (url_index <? 3)%nat then max_retries else 0)%nat)
  /\ ((1 <= max_retries)%nat -> data_has_required_fields run.1 = false ->
      forall url_index, (url_index < 3)%nat ->
                        (1 <= requests_to (DetailPage url_index) run.2)%nat).
Proof.
  intros run. subst run. unfold get_grant_details_from_web. split; [|split].
  - apply url_loop_scraped.
    + repeat (apply Forall_cons; split; [lia|]). apply List.Forall_nil.
    + intros key v. by rewrite lookup_empty.
  - intros url_index.
    pose proof (url_loop_requests web max_retries [0; 1; 2]%nat ∅ [] url_index) as Hle.
    change (requests_to (DetailPage url_index) []) with 0%nat in Hle.
    destruct url_index as [|[|[|k]]]; cbn in Hle |- *; lia.
  - intros Hcap Hlacks url_index Hurl.
    destruct max_retries as [|k]; [lia|].
    apply url_loop_tries_all; [done|].
    destruct url_index as [|[|[|j]]]; cbn; [tauto|tauto|tauto|lia].
Qed.

End FetcherMore.

(** ** The repair run *)

Section RepairRunMore.

Import Scraper.

Implicit Types (keys rows : list string) (t : gmap (string * string) (gmap string Py.value)).

Lemma existsb_eqb_In k keys : existsb (String.eqb k) keys = true <-> In k keys.
Proof.
  rewrite existsb_exists. split.
  - intros (x & Hx & ->%String.eqb_eq). done.
  - intros Hk. exists k. split; [done|apply String.eqb_refl].
Qed.

Lemma put_keys_In keys rows k :
  In k (foldl put_key keys rows) <-> In k keys \/ In k rows.
Proof.
  revert keys. induction rows as [|r rows IH]; intros keys; cbn [foldl].
  - cbn. tauto.
  - rewrite IH. unfold put_key.
    destruct (existsb (String.eqb r) keys) eqn:Hr.
    + apply existsb_eqb_In in Hr. cbn. split; [tauto|]. intros [?|[<-|?]]; tauto.
    + rewrite in_app_iff. cbn. tauto.
Qed.

Lemma put_keys_NoDup keys rows : NoDup keys -> NoDup (foldl put_key keys rows).
Proof.
  revert keys. induction rows as [|r rows IH]; intros keys Hkeys; cbn [foldl]; [done|].
  apply IH. unfold put_key. destruct (existsb (String.eqb r) keys) eqn:Hr; [done|].
  apply NoDup_app. split; [done|]. split; [|apply NoDup_singleton].
  intros x Hx ->%list_elem_of_singleton.
  assert (existsb (String.eqb r) keys = true) by (by apply existsb_eqb_In, list_elem_of_In).
  congruence.
Qed.

Lemma filter_all {A} (l : list A) : List.filter (fun _ => true) l = l.
Proof. induction l as [|x l IH]; [done|]. cbn. by rewrite IH. Qed.

(** Distinct rows are put in one after the other, those already there
    left out. *)
Lemma put_keys_distinct keys rows :
  NoDup rows ->
  foldl put_key keys rows
  = keys ++ List.filter (fun r => negb (existsb (String.eqb r) keys)) rows.
Proof.
  revert keys. induction rows as [|r rows IH]; intros keys Hrows; cbn [foldl List.filter].
  - by rewrite app_nil_r.
  - apply NoDup_cons in Hrows as [Hr Hrows]. rewrite IH by done. unfold put_key.
    destruct (existsb (String.eqb r) keys) eqn:Hseen; cbn [negb]; [done|].
    rewrite <- app_assoc. cbn [app]. do 2 f_equal.
    apply List.filter_ext_in. intros x Hx. f_equal.
    rewrite existsb_app. cbn. rewrite orb_false_r.
    destruct (String.eqb x r) eqn:Hxr; [|by rewrite orb_false_r].
    apply String.eqb_eq in Hxr as ->. destruct Hr. by apply list_elem_of_In.
Qed.

(** X20.  The ids the repair run picks.  Without ids on the command
    line, the run takes the row keys the two queries answer with, each
    once: the list has no repeats, holds only keys of the two answers,
    and has at most 100 entries.  When the answers hold at most 100
    distinct keys all of them are taken; when they hold more, only 25
    are.  As each answer lists a key once, the ceiling rows come first, in
    their order, then the floor rows not among them, so that with more
    than 100 distinct keys and at least 25 ceiling rows it is the first 25
    ceiling rows that are repaired.  Ids given on the command line are
    taken as they are. *)
Theorem X20_repair_run_ids ceiling_grants floor_grants :
  let ids := grant_ids [] ceiling_grants floor_grants in
  let distinct := grants_dict_keys (ceiling_grants ++ floor_grants) in
  NoDup ids
  /\ (forall id, In id ids -> In id ceiling_grants \/ In id floor_grants)
  /\ (length ids <= 100)%nat
  /\ ((length distinct <= 100)%nat ->
      forall id, In id ceiling_grants \/ In id floor_grants -> In id ids)
  /\ ((100 < length distinct)%nat -> length ids = 25%nat)
  /\ (NoDup ceiling_grants -> NoDup floor_grants ->
      distinct = ceiling_grants
                 ++ List.filter (fun r => negb (existsb (String.eqb r) ceiling_grants))
                                floor_grants
      /\ ((100 < length distinct)%nat -> (25 <= length ceiling_grants)%nat ->
          ids = firstn 25 ceiling_grants))
  /\ (forall arg args, grant_ids (arg :: args) ceiling_grants floor_grants = arg :: args).
Proof.
  intros ids distinct.
  assert (NoDup distinct) as Hnodup by (apply put_keys_NoDup, NoDup_nil_2).
  assert (forall id, In id distinct <-> In id ceiling_grants \/ In id floor_grants) as Hin.
  { intros id. unfold distinct, grants_dict_keys. rewrite put_keys_In, in_app_iff. cbn. tauto. }
  assert (ids = if (100 <? length distinct)%nat then firstn 25 distinct else distinct) as Hids.
  { unfold ids, grant_ids. fold distinct. destruct (100 <? length distinct)%nat; [|done].
    rewrite slice_drop_take by lia. reflexivity. }
  assert (distinct = firstn 25 distinct ++ skipn 25 distinct) as Hsplit
    by (by rewrite firstn_skipn).
  split; [|split; [|split; [|split; [|split; [|split]]]]].
  - rewrite Hids. destruct (100 <? length distinct)%nat; [|done].
    rewrite Hsplit in Hnodup. by apply NoDup_app in Hnodup as [? _].
  - intros id. rewrite Hids, <- Hin.
    destruct (100 <? length distinct)%nat; [|done].
    intros Hid%list_elem_of_In. apply list_elem_of_In. by apply (subseteq_take 25).
  - rewrite Hids. destruct (100 <? length distinct)%nat eqn:Hmany.
    + rewrite length_firstn. lia.
    + apply Nat.ltb_ge in Hmany. done.
  - intros Hfew id. rewrite <- Hin, Hids.
    apply Nat.ltb_ge in Hfew. by rewrite Hfew.
  - intros Hmany. rewrite Hids. pose proof Hmany as Hlt.
    apply Nat.ltb_lt in Hmany. rewrite Hmany, length_firstn. lia.
  - intros Hceiling Hfloor.
    assert (distinct = ceiling_grants
                       ++ List.filter (fun r => negb (existsb (String.eqb r) ceiling_grants))
                                      floor_grants) as Hdistinct.
    { unfold distinct, grants_dict_keys. rewrite foldl_app.
      rewrite (put_keys_distinct [] ceiling_grants) by done. cbn [app existsb negb].
      rewrite filter_all. by apply put_keys_distinct. }
    split; [done|]. intros Hmany Hlong. rewrite Hids.
    apply Nat.ltb_lt in Hmany. rewrite Hmany, Hdistinct.
    rewrite firstn_app. replace (25 - length ceiling_grants)%nat with 0%nat by lia.
    by rewrite firstn_O, app_nil_r.
  - done.
Qed.

(** One call of [fix_grant], as the run sees it. *)
Lemma fix_grant_with_frame web_data api_data now grant_id t :
  let run := fix_grant_with web_data api_data now grant_id t in
  (run.2 = false -> run.1 = t)
  /\ (forall k, k <> ("Grant", grant_id) -> run.1 !! k = t !! k)
  /\ (forall k, is_Some (run.1 !! k) <-> is_Some (t !! k))
  /\ (forall k col, ~ In col fix_columns -> (run.1 !! k) ≫= (.!! col) = (t !! k) ≫= (.!! col)).
Proof.
  intros run. subst run.
  destruct (fix_grant_with web_data api_data now grant_id t) as [t' b] eqn:Hrun.
  cbn [fst snd].
  apply fix_grant_with_cases in Hrun as [[-> ->] | (entity & fx & Hentity & Hfx & _ & -> & ->)];
    [done|].
  destruct (collect_fixes_ok _ _ _ _ Hfx) as ((_ & Hcols & _) & _).
  split; [discriminate|]. split; [|split].
  - intros k Hk. by rewrite lookup_insert_ne.
  - intros k. destruct (decide (k = ("Grant", grant_id))) as [->|Hk].
    + rewrite lookup_insert_eq, Hentity. split; by eexists.
    + by rewrite lookup_insert_ne.
  - intros k col Hcol. destruct (decide (k = ("Grant", grant_id))) as [->|Hk];
      [|by rewrite lookup_insert_ne].
    rewrite lookup_insert_eq, Hentity. cbn. rewrite lookup_union.
    assert (col <> "LastFixed") as Hne by (intros ->; apply Hcol; cbn; tauto).
    rewrite lookup_insert_ne by done.
    destruct (updates fx !! col) as [v|] eqn:Hv.
    + destruct Hcol. apply Hcols. by exists v.
    + by destruct (entity !! col).
Qed.

(** X21.  A whole repair run keeps the table's shape.  Whatever the
    fetchers bring back, the run neither adds nor removes an entity,
    leaves every entity whose id is not in the list as it was, changes no
    column besides the six repair columns in any entity, and counts at
    most one fix per grant of the list; a count of zero means that the
    table is as it was. *)
Theorem X21_repair_run_frame jobs t :
  let run := process_grants jobs t in
  (forall k, is_Some (run.1 !! k) <-> is_Some (t !! k))
  /\ (forall k, (forall job, In job jobs -> k <> ("Grant", job.1.1.1)) -> run.1 !! k = t !! k)
  /\ (forall k col, ~ In col fix_columns -> (run.1 !! k) ≫= (.!! col) = (t !! k) ≫= (.!! col))
  /\ 0 <= run.2 <= Z.of_nat (length jobs)
  /\ (run.2 = 0 -> run.1 = t).
Proof.
  intros run. subst run. unfold process_grants.
  assert (forall acc : Table.table * Z,
             let run := foldl (fun (acc : Table.table * Z)
                                   '(grant_id, web_data, api_data, now) =>
                                 let '(t', fixed) :=
                                   fix_grant_with web_data api_data now grant_id acc.1 in
                                 (t', if fixed then acc.2 + 1 else acc.2)) acc jobs in
             (forall k, is_Some (run.1 !! k) <-> is_Some (acc.1 !! k))
             /\ (forall k, (forall job, In job jobs -> k <> ("Grant", job.1.1.1)) ->
                           run.1 !! k = acc.1 !! k)
             /\ (forall k col, ~ In col fix_columns ->
                               (run.1 !! k) ≫= (.!! col) = (acc.1 !! k) ≫= (.!! col))
             /\ acc.2 <= run.2 <= acc.2 + Z.of_nat (length jobs)
             /\ (run.2 = acc.2 -> run.1 = acc.1)) as Hrun.
  { induction jobs as [|[[[grant_id web_data] api_data] now] jobs IH]; intros acc;
      cbn [foldl length].
    - cbn zeta. split; [done|]. split; [done|]. split; [done|]. split; [lia|done].
    - destruct acc as [t0 n0]. cbn [fst snd].
      pose proof (fix_grant_with_frame web_data api_data now grant_id t0)
        as (Hfalse & Hother & Hsame & Hcols).
      destruct (fix_grant_with web_data api_data now grant_id t0) as [t1 fixed].
      cbn [fst snd] in Hfalse, Hother, Hsame, Hcols.
      specialize (IH (t1, if fixed then n0 + 1 else n0)).
      cbn zeta in IH. cbn [fst snd] in IH.
      destruct IH as (IHsame & IHother & IHcols & IHcount & IHzero).
      cbn zeta. split; [|split; [|split; [|split]]].
      + intros k. by rewrite IHsame, Hsame.
      + intros k Hk. rewrite IHother by (intros job Hjob; apply Hk; by right).
        apply Hother. exact (Hk (grant_id, web_data, api_data, now) (or_introl eq_refl)).
      + intros k col Hcol. by rewrite IHcols, Hcols.
      + destruct fixed; lia.
      + intros Hn. destruct fixed; [lia|]. rewrite (IHzero Hn). by apply Hfalse. }
  specialize (Hrun (t, 0)). cbn zeta in Hrun. cbn [fst snd] in Hrun.
  destruct Hrun as (Hsame & Hother & Hcols & Hcount & Hzero).
  split; [done|]. split; [done|]. split; [done|]. split; [lia|done].
Qed.

End RepairRunMore.

(** ** Amounts and dates across the scripts *)

Section CoercionMore.

Lemma keep_chars_remove keep c s :
  keep c = false -> Py.keep_chars keep (Py.remove_char c s) = Py.keep_chars keep s.
Proof.
  intros Hc. induction s as [|d r IH]; [done|]. cbn.
  destruct (Ascii.eqb c d) eqn:Hcd.
  - apply Ascii.eqb_eq in Hcd as <-. by rewrite Hc.
  - cbn. by rewrite IH.
Qed.

Lemma clean_amount_keeps s :
  Collector.clean_amount s
  = let value := Py.keep_chars Scraper.float_char s in
    if String.eqb value "" || String.eqb value "." || String.eqb value "-"
       || String.eqb value "-."
    then None else Some value.
Proof.
  unfold Collector.clean_amount.
  change Collector.numeric_char with Scraper.float_char.
  by rewrite !keep_chars_remove by reflexivity.
Qed.

(** X22.  The two scripts read amounts alike.  On None, on a boolean or
    a number, on a list or dict and on every ASCII text, [safe_float] of
    the resilient collector and [safe_float] of the scraper give the same
    result for the same default: the collector's removal of "$" and ","
    and its four early returns change nothing that the scraper's single
    pattern does not already do.  (Outside ASCII the scraper's [\d] also
    keeps other decimal digits, which the collector's [0-9] drops.) *)
Theorem X22_safe_float_agree (value : Py.value) (dflt : Q) :
  (forall s, value = Py.VStr s -> Py.is_ascii s = true) ->
  Collector.safe_float value dflt = Scraper.safe_float value dflt.
Proof.
  intros _. destruct value as [|b|z|q|s|]; try reflexivity.
  - unfold Collector.safe_float, Scraper.safe_float, Py.float_of_number.
    by destruct (Z.abs z <? Py.float_int_bound).
  - unfold Collector.safe_float, Scraper.safe_float. rewrite clean_amount_keeps. cbn zeta.
    set (value := Py.keep_chars Scraper.float_char s).
    destruct (String.eqb value "") eqn:H1; [apply String.eqb_eq in H1 as ->; reflexivity|].
    destruct (String.eqb value ".") eqn:H2; [apply String.eqb_eq in H2 as ->; reflexivity|].
    destruct (String.eqb value "-") eqn:H3; [apply String.eqb_eq in H3 as ->; reflexivity|].
    destruct (String.eqb value "-.") eqn:H4; [apply String.eqb_eq in H4 as ->; reflexivity|].
    cbn [orb]. by destruct (Py.float_of_decimal value).
Qed.

Lemma append_assoc (a b c : string) : (a +:+ b) +:+ c = a +:+ (b +:+ c).
Proof.
  induction a as [|x a IH]; [done|].
  change (String x a +:+ b) with (String x (a +:+ b)).
  change (String x (a +:+ b) +:+ c) with (String x ((a +:+ b) +:+ c)).
  change (String x a +:+ (b +:+ c)) with (String x (a +:+ (b +:+ c))). by rewrite IH.
Qed.

Lemma rev_app_snoc a c acc :
  String.rev_app (a +:+ String c "") acc = String c (String.rev_app a acc).
Proof.
  revert acc. induction a as [|x a IH]; intros acc; [done|].
  change (String x a +:+ String c "") with (String x (a +:+ String c "")).
  cbn [String.rev_app]. by rewrite IH.
Qed.

Lemma rev_app_rev_app a b c :
  String.rev_app (String.rev_app a b) c = String.rev_app b (a +:+ c).
Proof.
  revert b c. induction a as [|x a IH]; intros b c; [done|].
  cbn [String.rev_app]. by rewrite IH.
Qed.

Lemma rev_rev s : String.rev (String.rev s) = s.
Proof. unfold String.rev. rewrite rev_app_rev_app. cbn. apply append_nil_r. Qed.

(** Every character [zfill] writes is a digit. *)
Lemma zfill_head w n :
  Py.zfill w n = "" \/ exists x r, 0 <= x <= 9 /\ Py.zfill w n = String (Py.digit_char x) r.
Proof.
  revert n. induction w as [|w IH]; intros n; [by left|]. right. cbn [Py.zfill].
  destruct (IH (n / 10)) as [-> | (x & r & Hx & ->)].
  - exists (n mod 10), "". split; [|done]. pose proof (Z.mod_pos_bound n 10). lia.
  - exists x, (r +:+ String (Py.digit_char (n mod 10)) ""). done.
Qed.

Lemma digit_char_cases x :
  0 <= x <= 9 ->
  x = 0 \/ x = 1 \/ x = 2 \/ x = 3 \/ x = 4 \/ x = 5 \/ x = 6 \/ x = 7 \/ x = 8 \/ x = 9.
Proof. lia. Qed.

Lemma digit_char_digit x :
  0 <= x <= 9 ->
  Py.is_digit (Py.digit_char x) = true /\ Py.digit_value (Py.digit_char x) = x
  /\ Py.is_c_space (Py.digit_char x) = false
  /\ Ascii.eqb (Py.digit_char x) "+" = false /\ Ascii.eqb (Py.digit_char x) "-" = false.
Proof.
  intros Hx. destruct (digit_char_cases x Hx) as [->|[->|[->|[->|[->|[->|[->|[->|[->| ->]]]]]]]]];
    vm_compute; repeat split.
Qed.

Lemma strip_digits a x :
  0 <= x <= 9 ->
  (a = "" \/ exists y r, 0 <= y <= 9 /\ a = String (Py.digit_char y) r) ->
  Py.strip Py.is_c_space (a +:+ String (Py.digit_char x) "") = a +:+ String (Py.digit_char x) "".
Proof.
  intros Hx Ha. destruct (digit_char_digit x Hx) as (_ & _ & Hspace & _).
  assert (Py.lstrip Py.is_c_space (a +:+ String (Py.digit_char x) "")
          = a +:+ String (Py.digit_char x) "") as Hleft.
  { destruct Ha as [-> | (y & r & Hy & ->)].
    - change ("" +:+ String (Py.digit_char x) "") with (String (Py.digit_char x) "").
      cbn [Py.lstrip]. by rewrite Hspace.
    - destruct (digit_char_digit y Hy) as (_ & _ & Hspace' & _).
      change (String (Py.digit_char y) r +:+ String (Py.digit_char x) "")
        with (String (Py.digit_char y) (r +:+ String (Py.digit_char x) "")).
      cbn [Py.lstrip]. by rewrite Hspace'. }
  unfold Py.strip, Py.rstrip. rewrite Hleft.
  assert (String.rev (a +:+ String (Py.digit_char x) "")
          = String (Py.digit_char x) (String.rev a)) as Hrev
    by (unfold String.rev; apply rev_app_snoc).
  rewrite Hrev. cbn [Py.lstrip]. rewrite Hspace, <- Hrev. apply rev_rev.
Qed.

(** [int] reads the digits [zfill] wrote. *)
Lemma int_digits_zfill w n prev acc count rest :
  0 <= n < 10 ^ Z.of_nat w ->
  Py.int_digits prev acc count (Py.zfill w n +:+ rest)
  = Py.int_digits (prev || (0 <? w)%nat) (acc * 10 ^ Z.of_nat w + n) (count + w)%nat rest.
Proof.
  revert n rest. induction w as [|w IH]; intros n rest Hn.
  - cbn [Py.zfill]. change ("" +:+ rest) with rest.
    rewrite orb_false_r, Nat.add_0_r. f_equal. cbn in Hn. lia.
  - cbn [Py.zfill]. rewrite append_assoc.
    change (String (Py.digit_char (n mod 10)) "" +:+ rest)
      with (String (Py.digit_char (n mod 10)) rest).
    assert (0 <= n mod 10 <= 9) as Hdigit by (pose proof (Z.mod_pos_bound n 10); lia).
    assert (0 <= n / 10 < 10 ^ Z.of_nat w) as Hrest.
    { rewrite Nat2Z.inj_succ, Z.pow_succ_r in Hn by lia.
      split; [apply Z.div_pos; lia|]. apply Z.div_lt_upper_bound; lia. }
    rewrite IH by done. cbn [Py.int_digits].
    destruct (digit_char_digit (n mod 10) Hdigit) as (-> & -> & _).
    rewrite orb_true_r. f_equal.
    + rewrite Nat2Z.inj_succ, Z.pow_succ_r by lia.
      pose proof (Z.div_mod n 10). lia.
    + lia.
Qed.

Lemma int_zfill w n :
  (1 <= w <= Py.int_max_str_digits)%nat -> 0 <= n < 10 ^ Z.of_nat w ->
  Py.int (Py.zfill w n) = Some n.
Proof.
  intros Hw Hn. unfold Py.int.
  destruct w as [|w]; [lia|].
  assert (Py.strip Py.is_c_space (Py.zfill (S w) n) = Py.zfill (S w) n) as ->.
  { cbn [Py.zfill]. apply strip_digits; [|apply zfill_head].
    pose proof (Z.mod_pos_bound n 10). lia. }
  assert (Py.int_unsigned (Py.zfill (S w) n) = Some n) as Hunsigned.
  { unfold Py.int_unsigned. rewrite <- (append_nil_r (Py.zfill (S w) n)).
    rewrite int_digits_zfill by done. cbn [Py.int_digits orb Nat.ltb Nat.leb].
    replace (0 * 10 ^ Z.of_nat (S w) + n) with n by lia.
    destruct (0 + S w <=? Py.int_max_str_digits)%nat eqn:Hle; [done|].
    apply Nat.leb_gt in Hle. lia. }
  destruct (zfill_head (S w) n) as [Hempty | (x & r & Hx & Hhead)].
  - pose proof (zfill_length (S w) n) as Hlen. rewrite Hempty in Hlen. discriminate Hlen.
  - destruct (digit_char_digit x Hx) as (_ & _ & _ & Hplus & Hminus).
    rewrite Hhead in Hunsigned |- *.
    destruct (Py.digit_char x) as [b0 b1 b2 b3 b4 b5 b6 b7].
    destruct b0, b1, b2, b3, b4, b5, b6, b7; try discriminate; exact Hunsigned.
Qed.

Lemma substring_head a r n :
  n = String.length a -> String.substring 0 n (a +:+ r) = a.
Proof.
  intros ->. induction a as [|c a IH]; [by destruct r|].
  change (String c a +:+ r) with (String c (a +:+ r)). cbn. by rewrite IH.
Qed.

Lemma substring_skip a r k m :
  k = String.length a -> String.substring k m (a +:+ r) = String.substring 0 m r.
Proof.
  intros ->. induction a as [|c a IH]; [done|].
  change (String c a +:+ r) with (String c (a +:+ r)). cbn. apply IH.
Qed.

Lemma str_slice_within s lo hi :
  0 <= lo <= hi -> hi <= Py.len s ->
  Py.str_slice s lo hi = String.substring (Z.to_nat lo) (Z.to_nat (hi - lo)) s.
Proof.
  intros Hlo Hhi. unfold Py.str_slice, Py.slice_index.
  destruct (lo <? 0) eqn:Hl; [lia|]. destruct (hi <? 0) eqn:Hh; [lia|].
  by rewrite !Z.min_l by lia.
Qed.

(** X23.  The date parser of the bulk extract reads back every calendar
    date written as MMDDYYYY: for a day (y, m, d) of the calendar, years 1
    to 9999, the eight digits made of the month and the day on two digits
    and the year on four are parsed to that same day. *)
Theorem X23_bulk_date_round_trip y m d :
  Py.valid_date y m d = true ->
  BulkEtl.parse_grants_date (Py.VStr (Py.zfill 2 m +:+ Py.zfill 2 d +:+ Py.zfill 4 y))
  = Some (y, m, d).
Proof.
  intros Hvalid. pose proof Hvalid as Hrange. unfold Py.valid_date in Hrange.
  rewrite !andb_true_iff, !Z.leb_le in Hrange.
  destruct Hrange as (((((Hy1 & Hy2) & Hm1) & Hm2) & Hd1) & Hd2).
  assert (d <= 31) as Hd31.
  { unfold Py.days_in_month in Hd2.
    destruct (m =? 2); [destruct (Py.is_leap y); lia|].
    destruct ((m =? 4) || (m =? 6) || (m =? 9) || (m =? 11)); lia. }
  set (s := Py.zfill 2 m +:+ Py.zfill 2 d +:+ Py.zfill 4 y).
  assert (String.length s = 8%nat) as Hlen
    by (unfold s; by rewrite !length_append, !zfill_length).
  assert (Py.len s = 8) as Hlen8 by (unfold Py.len; by rewrite Hlen).
  assert (Py.str_slice s 0 2 = Py.zfill 2 m) as Hmonth.
  { rewrite str_slice_within by lia.
    change (Z.to_nat 0) with 0%nat. change (Z.to_nat (2 - 0)) with 2%nat.
    apply substring_head. by rewrite zfill_length. }
  assert (Py.str_slice s 2 4 = Py.zfill 2 d) as Hday.
  { rewrite str_slice_within by lia.
    change (Z.to_nat 2) with 2%nat. change (Z.to_nat (4 - 2)) with 2%nat.
    unfold s. rewrite substring_skip by (by rewrite zfill_length).
    apply substring_head. by rewrite zfill_length. }
  assert (Py.str_slice s 4 8 = Py.zfill 4 y) as Hyear.
  { rewrite str_slice_within by lia.
    change (Z.to_nat 4) with 4%nat. change (Z.to_nat (8 - 4)) with 4%nat.
    unfold s. rewrite <- append_assoc.
    rewrite substring_skip by (by rewrite length_append, !zfill_length).
    rewrite <- (append_nil_r (Py.zfill 4 y)) at 1.
    apply substring_head. by rewrite zfill_length. }
  unfold BulkEtl.parse_grants_date. fold s.
  assert (String.eqb s "" = false) as ->.
  { apply String.eqb_neq. intros Hs. rewrite Hs in Hlen. discriminate Hlen. }
  unfold Py.len at 1. rewrite Hlen. cbn [Z.of_nat Pos.of_succ_nat Pos.succ Z.eqb Pos.eqb].
  rewrite Hmonth, Hday, Hyear.
  rewrite !int_zfill by (cbn; unfold Py.int_max_str_digits; lia).
  rewrite Hvalid.
  assert ((1 <=? m) && (m <=? 12) && (1 <=? d) && (d <=? 31) = true) as ->; [|done].
  rewrite !andb_true_iff, !Z.leb_le. lia.
Qed.

End CoercionMore.

(** X22 at work: an amount with a currency sign and separators. *)
Lemma X22_safe_float_agree_witness :
  Collector.safe_float (Py.VStr "USD $1,250,000.50") 0
  = Scraper.safe_float (Py.VStr "USD $1,250,000.50") 0.
Proof.
  apply X22_safe_float_agree. intros s [= <-]. vm_compute. exact eq_refl.
Defined.

(** X23 at work: the last day of February in a leap year. *)
Lemma X23_bulk_date_round_trip_witness :
  BulkEtl.parse_grants_date (Py.VStr "02292024") = Some (2024, 2, 29).
Proof. exact (X23_bulk_date_round_trip 2024 2 29 eq_refl). Defined.

(** X15 at work: the repair of a grant without award amounts from a page
    that gives them in the wrong order. *)
Lemma X15_fix_grant_writes_ordered_amounts_witness :
  exists entity written : gmap string Py.value,
    Samples.unpriced_table !! ("Grant", "324456") = Some entity
    /\ written !! "LastFixed" = Some (Py.VStr "2026-11-03T10:00:00")
    /\ (forall f c, written !! "AwardFloor" = Some (Py.VFloat f) ->
                    written !! "AwardCeiling" = Some (Py.VFloat c) -> (f <= c)%Q).
Proof.
  destruct (X15_fix_grant_writes_ordered_amounts Samples.inverted_page None
              "2026-11-03T10:00:00" "324456" Samples.unpriced_table
              (Scraper.fix_grant_with Samples.inverted_page None "2026-11-03T10:00:00"
                 "324456" Samples.unpriced_table).1)
    as (entity & written & Hentity & _ & Hfixed & _ & _ & Hordered).
  { vm_compute. exact eq_refl. }
  exists entity, written. split; [exact Hentity|]. split; [exact Hfixed | exact Hordered].
Defined.

(** X17 at work: nothing scraped, and an API record that names a
    ceiling. *)
Lemma X17_fix_grant_stock_values_witness :
  let run := Scraper.fix_grant_with ∅ (Some {[ "awardCeiling" := Py.VStr "750000" ]})
               "2026-11-03T10:00:00" "324456" Samples.unpriced_table in
  run.2 = true
  /\ (run.1 !! ("Grant", "324456")) ≫= (.!! "AwardCeiling") = Some (Py.VFloat 250000)
  /\ (run.1 !! ("Grant", "324456")) ≫= (.!! "AwardFloor") = Some (Py.VFloat 50000).
Proof.
  destruct (X17_fix_grant_stock_values (Some {[ "awardCeiling" := Py.VStr "750000" ]})
              "2026-11-03T10:00:00" "324456" Samples.unpriced_table Samples.unpriced_grant)
    as (_ & Htrue & Hceiling & Hfloor).
  - vm_compute. exact eq_refl.
  - vm_compute. exact eq_refl.
  - vm_compute. exact eq_refl.
  - split; [exact Htrue|]. split; [exact Hceiling | exact Hfloor].
Defined.
